(** * Batch NFT minting pipeline (src/PKConverter.js, the minting script)

    A shallow embedding of the minting script: the configuration object,
    [calculateSize], [uploadFile], [mintSingleNFT] and [batchMintNFTs],
    with the chunked [Promise.all] concurrency of the batch loop.

    - JavaScript numbers are binary64 floats ([PrimFloat.float]); byte sizes
      and loop indices, which the script only ever adds and compares, are
      integers.
    - A string is the UTF-8 text of a JavaScript string; comparisons go
      through its UTF-16 code units, as in JavaScript.
    - An [async] function is a tree of calls ([task]): every call the function
      makes, with one continuation per reply.  Calls on the storage client,
      the ledger and the event loop suspend the function; [Math.random],
      [generateSigner] and the console do not.
    - The storage client, the ledger, the random generator and the event
      loop's scheduling are arbitrary: theorems quantify over them. *)

From Stdlib Require Import ZArith NArith List String Ascii Bool Lia PeanoNat.
From Stdlib Require Import PrimFloat SpecFloat FloatOps.
From Stdlib Require Import Sorted Permutation Eqdep.
Import ListNotations.

#[local] Set Warnings "-register-all".
Open Scope string_scope.

(** ** JavaScript values *)

(** The outcome of an operation that may throw: a value, or the [message] of
    the thrown [Error]. *)
Inductive result (A : Type) : Type :=
| Ok (a : A)
| Err (message : string).
Arguments Ok {A} a.
Arguments Err {A} message.

(** What [JSON.parse] can return. *)
Inductive json : Type :=
| JNull
| JBool (b : bool)
| JNum (x : float)
| JStr (s : string)
| JArr (items : list json)
| JObj (fields : list (string * json)).

(** A value read from a property: [None] is [undefined]. *)
Definition jsval : Type := option json.

(** [fields] in source order; as in [JSON.parse], the last binding of a
    duplicated key wins. *)
Fixpoint lookup (key : string) (fields : list (string * json)) : jsval :=
  match fields with
  | [] => None
  | (k, v) :: rest =>
      match lookup key rest with
      | Some v' => Some v'
      | None => if k =? key then Some v else None
      end
  end.

(** [v.key], for the keys the script reads (none of them is a property of
    strings, arrays, numbers or booleans). *)
Definition get_prop (v : json) (key : string) : result jsval :=
  match v with
  | JNull => Err ("Cannot read properties of null (reading '" ++ key ++ "')")
  | JObj fields => Ok (lookup key fields)
  | _ => Ok None
  end.

Definition number_truthy (x : float) : bool :=
  negb (PrimFloat.eqb x 0 || PrimFloat.is_nan x).

(** ToBoolean. *)
Definition truthy (v : jsval) : bool :=
  match v with
  | None => false
  | Some JNull => false
  | Some (JBool b) => b
  | Some (JNum x) => number_truthy x
  | Some (JStr s) => negb (s =? "")
  | Some (JArr _) => true
  | Some (JObj _) => true
  end.

(** [a || b] *)
Definition js_or (a b : jsval) : jsval := if truthy a then a else b.

(** ToPrimitive, as far as it can throw.  Converting an object to a string
    or to a number calls its [toString]; an object from [JSON.parse] that has
    a property [toString] of its own has one that is not a function, and the
    conversion throws a TypeError.  An array is converted by joining its
    items, each converted in turn. *)
Fixpoint convertible (v : json) : bool :=
  match v with
  | JObj fields =>
      match lookup "toString" fields with
      | Some _ => false
      | None => true
      end
  | JArr items => forallb convertible items
  | _ => true
  end.

Definition ToPrimitive (v : jsval) : result unit :=
  match v with
  | Some j =>
      if convertible j then Ok tt
      else Err "Cannot convert object to primitive value"
  | None => Ok tt
  end.

(** ** Strings *)

Definition continuation (b : N) : bool := ((128 <=? b) && (b <? 192))%N.

(** The UTF-16 code units of a string given as UTF-8 text.  A surrogate on
    its own, which a JavaScript string may hold, is written in three bytes
    like any other code unit from U+0800 on.  A byte that is not part of
    such text counts as U+FFFD. *)
Fixpoint code_units (s : string) : list N :=
  match s with
  | EmptyString => []
  | String a rest =>
      let x := N_of_ascii a in
      if (x <? 128)%N then x :: code_units rest
      else
        match rest with
        | String b rest2 =>
            let y := N_of_ascii b in
            if ((194 <=? x) && (x <? 224) && continuation y)%N then
              ((x - 192) * 64 + (y - 128))%N :: code_units rest2
            else
              match rest2 with
              | String c rest3 =>
                  let z := N_of_ascii c in
                  if ((224 <=? x) && (x <? 240) && continuation y && continuation z
                      && (negb (x =? 224) || (160 <=? y)))%N then
                    ((x - 224) * 4096 + (y - 128) * 64 + (z - 128))%N
                      :: code_units rest3
                  else
                    match rest3 with
                    | String d rest4 =>
                        let u := N_of_ascii d in
                        if ((240 <=? x) && (x <? 245) && continuation y
                            && continuation z && continuation u
                            && (negb (x =? 240) || (144 <=? y))
                            && (negb (x =? 244) || (y <? 144)))%N then
                          let cp := ((x - 240) * 262144 + (y - 128) * 4096
                                     + (z - 128) * 64 + (u - 128) - 65536)%N in
                          (55296 + cp / 1024)%N :: (56320 + cp mod 1024)%N
                            :: code_units rest4
                        else 65533%N :: code_units rest
                    | EmptyString => 65533%N :: code_units rest
                    end
              | EmptyString => 65533%N :: code_units rest
              end
        | EmptyString => [65533%N]
        end
  end.

Fixpoint units_lt (a b : list N) : bool :=
  match a, b with
  | _, [] => false
  | [], _ :: _ => true
  | x :: a', y :: b' =>
      if (x <? y)%N then true else if (y <? x)%N then false else units_lt a' b'
  end.

(** [a < b] on two strings: by code units, a proper prefix first. *)
Definition js_string_lt (a b : string) : bool :=
  units_lt (code_units a) (code_units b).

(** ** StringToNumber *)

(** WhiteSpace and LineTerminator. *)
Definition is_white_space (u : N) : bool :=
  existsb (N.eqb u)
    [9; 10; 11; 12; 13; 32; 160; 5760; 8192; 8193; 8194; 8195; 8196; 8197; 8198;
     8199; 8200; 8201; 8202; 8232; 8233; 8239; 8287; 12288; 65279]%N.

Fixpoint trim_start (l : list N) : list N :=
  match l with
  | u :: rest => if is_white_space u then trim_start rest else l
  | [] => []
  end.

Definition trim (l : list N) : list N := rev (trim_start (rev (trim_start l))).

Definition digit_value (radix u : N) : option Z :=
  let v := (if (48 <=? u) && (u <=? 57) then Some (u - 48)
            else if (97 <=? u) && (u <=? 122) then Some (u - 87)
            else if (65 <=? u) && (u <=? 90) then Some (u - 55)
            else None)%N in
  match v with
  | Some d => if (d <? radix)%N then Some (Z.of_N d) else None
  | None => None
  end.

(** The leading digits of [l]: their value after [value], their number
    added to [count], and what follows them. *)
Fixpoint digits (radix : N) (value count : Z) (l : list N) : Z * Z * list N :=
  match l with
  | u :: rest =>
      match digit_value radix u with
      | Some d => digits radix (value * Z.of_N radix + d) (count + 1) rest
      | None => (value, count, l)
      end
  | [] => (value, count, l)
  end.

(** The binary64 number nearest to [numerator / denominator], ties to even,
    for a [numerator] that is not negative and a positive [denominator]: the
    quotient is taken with more than 53 bits and a sticky bit. *)
Definition nearest_float (numerator denominator : Z) : float :=
  if (numerator =? 0)%Z then 0%float
  else
    let s := Z.max 0 (64 + Z.log2 denominator - Z.log2 numerator) in
    let q := (numerator * 2 ^ s / denominator)%Z in
    let r := ((numerator * 2 ^ s) mod denominator)%Z in
    SF2Prim (binary_normalize prec emax (2 * q + (if (r =? 0)%Z then 0 else 1))
                              (- s - 1) false).

Definition decimal_float (mantissa exponent : Z) : float :=
  if (0 <=? exponent)%Z then nearest_float (mantissa * 10 ^ exponent) 1
  else nearest_float mantissa (10 ^ (- exponent)).

(** StrUnsignedDecimalLiteral: [Infinity], or digits with an optional
    fraction and an optional exponent. *)
Definition unsigned_decimal (l : list N) : float :=
  if list_eq_dec N.eq_dec l (code_units "Infinity") then infinity
  else
    let '(i, ni, l1) := digits 10 0 0 l in
    let '(m, nf, l2) := match l1 with
                        | 46%N :: l1' => digits 10 i 0 l1'
                        | _ => (i, 0%Z, l1)
                        end in
    if (ni + nf =? 0)%Z then nan
    else
      match l2 with
      | [] => decimal_float m (- nf)
      | u :: l3 =>
          if ((u =? 101) || (u =? 69))%N then
            let '(negative, l4) := match l3 with
                                   | 45%N :: l3' => (true, l3')
                                   | 43%N :: l3' => (false, l3')
                                   | _ => (false, l3)
                                   end in
            let '(x, nx, l5) := digits 10 0 0 l4 in
            match l5 with
            | [] => if (nx =? 0)%Z then nan
                    else decimal_float m ((if negative then - x else x) - nf)
            | _ :: _ => nan
            end
          else nan
      end.

(** NonDecimalIntegerLiteral, after its prefix. *)
Definition radix_literal (radix : N) (l : list N) : float :=
  let '(v, n, rest) := digits radix 0 0 l in
  match rest with
  | [] => if (n =? 0)%Z then nan else nearest_float v 1
  | _ :: _ => nan
  end.

(** ToNumber of a string. *)
Definition StringToNumber (s : string) : float :=
  match trim (code_units s) with
  | [] => 0%float
  | 45%N :: l => (- unsigned_decimal l)%float
  | 43%N :: l => unsigned_decimal l
  | 48%N :: 120%N :: l | 48%N :: 88%N :: l => radix_literal 16 l
  | 48%N :: 111%N :: l | 48%N :: 79%N :: l => radix_literal 8 l
  | 48%N :: 98%N :: l | 48%N :: 66%N :: l => radix_literal 2 l
  | l => unsigned_decimal l
  end.

(** [Math.ceil] on a binary64 number.  A float with a non-negative exponent
    is an integer already; NaN, the infinities and the zeros are returned as
    they are. *)
Definition Math_ceil (x : float) : float :=
  match Prim2SF x with
  | S754_finite s m (Zneg p) =>
      let q := (Z.pos m / 2 ^ Z.pos p)%Z in
      if s then
        match q with
        | Zpos n => SF2Prim (S754_finite true n 0)
        | _ => neg_zero
        end
      else
        match (if (Z.pos m mod 2 ^ Z.pos p =? 0)%Z then q else q + 1)%Z with
        | Zpos n => SF2Prim (S754_finite false n 0)
        | _ => zero
        end
  | _ => x
  end.

(** The integer a float denotes, when it denotes one. *)
Definition float_to_Z (x : float) : option Z :=
  match Prim2SF x with
  | S754_zero _ => Some 0%Z
  | S754_finite s m e =>
      let sign (z : Z) := if s then (- z)%Z else z in
      match e with
      | Zneg p =>
          if (Z.pos m mod 2 ^ Z.pos p =? 0)%Z
          then Some (sign (Z.pos m / 2 ^ Z.pos p)%Z)
          else None
      | _ => Some (sign (Z.pos m * 2 ^ e)%Z)
      end
  | _ => None
  end.

(** ** Configuration (lines 33-42) *)

Record Config : Type := {
  KEYPAIR_PATH : string;
  METADATA_FOLDER : string;
  NETWORK : string;
  ROYALTY_PERCENTAGE : float;
  PRIORITY_FEE : Z;
  IS_SIMULATION : bool;
  BATCH_SIZE : nat;
  RPC_URL : string
}.

Definition CONFIG : Config := {|
  KEYPAIR_PATH := "./keypair.json";
  METADATA_FOLDER := "./nfts";
  NETWORK := "mainnet-beta";
  ROYALTY_PERCENTAGE := 5;
  PRIORITY_FEE := 50000;
  IS_SIMULATION := true;
  BATCH_SIZE := 3;
  RPC_URL := "https://api.mainnet-beta.solana.com"
|}.

(** ** The host: file system and library functions

    What the script reads from its machine and does not change: the files,
    and the pure functions of the runtime and of the libraries it imports. *)

Inductive fs_node : Type :=
| FsFile (content : string)
| FsDir (entries : list string).

Record Host : Type := {
  (** the file system, by path *)
  fs : string -> option fs_node;
  (** [JSON.parse] *)
  JSON_parse : string -> result json;
  (** lines 131-136: from the parsed key file to the operator's identity
      ([bs58.encode], [createUmi], [createKeypairFromSecretKey],
      [signerIdentity], [TurboFactory.authenticated]); the public key *)
  createKeypairFromSecretKey : json -> result string;
  (** [Number.prototype.toString(36)] *)
  toString36 : float -> string;
  (** ToNumber of an array or an object whose conversion returns *)
  ToNumber_object : json -> float;
  (** what [fs] makes of an object given as a path: the path of a file URL
      when the object has the shape of a URL ([href], [protocol], ...), a
      TypeError otherwise *)
  fileURLToPath : list (string * json) -> result string;
  (** [util.inspect], which Node's error messages use to show a value *)
  inspect : json -> string;
  (** whether [fs.writeFileSync] on the path succeeds; its error otherwise *)
  fs_write_error : string -> option string
}.

(** ** The calls an asynchronous function makes *)

(** The metadata document of lines 80-86. *)
Record Metadata : Type := {
  md_name : jsval;
  md_description : jsval;
  md_image : string;
  md_attributes : jsval;
  md_files : list (string * string);     (* uri, type *)
  md_category : string
}.

(** What is handed to [turbo.uploadFile]: the image read from disk with the
    size [fs.statSync] gave, or the buffer
    [Buffer.from(JSON.stringify(metadata, null, 2))] with its own length. *)
Inductive payload : Type :=
| FileBuffer (fileBuffer : string) (fileSize : Z)
| MetadataBuffer (metadata : Metadata).

(** The argument of [create(umi, ...)] with the compute-unit price added
    (lines 108-119). *)
Record CreateArgs : Type := {
  asset : string;
  name : jsval;
  uri : string;
  basisPoints : float;
  creatorAddress : string;
  creatorPercentage : Z;
  microLamports : Z
}.

(** The lines the script prints. *)
Inductive log_line : Type :=
| LogMode (simulation : bool)                         (* line 128 *)
| LogProcessing (count batchSize : nat)               (* line 140 *)
| LogBatch (number : option nat)                      (* line 144; None is NaN *)
| LogTopUp (amount : float)                           (* line 63 *)
| LogSim (nftName : jsval) (assetKey : string)        (* line 104 *)
| LogFinished (nftName : jsval)                       (* line 150 *)
| LogFailed (file message : string)                   (* line 153 *)
| LogDone                                             (* line 163 *)
| LogRejection (message : string).                    (* line 166 *)

(** What [turbo.uploadFile] resolves to: an object whose [id] may be
    missing. *)
Record UploadResponse : Type := { id : option string }.

Inductive call : Type :=
(* local, synchronous *)
| MathRandom
| GenerateSigner
| ConsoleLog (line : log_line)
| ConsoleError (line : log_line)
(* the event loop: the continuation of an [await] on an async function *)
| Tick
(* the storage client *)
| GetUploadCosts (bytes : Z)
| GetBalance
| GetWincForToken (tokenAmount : Z)
| TopUpWithTokens (tokenAmount : float)
| TurboUploadFile (data : payload) (contentType : string)
(* the ledger *)
| SendAndConfirm (tx : CreateArgs).

(** What each call gives back.  Remote calls can reject.  The storage client
    gives amounts of credits ([winc]) as strings of decimal digits. *)
Definition reply (c : call) : Type :=
  match c with
  | MathRandom => float
  | GenerateSigner => string
  | ConsoleLog _ | ConsoleError _ | Tick => unit
  | GetUploadCosts _ | GetBalance | GetWincForToken _ => result string
  | TopUpWithTokens _ => result unit
  | TurboUploadFile _ _ => result UploadResponse
  | SendAndConfirm _ => result unit
  end.

(** A call that goes over the network. *)
Definition is_network (c : call) : bool :=
  match c with
  | GetUploadCosts _ | GetBalance | GetWincForToken _
  | TopUpWithTokens _ | TurboUploadFile _ _ | SendAndConfirm _ => true
  | _ => false
  end.

(** A call the function awaits: control returns to the event loop. *)
Definition suspends (c : call) : bool :=
  match c with
  | MathRandom | GenerateSigner | ConsoleLog _ | ConsoleError _ => false
  | _ => true
  end.

(** An asynchronous computation: it returns, throws, or makes a call and goes
    on with the reply. *)
Inductive task (A : Type) : Type :=
| Ret (a : A)
| Throw (message : string)
| Do (c : call) (k : reply c -> task A).
Arguments Ret {A} a.
Arguments Throw {A} message.
Arguments Do {A} c k.

Fixpoint bind {A B : Type} (t : task A) (f : A -> task B) : task B :=
  match t with
  | Ret a => f a
  | Throw m => Throw m
  | Do c k => Do c (fun r => bind (k r) f)
  end.

(** [try { t } catch (err) { h err.message }] *)
Fixpoint try_catch {A : Type} (t : task A) (h : string -> task A) : task A :=
  match t with
  | Ret a => Ret a
  | Throw m => h m
  | Do c k => Do c (fun r => try_catch (k r) h)
  end.

(** A synchronous operation that may throw. *)
Definition lift {A : Type} (r : result A) : task A :=
  match r with
  | Ok a => Ret a
  | Err m => Throw m
  end.

(** A local call. *)
Definition perform (c : call) : task (reply c) := Do c Ret.

(** [await] on a remote call: its value, or its rejection thrown. *)
Definition await {A : Type} (c : call) (unpack : reply c -> result A) : task A :=
  Do c (fun r => lift (unpack r)).

(** [await f(...)] for an async function [f]: the body of [f], then the caller
    resumes in a later turn of the event loop, with the value or the
    rejection. *)
Fixpoint await_async {A : Type} (t : task A) : task A :=
  match t with
  | Ret a => Do Tick (fun _ => Ret a)
  | Throw m => Do Tick (fun _ => Throw m)
  | Do c k => Do c (fun r => await_async (k r))
  end.

Declare Scope task_scope.
Delimit Scope task_scope with task.
Notation "x <- t ;; k" := (bind t (fun x => k))
  (at level 100, t at next level, right associativity) : task_scope.
Notation "t ;;; k" := (bind t (fun _ => k))
  (at level 100, right associativity) : task_scope.

(** The outcome of one catalog file (lines 105, 122, 154). *)
Inductive outcome : Type :=
| Simulated (nftName : jsval) (assetKey : string)
| Success (nftName : jsval) (assetKey : string) (metadataUri : string)
| Failed (file : string) (error : string).

Section Script.

Variable cfg : Config.
Variable host : Host.

Definition fs_statSync_size (p : string) : result Z :=
  match fs host p with
  | Some (FsFile content) => Ok (Z.of_nat (String.length content))
  | Some (FsDir _) => Ok 4096%Z
  | None => Err ("ENOENT: no such file or directory, stat '" ++ p ++ "'")
  end.

Definition fs_readFileSync (p : string) : result string :=
  match fs host p with
  | Some (FsFile content) => Ok content
  | Some (FsDir _) => Err "EISDIR: illegal operation on a directory, read"
  | None => Err ("ENOENT: no such file or directory, open '" ++ p ++ "'")
  end.

Definition fs_readdirSync (p : string) : result (list string) :=
  match fs host p with
  | Some (FsDir entries) => Ok entries
  | Some (FsFile _) => Err ("ENOTDIR: not a directory, scandir '" ++ p ++ "'")
  | None => Err ("ENOENT: no such file or directory, scandir '" ++ p ++ "'")
  end.

Definition bind_result {A B : Type} (r : result A) (f : A -> result B) : result B :=
  match r with
  | Ok a => f a
  | Err m => Err m
  end.

(** How the TypeError of an [fs] function describes the path it was given. *)
Definition received (v : jsval) : string :=
  match v with
  | None => "undefined"
  | Some JNull => "null"
  | Some (JBool b) => "type boolean (" ++ (if b then "true" else "false") ++ ")"
  | Some (JNum x) => "type number (" ++ inspect host (JNum x) ++ ")"
  | Some (JStr p) => "type string (" ++ inspect host (JStr p) ++ ")"
  | Some (JArr _) => "an instance of Array"
  | Some (JObj _) => "an instance of Object"
  end.

Definition double_quote : string := String (ascii_of_nat 34) EmptyString.

Definition invalid_path (v : jsval) : string :=
  "The " ++ double_quote ++ "path" ++ double_quote
  ++ " argument must be of type string or an instance of Buffer or URL. Received "
  ++ received v.

Fixpoint has_null_byte (p : string) : bool :=
  match p with
  | EmptyString => false
  | String a rest => (N_of_ascii a =? 0)%N || has_null_byte rest
  end.

(** The path an [fs] function takes from its argument: a string without
    null bytes is the path; an object is taken for a URL when it has the
    shape of one; anything else is a TypeError. *)
Definition fs_path (v : jsval) : result string :=
  match v with
  | Some (JStr p) =>
      if has_null_byte p then
        Err ("The argument 'path' must be a string, Uint8Array, or URL without null bytes. Received "
             ++ inspect host (JStr p))
      else Ok p
  | Some (JObj fields) => fileURLToPath host fields
  | _ => Err (invalid_path v)
  end.

(** [path.join(dir, file)]; the normalisation of the joined path is left to
    [fs]. *)
Definition path_join (dir file : string) : string := dir ++ "/" ++ file.

(** lines 46-48 *)
Definition calculateSize (filePath : jsval) : result Z :=
  bind_result (fs_path filePath) fs_statSync_size.

(** ToNumber of a value whose conversion to a primitive returns. *)
Definition ToNumber (v : jsval) : float :=
  match v with
  | None => nan
  | Some JNull => 0
  | Some (JBool b) => if b then 1 else 0
  | Some (JNum x) => x
  | Some (JStr s) => StringToNumber s
  | Some other => ToNumber_object host other
  end.

(** line 114: [(nftConfig.royaltyPercentage || CONFIG.ROYALTY_PERCENTAGE) * 100] *)
Definition royaltyBasisPoints (royaltyPercentage : jsval) : float :=
  (ToNumber (js_or royaltyPercentage (Some (JNum (ROYALTY_PERCENTAGE cfg)))) * 100)%float.

(** lines 60-62, given the price, the balance and the credits one SOL buys *)
Definition topUpAmount (uploadPrice currentBalance wincForOneSol : float) : float :=
  let requiredWinc := (uploadPrice - currentBalance)%float in
  Math_ceil ((requiredWinc / wincForOneSol) * 1000000000)%float.

(** ** The script's functions *)

Open Scope task_scope.

Definition arweave : string := "https://arweave.net/".

(** [s.substring(7)] *)
Definition substring_from7 (s : string) : string :=
  substring 7 (String.length s - 7) s.

(** [`${upload.id}`] *)
Definition id_text (i : option string) : string :=
  match i with
  | Some s => s
  | None => "undefined"
  end.

(** The reply of a remote call: its value or its rejection. *)
Definition as_result {A : Type} (r : result A) : result A := r.

(** lines 50-73 *)
Definition uploadFile (filePath : jsval) (contentType : string) : task string :=
  if IS_SIMULATION cfg then
    r <- perform MathRandom ;;
    Ret (arweave ++ "simulation_id_" ++ substring_from7 (toString36 host r))
  else
    fileSize <- lift (calculateSize filePath) ;;
    fileBuffer <- lift (bind_result (fs_path filePath) fs_readFileSync) ;;
    (* Dynamic top-up logic for Arweave *)
    uploadPrice <- await (GetUploadCosts fileSize) as_result ;;
    currentBalance <- await GetBalance as_result ;;
    (* [uploadPrice > currentBalance] on two strings *)
    (if js_string_lt currentBalance uploadPrice then
       wincForOneSol <- await (GetWincForToken 1000000000) as_result ;;
       let amount := topUpAmount (StringToNumber uploadPrice)
                                 (StringToNumber currentBalance)
                                 (StringToNumber wincForOneSol) in
       perform (ConsoleLog (LogTopUp amount)) ;;;
       await (TopUpWithTokens amount) as_result
     else Ret tt) ;;;
    upload <- await (TurboUploadFile (FileBuffer fileBuffer fileSize) contentType)
                    as_result ;;
    Ret (arweave ++ id_text (id upload)).

(** lines 75-123; [operator] is [umi.identity.publicKey] *)
Definition mintSingleNFT (operator : string) (nftConfig : json) : task outcome :=
  (* 1. Upload Image *)
  imagePath <- lift (get_prop nftConfig "imagePath") ;;
  imageUrl <- await_async (uploadFile imagePath "image/jpeg") ;;
  (* 2. Prepare & Upload Metadata *)
  nftName <- lift (get_prop nftConfig "name") ;;
  description <- lift (get_prop nftConfig "description") ;;
  attributes <- lift (get_prop nftConfig "attributes") ;;
  let metadata := {|
    md_name := nftName;
    md_description := description;
    md_image := imageUrl;
    md_attributes := js_or attributes (Some (JArr []));
    md_files := [(imageUrl, "image/jpeg")];
    md_category := "image"
  |} in
  metadataUri <-
    (if IS_SIMULATION cfg then
       r <- perform MathRandom ;;
       Ret (arweave ++ "sim_metadata_" ++ substring_from7 (toString36 host r))
     else
       metaUpload <- await (TurboUploadFile (MetadataBuffer metadata)
                                            "application/json") as_result ;;
       Ret (arweave ++ id_text (id metaUpload))) ;;
  (* 3. On-Chain Minting *)
  assetSigner <- perform GenerateSigner ;;
  if IS_SIMULATION cfg then
    (* the template literal of line 104 converts the name to a string *)
    lift (ToPrimitive nftName) ;;;
    perform (ConsoleLog (LogSim nftName assetSigner)) ;;;
    Ret (Simulated nftName assetSigner)
  else
    royaltyPercentage <- lift (get_prop nftConfig "royaltyPercentage") ;;
    (* the product of line 114 converts its operand to a number *)
    lift (ToPrimitive (js_or royaltyPercentage
                             (Some (JNum (ROYALTY_PERCENTAGE cfg))))) ;;;
    await (SendAndConfirm {|
      asset := assetSigner;
      name := nftName;
      uri := metadataUri;
      basisPoints := royaltyBasisPoints royaltyPercentage;
      creatorAddress := operator;
      creatorPercentage := 100;
      microLamports := PRIORITY_FEE cfg
    |}) as_result ;;;
    Ret (Success nftName assetSigner metadataUri).

(** lines 148-151: the [try] block of the function mapped over a chunk *)
Definition chunkTry (operator : string) (file : string) : task outcome :=
  content <- lift (fs_readFileSync (path_join (METADATA_FOLDER cfg) file)) ;;
  nftData <- lift (JSON_parse host content) ;;
  res <- await_async (mintSingleNFT operator nftData) ;;
  nftName <- lift (get_prop nftData "name") ;;
  (* the template literal of line 150 converts the name to a string *)
  lift (ToPrimitive nftName) ;;;
  perform (ConsoleLog (LogFinished nftName)) ;;;
  Ret res.

(** lines 153-154: its [catch] block *)
Definition chunkCatch (file : string) (message : string) : task outcome :=
  perform (ConsoleError (LogFailed file message)) ;;;
  Ret (Failed file message).

(** lines 146-156: the async function mapped over a chunk, for one [file] *)
Definition chunkPromise (operator : string) (file : string) : task outcome :=
  try_catch (chunkTry operator file) (chunkCatch file).

(** [f.endsWith(suffix)] *)
Definition endsWith (suffix f : string) : bool :=
  (String.length suffix <=? String.length f)%nat
  && (substring (String.length f - String.length suffix) (String.length suffix) f
      =? suffix).

(** [Array.prototype.sort()] with the default comparison, on strings: [y]
    goes before [x] when [y < x]; the sort is stable. *)
Fixpoint insert_sorted (x : string) (l : list string) : list string :=
  match l with
  | [] => [x]
  | y :: rest => if js_string_lt y x then y :: insert_sorted x rest else x :: l
  end.

Definition sort (l : list string) : list string :=
  fold_right insert_sorted [] l.

(** [a.slice(i, j)] for [0 <= i <= j] *)
Definition slice {A : Type} (i j : nat) (l : list A) : list A :=
  firstn (j - i) (skipn i l).

(** lines 130-137: what [batchMintNFTs] does before its loop: the operator's
    identity from the key file, and the catalog.  Any throw here rejects
    [batchMintNFTs]. *)
Definition startup : result (string * list string) :=
  bind_result (fs_readFileSync (KEYPAIR_PATH cfg)) (fun text =>
  bind_result (JSON_parse host text) (fun secretKey =>
  bind_result (createKeypairFromSecretKey host secretKey) (fun operator =>
  bind_result (fs_readdirSync (METADATA_FOLDER cfg)) (fun names =>
  Ok (operator, sort (filter (endsWith ".json") names)))))).

(** line 144: [Math.floor(i / CONFIG.BATCH_SIZE) + 1] *)
Definition batch_number (i : nat) : option nat :=
  if (BATCH_SIZE cfg =? 0)%nat then None else Some (i / BATCH_SIZE cfg + 1).

Definition results_file : string := "batch-mint-results.json".

Close Scope task_scope.

End Script.

(** ** Running tasks

    The world outside the script: the storage network, the ledger, the
    random generator and the console, as a state [W] with a [handle]r that
    answers every call; and the order in which the event loop resumes the
    suspended functions of a chunk, as a list of choices. *)

Section Semantics.

Variable cfg : Config.
Variable host : Host.
Variable W : Type.
Variable handle : forall c : call, W -> reply c * W.

(** A call with the reply it got. *)
Definition event : Type := { c : call & reply c }.

Definition event_call (e : event) : call := projT1 e.

(** A task on its own, to its end: its result, the calls it made with their
    replies, and the state it leaves. *)
Fixpoint run {A : Type} (t : task A) (e : W) : result A * list event * W :=
  match t with
  | Ret a => (Ok a, [], e)
  | Throw m => (Err m, [], e)
  | Do c k =>
      let r := fst (handle c e) in
      let rest := run (k r) (snd (handle c e)) in
      (fst (fst rest), existT reply c r :: snd (fst rest), snd rest)
  end.

Record World : Type := {
  ext : W;
  trace : list event;                      (* every call made, oldest first *)
  sched : list nat;                        (* the event loop's choices to come *)
  report_file : option (list outcome)      (* batch-mint-results.json *)
}.

Definition do_call (c : call) (w : World) : reply c * World :=
  let (r, e) := handle c (ext w) in
  (r, {| ext := e;
         trace := trace w ++ [existT reply c r];
         sched := sched w;
         report_file := report_file w |}).

(** A task up to its next suspension. *)
Fixpoint run_sync {A : Type} (t : task A) (w : World) : task A * World :=
  match t with
  | Do c k =>
      if suspends c then (t, w)
      else let (r, w') := do_call c w in run_sync (k r) w'
  | _ => (t, w)
  end.

(** A suspended task resumed: the awaited call completes and the task goes on
    to its next suspension. *)
Definition resume {A : Type} (t : task A) (w : World) : task A * World :=
  match t with
  | Do c k => let (r, w') := do_call c w in run_sync (k r) w'
  | _ => (t, w)
  end.

Definition is_pending {A : Type} (t : task A) : bool :=
  match t with
  | Do _ _ => true
  | _ => false
  end.

Definition pending {A : Type} (ts : list (task A)) : nat :=
  List.length (filter is_pending ts).

(** [chunk.map(async ...)]: each function is called in turn and runs to its
    first suspension. *)
Fixpoint start_all {A : Type} (ts : list (task A)) (w : World)
  : list (task A) * World :=
  match ts with
  | [] => ([], w)
  | t :: rest =>
      let (t', w1) := run_sync t w in
      let (rest', w2) := start_all rest w1 in
      (t' :: rest', w2)
  end.

(** Resume the [n]-th of the tasks still pending. *)
Fixpoint resume_nth {A : Type} (n : nat) (ts : list (task A)) (w : World)
  : list (task A) * World :=
  match ts with
  | [] => ([], w)
  | t :: rest =>
      if is_pending t then
        match n with
        | O => let (t', w') := resume t w in (t' :: rest, w')
        | S n' => let (rest', w') := resume_nth n' rest w in (t :: rest', w')
        end
      else
        let (rest', w') := resume_nth n rest w in (t :: rest', w')
  end.

Definition next_choice (w : World) : nat * World :=
  (hd O (sched w),
   {| ext := ext w; trace := trace w; sched := tl (sched w);
      report_file := report_file w |}).

(** The event loop: while a task is pending, resume one of them. *)
Fixpoint run_pool {A : Type} (fuel : nat) (ts : list (task A)) (w : World)
  : option (list (task A) * World) :=
  if (pending ts =? 0)%nat then Some (ts, w)
  else
    match fuel with
    | O => None
    | S fuel' =>
        let (n, w1) := next_choice w in
        let (ts', w2) := resume_nth (n mod pending ts) ts w1 in
        run_pool fuel' ts' w2
    end.

(** The values of settled tasks, in the order of the tasks, or a rejection
    when one of them threw (of those that threw, the first in the list; no
    task is pending once the pool has run). *)
Fixpoint collect {A : Type} (ts : list (task A)) : result (list A) :=
  match ts with
  | [] => Ok []
  | Ret a :: rest => bind_result (collect rest) (fun l => Ok (a :: l))
  | Throw m :: _ => Err m
  | Do _ _ :: rest => collect rest
  end.

(** [await Promise.all(ts)] with the tasks just created: all of them run until
    they settle, also when one of them rejects; the values come back in the
    order of the tasks.  A remote call is recorded when it completes, that
    is when the event loop resumes the task that awaits it. *)
Definition Promise_all {A : Type} (fuel : nat) (ts : list (task A)) (w : World)
  : option (result (list A) * World) :=
  let (started, w1) := start_all ts w in
  match run_pool fuel started w1 with
  | None => None
  | Some (settled, w2) => Some (collect settled, w2)
  end.

(** lines 142-160, from index [i] with [results] so far. *)
Fixpoint chunk_loop (fuel pool_fuel : nat) (operator : string)
    (configFiles : list string) (i : nat) (results : list outcome) (w : World)
  : option (result (list outcome) * World) :=
  if (i <? List.length configFiles)%nat then
    match fuel with
    | O => None
    | S fuel' =>
        let chunk := slice i (i + BATCH_SIZE cfg) configFiles in
        let (_, w1) := do_call (ConsoleLog (LogBatch (batch_number cfg i))) w in
        match Promise_all pool_fuel (map (chunkPromise cfg host operator) chunk) w1 with
        | None => None
        | Some (Err m, w2) => Some (Err m, w2)
        | Some (Ok chunkResults, w2) =>
            chunk_loop fuel' pool_fuel operator configFiles
                       (i + BATCH_SIZE cfg) (results ++ chunkResults) w2
        end
    end
  else Some (Ok results, w).

Definition write_report (results : list outcome) (w : World) : World :=
  {| ext := ext w; trace := trace w; sched := sched w;
     report_file := Some results |}.

(** lines 127-164.  [None]: the function has not returned within [fuel]
    iterations of its loop and [fuel] resumptions per chunk. *)
Definition batchMintNFTs (fuel : nat) (w : World) : option (result unit * World) :=
  let (_, w0) := do_call (ConsoleLog (LogMode (IS_SIMULATION cfg))) w in
  match startup cfg host with
  | Err m => Some (Err m, w0)
  | Ok (operator, configFiles) =>
      let (_, w1) :=
        do_call (ConsoleLog (LogProcessing (List.length configFiles) (BATCH_SIZE cfg))) w0 in
      match chunk_loop fuel fuel operator configFiles 0 [] w1 with
      | None => None
      | Some (Err m, w2) => Some (Err m, w2)
      | Some (Ok results, w2) =>
          match fs_write_error host results_file with
          | Some m => Some (Err m, w2)
          | None =>
              let (_, w3) := do_call (ConsoleLog LogDone) (write_report results w2) in
              Some (Ok tt, w3)
          end
      end
  end.

(** [p.catch(console.error)]: a rejection of [p] is printed and the promise
    that [catch] returns is fulfilled. *)
Definition catch_console_error (p : option (result unit * World))
  : option (result unit * World) :=
  match p with
  | Some (Err m, w) =>
      let (_, w') := do_call (ConsoleError (LogRejection m)) w in Some (Ok tt, w')
  | other => other
  end.

(** line 166, the whole program *)
Definition main (fuel : nat) (w : World) : option (result unit * World) :=
  catch_console_error (batchMintNFTs fuel w).

(** The exit code of the process once the promise of its last statement has
    [settled] and nothing is left to run: a rejection nobody handled ends the
    process with code 1. *)
Definition exit_code (settled : result unit) : Z :=
  match settled with
  | Ok _ => 0
  | Err _ => 1
  end.

(** Where a run starts: nothing called yet, no report. *)
Definition initial_world (e : W) (choices : list nat) : World :=
  {| ext := e; trace := []; sched := choices; report_file := None |}.

End Semantics.

Arguments next_choice : simpl never.
Arguments do_call : simpl never.

(** ** Properties of tasks *)

(** A property of every call, every returned value and every thrown message
    of a task, whatever the replies. *)
Inductive always {A : Type} (PC : call -> Prop) (PR : A -> Prop)
    (PT : string -> Prop) : task A -> Prop :=
| always_ret (a : A) : PR a -> always PC PR PT (Ret a)
| always_throw (m : string) : PT m -> always PC PR PT (Throw m)
| always_do (c : call) (k : reply c -> task A) :
    PC c -> (forall r, always PC PR PT (k r)) -> always PC PR PT (Do c k).

(** A task makes at most [n] calls. *)
Inductive height_le {A : Type} : nat -> task A -> Prop :=
| height_ret (n : nat) (a : A) : height_le n (Ret a)
| height_throw (n : nat) (m : string) : height_le n (Throw m)
| height_do (n : nat) (c : call) (k : reply c -> task A) :
    (forall r, height_le n (k r)) -> height_le (S n) (Do c k).

(** [reaches t t']: [t] becomes [t'] after some calls and their replies. *)
Inductive reaches {A : Type} : task A -> task A -> Prop :=
| reaches_here (t : task A) : reaches t t
| reaches_do (c : call) (k : reply c -> task A) (r : reply c) (t' : task A) :
    reaches (k r) t' -> reaches (Do c k) t'.

(** The tasks of a pool make at most [n] calls together. *)
Inductive heights_le {A : Type} : nat -> list (task A) -> Prop :=
| heights_nil (n : nat) : heights_le n []
| heights_cons (a b n : nat) (t : task A) (ts : list (task A)) :
    height_le a t -> heights_le b ts -> a + b <= n -> heights_le n (t :: ts).

(** The calls one catalog file may make: no call of the batch itself, and in
    simulation no call over the network. *)
Definition item_call (simulation : bool) (c : call) : bool :=
  match c with
  | MathRandom | GenerateSigner | Tick => true
  | ConsoleLog (LogTopUp _) | ConsoleLog (LogSim _ _)
  | ConsoleLog (LogFinished _) => true
  | ConsoleError (LogFailed _ _) => true
  | ConsoleLog _ | ConsoleError _ => false
  | _ => negb simulation
  end.

Definition is_batch_log (c : call) : bool :=
  match c with
  | ConsoleLog (LogBatch _) => true
  | _ => false
  end.

Definition is_simulated (o : outcome) : bool :=
  match o with
  | Simulated _ _ => true
  | _ => false
  end.

(** [w'] is [w] after more calls, all of them in [pc], with the report
    untouched. *)
Definition extends {W : Type} (pc : call -> bool) (w w' : World W) : Prop :=
  report_file W w' = report_file W w /\
  exists evs, trace W w' = (trace W w ++ evs)%list /\
              Forall (fun e => pc (event_call e) = true) evs.

(** A call the script may make in a mode: anything, except a call over the
    network in simulation. *)
Definition allowed (simulation : bool) (c : call) : bool :=
  negb (simulation && is_network c).

(** The number of chunks whose processing was announced (line 144). *)
Definition batches (evs : list event) : nat :=
  List.length (filter (fun e => is_batch_log (event_call e)) evs).

(** The least number of chunks of [c] entries that hold [n] entries. *)
Definition ceil_div (n c : nat) : nat := (n + c - 1) / c.

(** [o] is an outcome the function of lines 146-156 can return for [file]. *)
Definition outcome_of (cfg : Config) (host : Host) (operator file : string)
    (o : outcome) : Prop :=
  reaches (chunkPromise cfg host operator file) (Ret o).

(** The entry of [file] loads: its file can be read and parses to
    [nftData]. *)
Definition loads (cfg : Config) (host : Host) (file : string) (nftData : json)
  : Prop :=
  exists content,
    fs_readFileSync host (path_join (METADATA_FOLDER cfg) file) = Ok content /\
    JSON_parse host content = Ok nftData.

(** The entry's file can be read and holds a JSON value other than [null]
    whose [name] converts to a string. *)
Definition entry_prints (cfg : Config) (host : Host) (file : string) : Prop :=
  exists nftData nftName,
    loads cfg host file nftData /\
    get_prop nftData "name" = Ok nftName /\
    ToPrimitive nftName = Ok tt.

(** The entry of [file] loads and [fs] takes the path [p] from its
    [imagePath]. *)
Definition image_path (cfg : Config) (host : Host) (file p : string) : Prop :=
  exists nftData imagePath,
    loads cfg host file nftData /\
    get_prop nftData "imagePath" = Ok imagePath /\
    fs_path host imagePath = Ok p.

(** The image cannot be read: [fs.statSync] (line 47) or [fs.readFileSync]
    (line 54) throws [m] on the path given. *)
Definition image_error (host : Host) (imagePath : jsval) (m : string) : Prop :=
  calculateSize host imagePath = Err m \/
  (exists fileSize,
      calculateSize host imagePath = Ok fileSize /\
      bind_result (fs_path host imagePath) (fs_readFileSync host) = Err m).

(** The size of the catalog, 0 when the start fails. *)
Definition catalog_size (cfg : Config) (host : Host) : nat :=
  match startup cfg host with
  | Ok (_, configFiles) => List.length configFiles
  | Err _ => 0%nat
  end.

(** The top-up as the specification words it, to compare with line 62: the
    deficit converted at the rate of [wincForOneSol] credits for 10^9
    lamports and rounded up, in exact arithmetic. *)
Definition spec_topUpAmount (deficit wincForOneSol : Z) : Z :=
  ((deficit * 10 ^ 9 + wincForOneSol - 1) / wincForOneSol)%Z.

(** The reply to the first price query of a run, and to the first balance
    query. *)
Fixpoint quoted_price (evs : list event) : option string :=
  match evs with
  | [] => None
  | existT _ (GetUploadCosts _) (Ok x) :: _ => Some x
  | _ :: rest => quoted_price rest
  end.

Fixpoint read_balance (evs : list event) : option string :=
  match evs with
  | [] => None
  | existT _ GetBalance (Ok x) :: _ => Some x
  | _ :: rest => read_balance rest
  end.

Definition is_top_up (c : call) : bool :=
  match c with
  | TopUpWithTokens _ => true
  | _ => false
  end.

(** Whether every upload in a sequence of calls comes after a price query for
    its size and a balance query made since the upload before it.  [priced] and
    [balanced] tell what has been queried since then. *)
Fixpoint funded_uploads (priced : option Z) (balanced : bool) (calls : list call)
  : bool :=
  match calls with
  | [] => true
  | GetUploadCosts bytes :: rest => funded_uploads (Some bytes) balanced rest
  | GetBalance :: rest => funded_uploads priced true rest
  | TurboUploadFile data _ :: rest =>
      match data, priced with
      | FileBuffer _ fileSize, Some bytes =>
          (bytes =? fileSize)%Z && balanced && funded_uploads None false rest
      | MetadataBuffer _, Some _ => balanced && funded_uploads None false rest
      | _, None => false
      end
  | _ :: rest => funded_uploads priced balanced rest
  end.

Definition is_metadata_upload (c : call) : bool :=
  match c with
  | TurboUploadFile (MetadataBuffer _) _ => true
  | _ => false
  end.

(** The first upload of a run that the storage network rejected: its message
    and the events after it. *)
Definition rejected_upload (ev : event) : option string :=
  match ev with
  | existT _ (TurboUploadFile _ _) (Err m) => Some m
  | _ => None
  end.

Fixpoint after_rejected_upload (evs : list event) : option (string * list event) :=
  match evs with
  | [] => None
  | ev :: rest =>
      match rejected_upload ev with
      | Some m => Some (m, rest)
      | None => after_rejected_upload rest
      end
  end.

(** The result, the events and the calls of a task run on its own. *)
Definition result_of (W : Type) (handle : forall c : call, W -> reply c * W)
    {A : Type} (t : task A) (e : W) : result A :=
  fst (fst (run W handle t e)).

Definition events_of (W : Type) (handle : forall c : call, W -> reply c * W)
    {A : Type} (t : task A) (e : W) : list event :=
  snd (fst (run W handle t e)).

Definition calls_of (W : Type) (handle : forall c : call, W -> reply c * W)
    {A : Type} (t : task A) (e : W) : list call :=
  map event_call (events_of W handle t e).

(** The first remote call of a run that was rejected: its message and the
    events after it. *)
Definition rejection (ev : event) : option string :=
  match ev with
  | existT _ (GetUploadCosts _) (Err m) => Some m
  | existT _ GetBalance (Err m) => Some m
  | existT _ (GetWincForToken _) (Err m) => Some m
  | existT _ (TopUpWithTokens _) (Err m) => Some m
  | existT _ (TurboUploadFile _ _) (Err m) => Some m
  | existT _ (SendAndConfirm _) (Err m) => Some m
  | _ => None
  end.

Fixpoint after_rejection (evs : list event) : option (string * list event) :=
  match evs with
  | [] => None
  | ev :: rest =>
      match rejection ev with
      | Some m => Some (m, rest)
      | None => after_rejection rest
      end
  end.

(** An error of the entry of [file], whose own events were [evs]: its file
    cannot be read, its text is not JSON, in live mode its image cannot be
    read, or one of its remote calls (a funding query, a top-up, an upload,
    the transaction) was rejected; [m] is the message. *)
Definition item_error (cfg : Config) (host : Host) (file : string)
    (evs : list event) (m : string) : Prop :=
  fs_readFileSync host (path_join (METADATA_FOLDER cfg) file) = Err m \/
  (exists content,
      fs_readFileSync host (path_join (METADATA_FOLDER cfg) file) = Ok content /\
      JSON_parse host content = Err m) \/
  (IS_SIMULATION cfg = false /\
   exists nftData imagePath,
     loads cfg host file nftData /\
     get_prop nftData "imagePath" = Ok imagePath /\
     image_error host imagePath m) \/
  (exists rest, after_rejection evs = Some (m, rest)).

(** The uploads of a run that the storage network acknowledged, in order:
    what was uploaded, its content type and the response. *)
Fixpoint acknowledged (evs : list event) : list (payload * string * UploadResponse) :=
  match evs with
  | [] => []
  | existT _ (TurboUploadFile data contentType) (Ok r) :: rest =>
      (data, contentType, r) :: acknowledged rest
  | _ :: rest => acknowledged rest
  end.

(** The transactions of a run that were sent to the ledger, in order, and
    those among them that the ledger confirmed. *)
Fixpoint submitted (evs : list event) : list CreateArgs :=
  match evs with
  | [] => []
  | existT _ (SendAndConfirm tx) _ :: rest => tx :: submitted rest
  | _ :: rest => submitted rest
  end.

Fixpoint confirmed_txs (evs : list event) : list CreateArgs :=
  match evs with
  | [] => []
  | existT _ (SendAndConfirm tx) (Ok _) :: rest => tx :: confirmed_txs rest
  | _ :: rest => confirmed_txs rest
  end.

(** The reply to the first rate query of a run. *)
Fixpoint quoted_rate (evs : list event) : option string :=
  match evs with
  | [] => None
  | existT _ (GetWincForToken _) (Ok x) :: _ => Some x
  | _ :: rest => quoted_rate rest
  end.

Definition is_rate_query (c : call) : bool :=
  match c with
  | GetWincForToken _ => true
  | _ => false
  end.

(** The numbers of the chunks announced (line 144), in order. *)
Fixpoint batch_numbers (evs : list event) : list (option nat) :=
  match evs with
  | [] => []
  | existT _ (ConsoleLog (LogBatch n)) _ :: rest => n :: batch_numbers rest
  | _ :: rest => batch_numbers rest
  end.

(** The outcomes of a mode: a simulation reports no success, a live run no
    simulated mint, and a failure names its own file. *)
Definition outcome_of_mode (simulation : bool) (file : string) (o : outcome)
  : Prop :=
  match o with
  | Simulated _ _ => simulation = true
  | Success _ _ _ => simulation = false
  | Failed f _ => f = file
  end.

(** [follows t evs t']: [t] becomes [t'] by making the calls of [evs] and
    getting their replies. *)
Inductive follows {A : Type} : task A -> list event -> task A -> Prop :=
| follows_here (t : task A) : follows t [] t
| follows_do (c : call) (k : reply c -> task A) (r : reply c)
    (evs : list event) (t' : task A) :
    follows (k r) evs t' -> follows (Do c k) (existT reply c r :: evs) t'.

(** [returns t evs a]: [t] makes the calls of [evs], no more and no less,
    gets their replies, and returns [a]. *)
Fixpoint returns {A : Type} (t : task A) (evs : list event) (a : A) : Prop :=
  match t with
  | Ret a' => evs = [] /\ a' = a
  | Throw _ => False
  | Do c k =>
      exists r evs', evs = existT reply c r :: evs' /\ returns (k r) evs' a
  end.

(** The events of a trace that belong to entry [j] of the catalog, when
    [owners] names the entry each event belongs to; an event of the batch
    itself has no owner. *)
Fixpoint own (j : nat) (owners : list (option nat)) (evs : list event)
  : list event :=
  match owners, evs with
  | o :: owners', ev :: evs' =>
      match o with
      | Some i =>
          if (i =? j)%nat then ev :: own j owners' evs' else own j owners' evs'
      | None => own j owners' evs'
      end
  | _, _ => []
  end.

(** Every owner named is an entry from [lo] up to [hi], [hi] excluded. *)
Definition owners_in (lo hi : nat) (owners : list (option nat)) : Prop :=
  Forall (fun o => match o with
                   | Some i => (lo <= i < hi)%nat
                   | None => True
                   end) owners.

(** The tasks [ts], numbered from [b], become [ts'], each by its own events. *)
Inductive all_follow {A : Type} (owners : list (option nat)) (evs : list event)
  : nat -> list (task A) -> list (task A) -> Prop :=
| all_follow_nil (b : nat) : all_follow owners evs b [] []
| all_follow_cons (b : nat) (t t' : task A) (ts ts' : list (task A)) :
    follows t (own b owners evs) t' ->
    all_follow owners evs (S b) ts ts' ->
    all_follow owners evs b (t :: ts) (t' :: ts').

(** ** A concrete machine and network, for the examples *)

Module Demo.

(** The script's configuration with simulation switched off (line 39 set to
    [false]). *)
Definition LIVE : Config := {|
  KEYPAIR_PATH := KEYPAIR_PATH CONFIG;
  METADATA_FOLDER := METADATA_FOLDER CONFIG;
  NETWORK := NETWORK CONFIG;
  ROYALTY_PERCENTAGE := ROYALTY_PERCENTAGE CONFIG;
  PRIORITY_FEE := PRIORITY_FEE CONFIG;
  IS_SIMULATION := false;
  BATCH_SIZE := BATCH_SIZE CONFIG;
  RPC_URL := RPC_URL CONFIG
|}.

Definition quote : string := String (ascii_of_nat 34) "".

(** The text of a catalog entry with a name and an image path. *)
Definition entry_text (nftName imagePath : string) : string :=
  "{" ++ quote ++ "name" ++ quote ++ ":" ++ quote ++ nftName ++ quote ++ ","
  ++ quote ++ "imagePath" ++ quote ++ ":" ++ quote ++ imagePath ++ quote ++ "}".

Definition entry_json (nftName imagePath : string) : json :=
  JObj [("name", JStr nftName); ("imagePath", JStr imagePath)].

(** An entry that asks for a royalty of zero. *)
Definition zero_royalty_text : string :=
  "{" ++ quote ++ "name" ++ quote ++ ":" ++ quote ++ "Z" ++ quote ++ ","
  ++ quote ++ "imagePath" ++ quote ++ ":" ++ quote ++ "a.jpg" ++ quote ++ ","
  ++ quote ++ "royaltyPercentage" ++ quote ++ ":0}".

Definition zero_royalty_json : json :=
  JObj [("name", JStr "Z"); ("imagePath", JStr "a.jpg");
        ("royaltyPercentage", JNum 0)].

(** [JSON.parse] on the texts the examples use; the one text among them that
    is not JSON is the single brace. *)
Definition parse (text : string) : result json :=
  if text =? "[1,2,3]" then Ok (JArr [JNum 1; JNum 2; JNum 3])
  else if text =? "{}" then Ok (JObj [])
  else if text =? "null" then Ok JNull
  else if text =? entry_text "A" "a.jpg" then Ok (entry_json "A" "a.jpg")
  else if text =? entry_text "B" "missing.jpg" then Ok (entry_json "B" "missing.jpg")
  else if text =? zero_royalty_text then Ok zero_royalty_json
  else Err "Unexpected end of JSON input".

Fixpoint find_file (files : list (string * fs_node)) (p : string) : option fs_node :=
  match files with
  | [] => None
  | (q, node) :: rest => if q =? p then Some node else find_file rest p
  end.

Definition machine (files : list (string * fs_node)) : Host := {|
  fs := find_file files;
  JSON_parse := parse;
  createKeypairFromSecretKey := fun _ => Ok "operator";
  toString36 := fun _ => "0.4fzyo82mvyr";
  ToNumber_object := fun _ => nan;
  fileURLToPath := fun _ =>
    Err ("The " ++ double_quote ++ "path" ++ double_quote
         ++ " argument must be of type string or an instance of Buffer or URL. Received an instance of Object");
  inspect := fun _ => "";
  fs_write_error := fun _ => None
|}.

(** A network that always answers the same. *)
Record Service : Type := {
  price : result string;
  balance : result string;
  wincForOneSol : result string;
  topUp : result unit;
  uploaded : result UploadResponse;
  confirmed : result unit
}.

Definition network (s : Service) (c : call) (e : unit) : reply c * unit :=
  (match c return reply c with
   | MathRandom => 0.25%float
   | GenerateSigner => "asset"
   | ConsoleLog _ | ConsoleError _ | Tick => tt
   | GetUploadCosts _ => price s
   | GetBalance => balance s
   | GetWincForToken _ => wincForOneSol s
   | TopUpWithTokens _ => topUp s
   | TurboUploadFile _ _ => uploaded s
   | SendAndConfirm _ => confirmed s
   end, e).

(** A funded account on a network that accepts everything. *)
Definition healthy : Service := {|
  price := Ok "100";
  balance := Ok "500";
  wincForOneSol := Ok "1000000000003";
  topUp := Ok tt;
  uploaded := Ok {| id := Some "TX1" |};
  confirmed := Ok tt
|}.

(** An empty account, an upload that costs 333333331001 credits, and
    1000000000003 credits to the SOL. *)
Definition unfunded : Service := {|
  price := Ok "333333331001";
  balance := Ok "0";
  wincForOneSol := Ok "1000000000003";
  topUp := Ok tt;
  uploaded := Ok {| id := Some "TX1" |};
  confirmed := Ok tt
|}.

(** A storage network that acknowledges uploads without an identifier. *)
Definition anonymous : Service := {|
  price := Ok "100";
  balance := Ok "500";
  wincForOneSol := Ok "1000000000003";
  topUp := Ok tt;
  uploaded := Ok {| id := None |};
  confirmed := Ok tt
|}.

(** A storage network that refuses uploads. *)
Definition refusing : Service := {|
  price := Ok "100";
  balance := Ok "500";
  wincForOneSol := Ok "1000000000003";
  topUp := Ok tt;
  uploaded := Err "Failed to upload file";
  confirmed := Ok tt
|}.

Definition key_file : string * fs_node := ("./keypair.json", FsFile "[1,2,3]").

(** One entry with its image. *)
Definition one_entry : Host := machine [
  key_file;
  ("./nfts", FsDir ["a.json"]);
  ("./nfts/a.json", FsFile (entry_text "A" "a.jpg"));
  ("a.jpg", FsFile "JPEGDATA")
].

(** Seven empty entries and a file that is not a catalog entry. *)
Definition seven_entries : Host := machine [
  key_file;
  ("./nfts", FsDir ["n7.json"; "n1.json"; "n2.json"; "notes.txt"; "n3.json";
                    "n4.json"; "n5.json"; "n6.json"]);
  ("./nfts/n1.json", FsFile "{}"); ("./nfts/n2.json", FsFile "{}");
  ("./nfts/n3.json", FsFile "{}"); ("./nfts/n4.json", FsFile "{}");
  ("./nfts/n5.json", FsFile "{}"); ("./nfts/n6.json", FsFile "{}");
  ("./nfts/n7.json", FsFile "{}")
].

(** An entry whose text is not JSON. *)
Definition broken_entry : Host := machine [
  key_file;
  ("./nfts", FsDir ["a.json"]);
  ("./nfts/a.json", FsFile "{")
].

(** An entry whose image is not on disk, next to one whose image is. *)
Definition missing_image : Host := machine [
  key_file;
  ("./nfts", FsDir ["a.json"; "b.json"]);
  ("./nfts/a.json", FsFile (entry_text "A" "a.jpg"));
  ("./nfts/b.json", FsFile (entry_text "B" "missing.jpg"));
  ("a.jpg", FsFile "JPEGDATA")
].

(** No key file. *)
Definition no_key : Host := machine [
  ("./nfts", FsDir ["a.json"]);
  ("./nfts/a.json", FsFile (entry_text "A" "a.jpg"));
  ("a.jpg", FsFile "JPEGDATA")
].

Definition start : World unit := initial_world unit tt [].

(** What a run left in the results file. *)
Definition report_written (r : option (result unit * World unit)) : option (list outcome) :=
  match r with
  | Some (_, w) => report_file unit w
  | None => None
  end.

(** The calls of a run, without their replies. *)
Definition calls_made (r : option (result unit * World unit)) : list call :=
  match r with
  | Some (_, w) => map event_call (trace unit w)
  | None => []
  end.

(** The script's configuration with a chunk size of 0. *)
Definition ZERO : Config := {|
  KEYPAIR_PATH := KEYPAIR_PATH CONFIG;
  METADATA_FOLDER := METADATA_FOLDER CONFIG;
  NETWORK := NETWORK CONFIG;
  ROYALTY_PERCENTAGE := ROYALTY_PERCENTAGE CONFIG;
  PRIORITY_FEE := PRIORITY_FEE CONFIG;
  IS_SIMULATION := IS_SIMULATION CONFIG;
  BATCH_SIZE := 0;
  RPC_URL := RPC_URL CONFIG
|}.

(** A catalog directory with no entry in it. *)
Definition empty_catalog : Host := machine [
  key_file;
  ("./nfts", FsDir ["notes.txt"])
].

(** The machine of [missing_image] with a results file that cannot be
    written. *)
Definition read_only : Host := {|
  fs := fs missing_image;
  JSON_parse := JSON_parse missing_image;
  createKeypairFromSecretKey := createKeypairFromSecretKey missing_image;
  toString36 := toString36 missing_image;
  ToNumber_object := ToNumber_object missing_image;
  fileURLToPath := fileURLToPath missing_image;
  inspect := inspect missing_image;
  fs_write_error := fun _ =>
    Some "EACCES: permission denied, open 'batch-mint-results.json'"
|}.

(** An account short of 400 credits on a network that accepts everything. *)
Definition short : Service := {|
  price := Ok "500";
  balance := Ok "100";
  wincForOneSol := Ok "1000000000000";
  topUp := Ok tt;
  uploaded := Ok {| id := Some "TX1" |};
  confirmed := Ok tt
|}.

(** A price of 100 credits and a balance of 40. *)
Definition unnoticed : Service := {|
  price := Ok "100";
  balance := Ok "40";
  wincForOneSol := Ok "1000000000000";
  topUp := Ok tt;
  uploaded := Ok {| id := Some "TX1" |};
  confirmed := Ok tt
|}.

(** A price of 9 credits and a balance of 10. *)
Definition needless : Service := {|
  price := Ok "9";
  balance := Ok "10";
  wincForOneSol := Ok "1000000000000";
  topUp := Ok tt;
  uploaded := Ok {| id := Some "TX1" |};
  confirmed := Ok tt
|}.

(** An image path given as an object with the shape of a file URL, and the
    machine of [one_entry] with an [fs] that takes its path from it. *)
Definition image_url : json :=
  JObj [("href", JStr "file:///a.jpg"); ("protocol", JStr "file:");
        ("hostname", JStr ""); ("pathname", JStr "/a.jpg")].

Definition url_paths : Host := {|
  fs := fun p => if p =? "/a.jpg" then Some (FsFile "JPEGDATA") else fs one_entry p;
  JSON_parse := JSON_parse one_entry;
  createKeypairFromSecretKey := createKeypairFromSecretKey one_entry;
  toString36 := toString36 one_entry;
  ToNumber_object := ToNumber_object one_entry;
  fileURLToPath := fun fields =>
    match lookup "protocol" fields, lookup "hostname" fields,
          lookup "pathname" fields with
    | Some (JStr "file:"), Some (JStr ""), Some (JStr pathname) => Ok pathname
    | _, _, _ => fileURLToPath one_entry fields
    end;
  inspect := inspect one_entry;
  fs_write_error := fs_write_error one_entry
|}.

(** A ledger that rejects transactions. *)
Definition rejecting_ledger : Service := {|
  price := Ok "100";
  balance := Ok "500";
  wincForOneSol := Ok "1000000000003";
  topUp := Ok tt;
  uploaded := Ok {| id := Some "TX1" |};
  confirmed := Err "Transaction simulation failed"
|}.

End Demo.

(** ** Lemmas on tasks *)

Section TaskLemmas.

Context {A : Type}.

Lemma always_weaken (PC PC' : call -> Prop) (PR PR' : A -> Prop)
    (PT PT' : string -> Prop) (t : task A) :
  (forall c, PC c -> PC' c) -> (forall a, PR a -> PR' a) ->
  (forall m, PT m -> PT' m) ->
  always PC PR PT t -> always PC' PR' PT' t.
Proof.
  intros HC HR HT H. induction H; constructor; auto.
Qed.

Lemma always_inv (PC : call -> Prop) (PR : A -> Prop) (PT : string -> Prop)
    (t : task A) :
  always PC PR PT t ->
  match t with
  | Ret a => PR a
  | Throw m => PT m
  | Do c k => PC c /\ forall r, always PC PR PT (k r)
  end.
Proof.
  destruct 1; auto.
Qed.

Lemma height_inv (n : nat) (t : task A) :
  height_le n t ->
  match t with
  | Do c k => exists n', n = S n' /\ forall r, height_le n' (k r)
  | _ => True
  end.
Proof.
  destruct 1; eauto.
Qed.

Lemma height_mono (n m : nat) (t : task A) :
  height_le n t -> n <= m -> height_le m t.
Proof.
  intro H. revert m. induction H as [ | | n c k _ IH]; intros p Hp;
    try constructor.
  destruct p as [|p]; [lia|]. constructor. intro r. apply IH. lia.
Qed.

Lemma reaches_trans (t1 t2 t3 : task A) :
  reaches t1 t2 -> reaches t2 t3 -> reaches t1 t3.
Proof.
  induction 1 as [t | c k r t' _ IH]; intro H23; [exact H23|].
  econstructor. apply IH, H23.
Qed.

Lemma reaches_inv (t t' : task A) :
  reaches t t' ->
  t' = t \/ match t with
            | Do c k => exists r, reaches (k r) t'
            | _ => False
            end.
Proof.
  destruct 1; eauto.
Qed.

Lemma always_reaches (PC : call -> Prop) (PR : A -> Prop) (PT : string -> Prop)
    (t t' : task A) :
  reaches t t' -> always PC PR PT t -> always PC PR PT t'.
Proof.
  induction 1 as [t | c k r t' _ IH]; intro H; [exact H|].
  apply IH. apply always_inv in H. apply H.
Qed.

End TaskLemmas.

(** ** The trees of the script's functions *)

Ltac tree_step :=
  match goal with
  | |- height_le _ (Ret _) => apply height_ret
  | |- height_le _ (Throw _) => apply height_throw
  | |- height_le _ (Do _ _) =>
      apply height_do; let r := fresh "r" in intro r; cbn in r
  | |- always _ _ _ (Ret _) => apply always_ret; auto
  | |- always _ _ _ (Throw _) => apply always_throw; auto
  | |- always _ _ _ (Do _ _) =>
      apply always_do; [reflexivity | let r := fresh "r" in intro r; cbn in r]
  | |- context [lift ?r] => destruct r
  | |- context [if ?b then _ else _] => destruct b
  end; cbn.

Ltac tree := unfold await, perform; cbn; repeat tree_step.

(** One catalog file costs at most thirteen calls. *)
Lemma chunkPromise_height (cfg : Config) (host : Host) (operator file : string) :
  height_le 13 (chunkPromise cfg host operator file).
Proof.
  unfold chunkPromise, chunkTry, chunkCatch, mintSingleNFT, uploadFile. tree.
Qed.

(** The function mapped over a chunk never rejects, and makes only the calls
    of [item_call]. *)
Lemma chunkPromise_calls (cfg : Config) (host : Host) (operator file : string) :
  always (fun c => item_call (IS_SIMULATION cfg) c = true) (fun _ => True)
         (fun _ => False) (chunkPromise cfg host operator file).
Proof.
  unfold chunkPromise, chunkTry, chunkCatch, mintSingleNFT, uploadFile.
  destruct (IS_SIMULATION cfg); tree.
Qed.

(** ** The event loop *)

Section PoolLemmas.

Variable W : Type.
Variable handle : forall c : call, W -> reply c * W.

Local Open Scope nat_scope.
Local Open Scope list_scope.
Let World : Type := World W.

Lemma extends_refl (pc : call -> bool) (w : World) : extends pc w w.
Proof.
  split; [reflexivity|]. exists []. rewrite app_nil_r. auto.
Qed.

Lemma extends_trans (pc : call -> bool) (w1 w2 w3 : World) :
  extends pc w1 w2 -> extends pc w2 w3 -> extends pc w1 w3.
Proof.
  intros [R1 (e1 & T1 & F1)] [R2 (e2 & T2 & F2)]. split; [congruence|].
  exists (e1 ++ e2). rewrite T2, T1, app_assoc. split; [reflexivity|].
  apply Forall_app; auto.
Qed.

Lemma do_call_extends (pc : call -> bool) (c : call) (w : World) :
  pc c = true -> extends pc w (snd (do_call W handle c w)).
Proof.
  intro H. unfold do_call. destruct (handle c (ext W w)) as [r e]. simpl.
  split; [reflexivity|]. exists [existT reply c r]. simpl. auto.
Qed.

Lemma next_choice_extends (pc : call -> bool) (w : World) :
  extends pc w (snd (next_choice W w)).
Proof.
  split; [reflexivity|]. exists []. simpl. rewrite app_nil_r. auto.
Qed.

Section OneTask.

Context {A : Type}.
Variable pc : call -> bool.
Variable PR : A -> Prop.
Variable PT : string -> Prop.

Let ok : task A -> Prop := always (fun c => pc c = true) PR PT.

Lemma run_sync_spec (t : task A) (w : World) :
  ok t ->
  extends pc w (snd (run_sync W handle t w)) /\
  reaches t (fst (run_sync W handle t w)).
Proof.
  intro H. revert w. induction H as [a Ha | m Hm | c k Hc Hk IH]; intro w; simpl;
    try (split; [apply extends_refl | constructor]).
  destruct (suspends c); simpl; [split; [apply extends_refl | constructor]|].
  pose proof (do_call_extends pc c w Hc) as E.
  destruct (do_call W handle c w) as [r w1]. simpl in E.
  destruct (IH r w1) as [E1 R1]. split.
  - eapply extends_trans; eauto.
  - econstructor. exact R1.
Qed.

Lemma run_sync_height (n : nat) (t : task A) (w : World) :
  height_le n t -> height_le n (fst (run_sync W handle t w)).
Proof.
  intro H. revert w. induction H as [n a | n m | n c k Hk IH]; intro w; simpl;
    try constructor.
  destruct (suspends c); simpl; [constructor; exact Hk|].
  destruct (do_call W handle c w) as [r w1].
  apply height_mono with n; auto.
Qed.

Lemma resume_spec (t : task A) (w : World) :
  ok t ->
  extends pc w (snd (resume W handle t w)) /\
  reaches t (fst (resume W handle t w)).
Proof.
  intro H. destruct t as [a | m | c k]; simpl;
    try (split; [apply extends_refl | constructor]).
  apply always_inv in H. destruct H as [Hc Hk].
  pose proof (do_call_extends pc c w Hc) as E.
  destruct (do_call W handle c w) as [r w1]. simpl in E.
  destruct (run_sync_spec (k r) w1 (Hk r)) as [E1 R1]. split.
  - eapply extends_trans; eauto.
  - econstructor. exact R1.
Qed.

Lemma resume_height (n : nat) (t : task A) (w : World) :
  is_pending t = true -> height_le n t ->
  exists n', n = S n' /\ height_le n' (fst (resume W handle t w)).
Proof.
  intros P H. destruct t as [a | m | c k]; try discriminate.
  apply height_inv in H. destruct H as (n' & -> & Hk). exists n'.
  split; [reflexivity|]. simpl.
  destruct (do_call W handle c w) as [r w1]. apply run_sync_height, Hk.
Qed.

Lemma resume_nth_spec (ts : list (task A)) (k : nat) (w : World) :
  Forall ok ts ->
  extends pc w (snd (resume_nth W handle k ts w)) /\
  Forall2 reaches ts (fst (resume_nth W handle k ts w)).
Proof.
  intro H. revert k w. induction H as [|t ts Ht Hts IH]; intros k w; simpl.
  - split; [apply extends_refl | constructor].
  - destruct (is_pending t).
    + destruct k as [|k].
      * destruct (resume_spec t w Ht) as [E R].
        destruct (resume W handle t w) as [t' w']. simpl in *. split; [exact E|].
        constructor; [exact R|].
        clear. induction ts; constructor; auto. constructor.
      * destruct (IH k w) as [E R].
        destruct (resume_nth W handle k ts w) as [ts' w']. simpl in *.
        split; [exact E|]. constructor; [constructor | exact R].
    + destruct (IH k w) as [E R].
      destruct (resume_nth W handle k ts w) as [ts' w']. simpl in *.
      split; [exact E|]. constructor; [constructor | exact R].
Qed.

Lemma resume_nth_height (ts : list (task A)) (n k : nat) (w : World) :
  heights_le n ts -> k < pending ts ->
  exists n', n = S n' /\ heights_le n' (fst (resume_nth W handle k ts w)).
Proof.
  revert n k w. induction ts as [|t ts IH]; intros n k w H Hk.
  - unfold pending in Hk. simpl in Hk. lia.
  - inversion H as [|a b n0 t0 ts0 Ha Hb Hab]; subst. unfold pending in Hk.
    simpl in *. destruct (is_pending t) eqn:P.
    + destruct k as [|k].
      * destruct (resume_height a t w P Ha) as (a' & -> & Ha').
        destruct (resume W handle t w) as [t' w']. simpl in *.
        destruct n as [|n]; [lia|]. exists n. split; [reflexivity|].
        econstructor; eauto. lia.
      * simpl in Hk. destruct (IH b k w Hb) as (b' & -> & Hb');
          [unfold pending; lia|].
        destruct (resume_nth W handle k ts w) as [ts' w']. simpl in *.
        destruct n as [|n]; [lia|]. exists n. split; [reflexivity|].
        econstructor; eauto. lia.
    + destruct (IH b k w Hb) as (b' & -> & Hb'); [exact Hk|].
      destruct (resume_nth W handle k ts w) as [ts' w']. simpl in *.
      destruct n as [|n]; [lia|]. exists n. split; [reflexivity|].
      econstructor; eauto. lia.
Qed.

Lemma reaches_ok (ts ts' : list (task A)) :
  Forall2 reaches ts ts' -> Forall ok ts -> Forall ok ts'.
Proof.
  induction 1 as [|t t' ts ts' R _ IH]; intro H; constructor;
    inversion H; subst; auto.
  eapply always_reaches; eauto.
Qed.

Lemma Forall2_reaches_trans (ts1 ts2 ts3 : list (task A)) :
  Forall2 reaches ts1 ts2 -> Forall2 reaches ts2 ts3 -> Forall2 reaches ts1 ts3.
Proof.
  intro H. revert ts3. induction H as [|t1 t2 ts1 ts2 R _ IH]; intros ts3 H23;
    inversion H23; subst; constructor; auto.
  eapply reaches_trans; eauto.
Qed.

Lemma start_all_spec (ts : list (task A)) (w : World) :
  Forall ok ts ->
  extends pc w (snd (start_all W handle ts w)) /\
  Forall2 reaches ts (fst (start_all W handle ts w)).
Proof.
  intro H. revert w. induction H as [|t ts Ht _ IH]; intro w; simpl.
  - split; [apply extends_refl | constructor].
  - destruct (run_sync_spec t w Ht) as [E R].
    destruct (run_sync W handle t w) as [t' w1]. simpl in *.
    destruct (IH w1) as [E1 R1].
    destruct (start_all W handle ts w1) as [ts' w2]. simpl in *. split.
    + eapply extends_trans; eauto.
    + constructor; auto.
Qed.

Lemma start_all_height (n : nat) (ts : list (task A)) (w : World) :
  heights_le n ts -> heights_le n (fst (start_all W handle ts w)).
Proof.
  revert n w. induction ts as [|t ts IH]; intros n w H; simpl; [constructor|].
  inversion H as [|a b n0 t0 ts0 Ha Hb Hab]; subst.
  pose proof (run_sync_height a t w Ha) as Ha'.
  destruct (run_sync W handle t w) as [t' w1]. simpl in *.
  pose proof (IH b w1 Hb) as Hb'.
  destruct (start_all W handle ts w1) as [ts' w2]. simpl in *.
  econstructor; eauto.
Qed.

Lemma heights_of_each (h : nat) (ts : list (task A)) :
  Forall (height_le h) ts -> heights_le (h * List.length ts) ts.
Proof.
  induction 1 as [|t ts Ht _ IH]; [constructor|].
  econstructor; eauto. simpl. lia.
Qed.

(** The event loop empties the pool within as many resumptions as the tasks
    have calls left. *)
Lemma run_pool_spec (fuel n : nat) (ts : list (task A)) (w : World) :
  Forall ok ts -> heights_le n ts -> n <= fuel ->
  exists ts' w',
    run_pool W handle fuel ts w = Some (ts', w') /\
    extends pc w w' /\ Forall2 reaches ts ts' /\ pending ts' = 0.
Proof.
  revert n ts w. induction fuel as [|fuel IH]; intros n ts w Hok Hn Hfuel;
    cbn [run_pool]; destruct (pending ts =? 0) eqn:P.
  - apply Nat.eqb_eq in P. exists ts, w.
    split; [reflexivity|]. split; [|split; [|exact P]].
    + apply extends_refl.
    + clear. induction ts; constructor; auto. constructor.
  - apply Nat.eqb_neq in P.
    destruct (resume_nth_height ts n 0 w Hn) as (n' & -> & _); lia.
  - apply Nat.eqb_eq in P. exists ts, w.
    split; [reflexivity|]. split; [|split; [|exact P]].
    + apply extends_refl.
    + clear. induction ts; constructor; auto. constructor.
  - apply Nat.eqb_neq in P.
    pose proof (next_choice_extends pc w) as E0.
    destruct (next_choice W w) as [choice w1]. simpl in E0.
    assert (Hk : choice mod pending ts < pending ts)
      by (apply Nat.mod_upper_bound; exact P).
    destruct (resume_nth_spec ts (choice mod pending ts) w1 Hok) as [E1 R1].
    destruct (resume_nth_height ts n (choice mod pending ts) w1 Hn Hk)
      as (n' & -> & Hn').
    destruct (resume_nth W handle (choice mod pending ts) ts w1) as [ts1 w2].
    simpl in *.
    destruct (IH n' ts1 w2) as (ts' & w' & Hrun & E2 & R2 & P2);
      [eapply reaches_ok; eauto | exact Hn' | lia |].
    exists ts', w'. split; [exact Hrun|]. split; [|split; [|exact P2]].
    + eapply extends_trans; [exact E0|]. eapply extends_trans; eauto.
    + eapply Forall2_reaches_trans; eauto.
Qed.

Lemma collect_spec (ts : list (task A)) :
  (forall m, ~ PT m) -> Forall ok ts -> pending ts = 0 ->
  exists outs, collect ts = Ok outs /\ Forall2 (fun t o => t = Ret o) ts outs.
Proof.
  intros HT H. induction H as [|t ts Ht _ IH]; intro P.
  - exists []. split; [reflexivity | constructor].
  - unfold pending in P. simpl in P. destruct t as [a | m | c k]; simpl in *.
    + destruct (IH P) as (outs & -> & F). exists (a :: outs). split; [reflexivity|].
      constructor; auto.
    + apply always_inv in Ht. destruct (HT m Ht).
    + discriminate.
Qed.

(** [Promise.all] over tasks that never reject: every task settles, and the
    values come back one per task, in order. *)
Lemma Promise_all_spec (fuel h : nat) (ts : list (task A)) (w : World) :
  (forall m, ~ PT m) -> Forall ok ts -> Forall (height_le h) ts ->
  h * List.length ts <= fuel ->
  exists outs w',
    Promise_all W handle fuel ts w = Some (Ok outs, w') /\
    extends pc w w' /\ Forall2 (fun t o => reaches t (Ret o)) ts outs.
Proof.
  intros HT Hok Hh Hfuel. unfold Promise_all.
  destruct (start_all_spec ts w Hok) as [E0 R0].
  pose proof (start_all_height _ ts w (heights_of_each h ts Hh)) as H0.
  destruct (start_all W handle ts w) as [started w1]. simpl in *.
  destruct (run_pool_spec fuel _ started w1 (reaches_ok _ _ R0 Hok) H0 Hfuel)
    as (settled & w2 & -> & E1 & R1 & P).
  assert (Hs : Forall ok settled)
    by (eapply reaches_ok; [exact R1|]; eapply reaches_ok; eauto).
  destruct (collect_spec settled HT Hs P) as (outs & -> & F).
  exists outs, w2. split; [reflexivity|]. split.
  - eapply extends_trans; eauto.
  - pose proof (Forall2_reaches_trans _ _ _ R0 R1) as R. clear - R F.
    revert outs F. induction R as [|t t' ts ts' Rt _ IH]; intros outs F;
      inversion F; subst; constructor; auto.
Qed.

End OneTask.

End PoolLemmas.

(** ** The batch *)

Lemma item_call_allowed (simulation : bool) (c : call) :
  item_call simulation c = true -> allowed simulation c = true.
Proof.
  destruct simulation; [|reflexivity].
  destruct c as [ | | l | l | | | | | | | ]; try destruct l; cbv; congruence.
Qed.

Lemma item_call_not_batch (simulation : bool) (c : call) :
  item_call simulation c = true -> is_batch_log c = false.
Proof.
  destruct c as [ | | l | l | | | | | | | ]; try destruct l; simpl; congruence.
Qed.

Lemma ceil_div_step (n c : nat) :
  0 < c -> 0 < n -> ceil_div n c = S (ceil_div (n - c) c).
Proof.
  intros Hc Hn. unfold ceil_div.
  replace (n + c - 1) with (n - 1 + 1 * c) by lia.
  rewrite Nat.div_add by lia.
  destruct (Nat.le_gt_cases n c) as [Hle | Hgt].
  - replace (n - c + c - 1) with (c - 1) by lia.
    rewrite !Nat.div_small by lia. reflexivity.
  - replace (n - c + c - 1) with (n - 1) by lia. lia.
Qed.

Lemma ceil_div_0 (c : nat) : 0 < c -> ceil_div 0 c = 0.
Proof.
  intro Hc. unfold ceil_div. apply Nat.div_small. lia.
Qed.

Lemma batches_app (evs1 evs2 : list event) :
  batches (evs1 ++ evs2) = batches evs1 + batches evs2.
Proof.
  unfold batches. rewrite filter_app, length_app. reflexivity.
Qed.

Lemma batches_items (simulation : bool) (evs : list event) :
  Forall (fun e => item_call simulation (event_call e) = true) evs ->
  batches evs = 0.
Proof.
  unfold batches. induction 1 as [|e evs He _ IH]; [reflexivity|]. simpl.
  rewrite (item_call_not_batch _ _ He). exact IH.
Qed.

Section Batch.

Variable cfg : Config.
Variable host : Host.
Variable W : Type.
Variable handle : forall c : call, W -> reply c * W.

Local Open Scope nat_scope.
Local Open Scope list_scope.

Lemma chunk_outcomes (operator : string) (chunk : list string)
    (outs : list outcome) :
  Forall2 (fun t o => reaches t (Ret o))
          (map (chunkPromise cfg host operator) chunk) outs ->
  Forall2 (outcome_of cfg host operator) chunk outs.
Proof.
  revert outs. induction chunk as [|f chunk IH]; intros outs H;
    inversion H; subst; constructor; auto.
Qed.

Lemma do_call_world (c : call) (w : World W) :
  trace W (snd (do_call W handle c w))
    = trace W w ++ [existT reply c (fst (do_call W handle c w))] /\
  report_file W (snd (do_call W handle c w)) = report_file W w.
Proof.
  unfold do_call. destruct (handle c (ext W w)) as [r e]. simpl. auto.
Qed.

(** The loop of lines 142-160 from index [i]: it ends, having announced
    [ceil_div (N - i) C] chunks and appended one outcome per remaining
    file, in order. *)
Lemma chunk_loop_spec (fuel pool_fuel : nat) (operator : string)
    (configFiles : list string) (i : nat) (results : list outcome)
    (w : World W) :
  0 < BATCH_SIZE cfg ->
  List.length configFiles - i <= fuel ->
  13 * List.length configFiles <= pool_fuel ->
  exists outs w' evs,
    chunk_loop cfg host W handle fuel pool_fuel operator configFiles i results w
      = Some (Ok (results ++ outs), w') /\
    Forall2 (outcome_of cfg host operator) (skipn i configFiles) outs /\
    report_file W w' = report_file W w /\
    trace W w' = trace W w ++ evs /\
    Forall (fun e => allowed (IS_SIMULATION cfg) (event_call e) = true) evs /\
    batches evs = ceil_div (List.length configFiles - i) (BATCH_SIZE cfg).
Proof.
  intros HC. revert i results w.
  induction fuel as [|fuel IH]; intros i results w Hfuel Hpool;
    cbn [chunk_loop]; destruct (i <? List.length configFiles) eqn:Hi;
    try (apply Nat.ltb_ge in Hi; exists [], w, [];
         rewrite !app_nil_r, skipn_all2 by exact Hi;
         replace (List.length configFiles - i) with 0 by lia;
         rewrite ceil_div_0 by exact HC; repeat split; constructor).
  - apply Nat.ltb_lt in Hi. lia.
  - apply Nat.ltb_lt in Hi.
    set (chunk := slice i (i + BATCH_SIZE cfg) configFiles).
    destruct (do_call_world (ConsoleLog (LogBatch (batch_number cfg i))) w)
      as [T1 R1].
    destruct (do_call W handle (ConsoleLog (LogBatch (batch_number cfg i))) w)
      as [u w1]. simpl in T1, R1.
    assert (Hlen : List.length chunk <= List.length configFiles).
    { unfold chunk, slice. rewrite length_firstn, length_skipn. lia. }
    destruct (Promise_all_spec W handle (item_call (IS_SIMULATION cfg))
                (fun _ : outcome => True) (fun _ => False) pool_fuel 13
                (map (chunkPromise cfg host operator) chunk) w1)
      as (outs1 & w2 & -> & [R2 (evs2 & T2 & F2)] & O2).
    + intros m Hm. exact Hm.
    + apply Forall_forall. intros t Ht. apply in_map_iff in Ht.
      destruct Ht as (f & <- & _). apply chunkPromise_calls.
    + apply Forall_forall. intros t Ht. apply in_map_iff in Ht.
      destruct Ht as (f & <- & _). apply chunkPromise_height.
    + rewrite length_map. lia.
    + destruct (IH (i + BATCH_SIZE cfg) (results ++ outs1) w2)
        as (outs3 & w3 & evs3 & -> & O3 & R3 & T3 & F3 & B3); [lia | exact Hpool |].
      exists (outs1 ++ outs3), w3,
        ([existT reply (ConsoleLog (LogBatch (batch_number cfg i))) u] ++ evs2 ++ evs3).
      rewrite app_assoc. split; [reflexivity|]. split; [|split; [|split; [|split]]].
      * replace (skipn i configFiles)
          with (chunk ++ skipn (i + BATCH_SIZE cfg) configFiles).
        -- apply Forall2_app; [apply chunk_outcomes, O2 | exact O3].
        -- unfold chunk, slice.
           replace (i + BATCH_SIZE cfg - i) with (BATCH_SIZE cfg) by lia.
           transitivity (firstn (BATCH_SIZE cfg) (skipn i configFiles)
                         ++ skipn (BATCH_SIZE cfg) (skipn i configFiles));
             [|apply firstn_skipn].
           f_equal. rewrite skipn_skipn. f_equal. lia.
      * congruence.
      * rewrite T3, T2, T1, <- !app_assoc. reflexivity.
      * apply Forall_app. split; [repeat constructor|].
        -- unfold allowed. simpl. rewrite andb_false_r. reflexivity.
        -- apply Forall_app. split; [|exact F3].
           eapply Forall_impl; [|exact F2]. intros e. apply item_call_allowed.
      * rewrite !batches_app, (batches_items _ _ F2), B3.
        rewrite (ceil_div_step (List.length configFiles - i)) by lia.
        unfold batches. simpl. f_equal. f_equal. lia.
Qed.

(** [batchMintNFTs] after a successful start, with a positive chunk size and
    a writable results file: it returns, the report holds one outcome per
    catalog file in catalog order, and [ceil_div N C] chunks were
    processed. *)
Lemma batch_spec (fuel : nat) (w : World W) (operator : string)
    (configFiles : list string) :
  startup cfg host = Ok (operator, configFiles) ->
  0 < BATCH_SIZE cfg ->
  13 * List.length configFiles <= fuel ->
  fs_write_error host results_file = None ->
  exists outs w' evs,
    batchMintNFTs cfg host W handle fuel w = Some (Ok tt, w') /\
    report_file W w' = Some outs /\
    Forall2 (outcome_of cfg host operator) configFiles outs /\
    trace W w' = trace W w ++ evs /\
    Forall (fun e => allowed (IS_SIMULATION cfg) (event_call e) = true) evs /\
    batches evs = ceil_div (List.length configFiles) (BATCH_SIZE cfg).
Proof.
  intros Hstart HC Hfuel Hwrite. unfold batchMintNFTs. rewrite Hstart, Hwrite.
  destruct (do_call_world (ConsoleLog (LogMode (IS_SIMULATION cfg))) w) as [T0 R0].
  destruct (do_call W handle (ConsoleLog (LogMode (IS_SIMULATION cfg))) w)
    as [u0 w0]. simpl in T0, R0.
  destruct (do_call_world
              (ConsoleLog (LogProcessing (List.length configFiles) (BATCH_SIZE cfg)))
              w0) as [T1 R1].
  destruct (do_call W handle
              (ConsoleLog (LogProcessing (List.length configFiles) (BATCH_SIZE cfg)))
              w0) as [u1 w1]. simpl in T1, R1.
  destruct (chunk_loop_spec fuel fuel operator configFiles 0 [] w1 HC)
    as (outs & w2 & evs & -> & O2 & R2 & T2 & F2 & B2); [lia | exact Hfuel |].
  simpl in O2. rewrite Nat.sub_0_r in B2. change ([] ++ outs) with outs.
  destruct (do_call_world (ConsoleLog LogDone) (write_report W outs w2)) as [T3 R3].
  destruct (do_call W handle (ConsoleLog LogDone) (write_report W outs w2))
    as [u3 w3]. simpl in T3, R3.
  exists outs, w3,
    ([existT reply (ConsoleLog (LogMode (IS_SIMULATION cfg))) u0]
     ++ [existT reply
           (ConsoleLog (LogProcessing (List.length configFiles) (BATCH_SIZE cfg))) u1]
     ++ evs ++ [existT reply (ConsoleLog LogDone) u3]).
  split; [reflexivity|]. split; [exact R3|]. split; [exact O2|].
  split; [|split].
  - rewrite T3, T2, T1, T0, <- !app_assoc. reflexivity.
  - unfold allowed. repeat (apply Forall_app; split);
      try (repeat constructor; simpl; apply negb_true_iff, andb_false_r).
    exact F2.
  - rewrite !batches_app, B2. unfold batches. simpl. lia.
Qed.

End Batch.

(** ** Whose call is whose

    The trace of a pool is an interleaving of the events of its tasks: each
    event belongs to the task that made the call, and each task has become
    what it is by its own events. *)

Section Owners.

Local Open Scope nat_scope.
Local Open Scope list_scope.

Lemma follows_trans {A : Type} (t1 t2 t3 : task A) (evs1 evs2 : list event) :
  follows t1 evs1 t2 -> follows t2 evs2 t3 -> follows t1 (evs1 ++ evs2) t3.
Proof.
  induction 1 as [t | c k r evs t' _ IH]; intro H; [exact H|].
  simpl. constructor. apply IH, H.
Qed.

Lemma follows_returns {A : Type} (t : task A) (evs : list event) (a : A) :
  follows t evs (Ret a) -> returns t evs a.
Proof.
  intro H. remember (Ret a) as t' eqn:Ht.
  induction H as [t | c k r evs t' _ IH]; subst.
  - simpl. auto.
  - simpl. exists r, evs. split; [reflexivity | apply IH; reflexivity].
Qed.

Lemma own_nil_r (j : nat) (owners : list (option nat)) : own j owners [] = [].
Proof.
  destruct owners as [|[i|] owners]; reflexivity.
Qed.

Lemma own_app (j : nat) (os1 os2 : list (option nat)) (evs1 evs2 : list event) :
  List.length os1 = List.length evs1 ->
  own j (os1 ++ os2) (evs1 ++ evs2) = own j os1 evs1 ++ own j os2 evs2.
Proof.
  revert evs1. induction os1 as [|o os1 IH]; intros [|ev evs1] H;
    try discriminate; simpl; [reflexivity|].
  injection H as H. rewrite (IH evs1 H).
  destruct o as [i|]; [destruct (i =? j)|]; reflexivity.
Qed.

Lemma own_repeat (i j : nat) (evs : list event) :
  own j (repeat (Some i) (List.length evs)) evs = if i =? j then evs else [].
Proof.
  induction evs as [|ev evs IH]; simpl; [destruct (i =? j); reflexivity|].
  rewrite IH. destruct (i =? j); reflexivity.
Qed.

Lemma own_outside (lo hi j : nat) (owners : list (option nat)) (evs : list event) :
  owners_in lo hi owners -> j < lo \/ hi <= j -> own j owners evs = [].
Proof.
  intros H Hj. revert evs. induction H as [|o owners Ho _ IH]; intros [|ev evs];
    try reflexivity.
  simpl. destruct o as [i|]; [|apply IH].
  destruct (i =? j) eqn:E; [|apply IH]. apply Nat.eqb_eq in E. lia.
Qed.

Lemma owners_in_app (lo hi : nat) (os1 os2 : list (option nat)) :
  owners_in lo hi os1 -> owners_in lo hi os2 -> owners_in lo hi (os1 ++ os2).
Proof.
  intros H1 H2. apply Forall_app. split; assumption.
Qed.

Lemma owners_in_weaken (lo hi lo' hi' : nat) (owners : list (option nat)) :
  lo' <= lo -> hi <= hi' -> owners_in lo hi owners -> owners_in lo' hi' owners.
Proof.
  intros Hlo Hhi. apply Forall_impl. intros [i|]; [lia | auto].
Qed.

Lemma owners_in_repeat (lo hi i n : nat) :
  lo <= i < hi -> owners_in lo hi (repeat (Some i) n).
Proof.
  intro H. induction n; simpl; constructor; auto.
Qed.

Lemma all_follow_length {A : Type} (owners : list (option nat)) (evs : list event)
    (b : nat) (ts ts' : list (task A)) :
  all_follow owners evs b ts ts' -> List.length ts' = List.length ts.
Proof.
  induction 1; simpl; congruence.
Qed.

Lemma all_follow_ext {A : Type} (os os' : list (option nat)) (evs evs' : list event)
    (b : nat) (ts ts' : list (task A)) :
  (forall j, b <= j < b + List.length ts -> own j os' evs' = own j os evs) ->
  all_follow os evs b ts ts' -> all_follow os' evs' b ts ts'.
Proof.
  intros Hext H. induction H as [b | b t t' ts ts' Ht _ IH]; constructor.
  - rewrite Hext by (simpl; lia). exact Ht.
  - apply IH. intros j Hj. apply Hext. simpl. lia.
Qed.

Lemma all_follow_same {A : Type} (os : list (option nat)) (evs : list event)
    (b : nat) (ts : list (task A)) :
  (forall j, b <= j < b + List.length ts -> own j os evs = []) ->
  all_follow os evs b ts ts.
Proof.
  revert b. induction ts as [|t ts IH]; intros b H; constructor.
  - rewrite H by (simpl; lia). constructor.
  - apply IH. intros j Hj. apply H. simpl. lia.
Qed.

Lemma all_follow_trans {A : Type} (os1 os2 : list (option nat))
    (evs1 evs2 : list event) (b : nat) (ts ts1 ts2 : list (task A)) :
  List.length os1 = List.length evs1 ->
  all_follow os1 evs1 b ts ts1 -> all_follow os2 evs2 b ts1 ts2 ->
  all_follow (os1 ++ os2) (evs1 ++ evs2) b ts ts2.
Proof.
  intros Hlen H1. revert ts2. induction H1 as [b | b t t' ts ts' Ht _ IH];
    intros ts2 H2; inversion H2; subst; constructor.
  - rewrite own_app by exact Hlen. eapply follows_trans; eassumption.
  - apply IH. assumption.
Qed.

Lemma all_follow_app {A : Type} (os : list (option nat)) (evs : list event)
    (b : nat) (ts1 ts1' ts2 ts2' : list (task A)) :
  all_follow os evs b ts1 ts1' ->
  all_follow os evs (b + List.length ts1) ts2 ts2' ->
  all_follow os evs b (ts1 ++ ts2) (ts1' ++ ts2').
Proof.
  induction 1 as [b | b t t' ts ts' Ht _ IH]; intro H2; simpl.
  - rewrite Nat.add_0_r in H2. exact H2.
  - constructor; [exact Ht|]. apply IH.
    replace (S b + List.length ts) with (b + S (List.length ts)) by lia. exact H2.
Qed.

(** The outcome of entry [b + j] is what its function returns on its own
    events. *)
Lemma all_follow_returns {A B : Type} (f : B -> task A) (os : list (option nat))
    (evs : list event) (b : nat) (xs : list B) (outs : list A) :
  all_follow os evs b (map f xs) (map Ret outs) ->
  forall j x, nth_error xs j = Some x ->
              exists o, nth_error outs j = Some o /\
                        returns (f x) (own (b + j) os evs) o.
Proof.
  revert b outs. induction xs as [|x0 xs IH]; intros b outs H j x Hj.
  - destruct j; discriminate.
  - destruct outs as [|o outs]; inversion H; subst.
    destruct j as [|j]; simpl in Hj.
    + injection Hj as <-. exists o. rewrite Nat.add_0_r.
      split; [reflexivity|]. apply follows_returns. assumption.
    + destruct (IH (S b) outs) with (j := j) (x := x) as (o' & Ho & Hr);
        [assumption | exact Hj |].
      exists o'. split; [exact Ho|].
      replace (b + S j) with (S b + j) by lia. exact Hr.
Qed.

Variable W : Type.
Variable handle : forall c : call, W -> reply c * W.

Let World : Type := World W.

Lemma run_sync_follows {A : Type} (t : task A) (w : World) :
  exists evs,
    trace W (snd (run_sync W handle t w)) = trace W w ++ evs /\
    follows t evs (fst (run_sync W handle t w)).
Proof.
  revert w. induction t as [a | m | c k IH]; intro w; simpl;
    try (exists []; rewrite app_nil_r; split; [reflexivity | constructor]).
  destruct (suspends c); simpl;
    [exists []; rewrite app_nil_r; split; [reflexivity | constructor]|].
  destruct (do_call_world W handle c w) as [T _].
  destruct (do_call W handle c w) as [r w1]. simpl in T.
  destruct (IH r w1) as (evs & T1 & F1).
  exists (existT reply c r :: evs). split.
  - rewrite T1, T, <- app_assoc. reflexivity.
  - constructor. exact F1.
Qed.

Lemma resume_follows {A : Type} (t : task A) (w : World) :
  exists evs,
    trace W (snd (resume W handle t w)) = trace W w ++ evs /\
    follows t evs (fst (resume W handle t w)).
Proof.
  destruct t as [a | m | c k]; simpl;
    try (exists []; rewrite app_nil_r; split; [reflexivity | constructor]).
  destruct (do_call_world W handle c w) as [T _].
  destruct (do_call W handle c w) as [r w1]. simpl in T.
  destruct (run_sync_follows (k r) w1) as (evs & T1 & F1).
  exists (existT reply c r :: evs). split.
  - rewrite T1, T, <- app_assoc. reflexivity.
  - constructor. exact F1.
Qed.

Lemma resume_nth_follows {A : Type} (ts : list (task A)) (b n : nat) (w : World) :
  exists owners evs,
    trace W (snd (resume_nth W handle n ts w)) = trace W w ++ evs /\
    List.length owners = List.length evs /\
    owners_in b (b + List.length ts) owners /\
    all_follow owners evs b ts (fst (resume_nth W handle n ts w)).
Proof.
  revert b n w. induction ts as [|t ts IH]; intros b n w.
  - exists [], []. simpl. rewrite app_nil_r.
    repeat split; constructor.
  - assert (Hrest : forall n',
      exists owners evs,
        trace W (snd (resume_nth W handle n' ts w)) = trace W w ++ evs /\
        List.length owners = List.length evs /\
        owners_in b (b + List.length (t :: ts)) owners /\
        all_follow owners evs b (t :: ts)
                   (t :: fst (resume_nth W handle n' ts w))).
    { intro n'. destruct (IH (S b) n' w) as (os & evs & T & L & R & F).
      exists os, evs. split; [exact T|]. split; [exact L|]. split.
      - eapply owners_in_weaken; [| |exact R]; simpl; lia.
      - constructor; [|exact F].
        rewrite (own_outside (S b) (S b + List.length ts)) by (auto; lia).
        constructor. }
    simpl. destruct (is_pending t).
    + destruct n as [|n].
      * destruct (resume_follows t w) as (evs & T & F).
        destruct (resume W handle t w) as [t' w']. simpl in *.
        exists (repeat (Some b) (List.length evs)), evs.
        split; [exact T|]. split; [apply repeat_length|]. split.
        -- apply owners_in_repeat. lia.
        -- constructor.
           ++ rewrite own_repeat, Nat.eqb_refl. exact F.
           ++ apply all_follow_same. intros j Hj. rewrite own_repeat.
              replace (b =? j) with false by (symmetry; apply Nat.eqb_neq; lia).
              reflexivity.
      * destruct (Hrest n) as (os & evs & T & L & R & F).
        destruct (resume_nth W handle n ts w) as [ts' w']. simpl in *.
        exists os, evs. auto.
    + destruct (Hrest n) as (os & evs & T & L & R & F).
      destruct (resume_nth W handle n ts w) as [ts' w']. simpl in *.
      exists os, evs. auto.
Qed.

Lemma start_all_follows {A : Type} (ts : list (task A)) (b : nat) (w : World) :
  exists owners evs,
    trace W (snd (start_all W handle ts w)) = trace W w ++ evs /\
    List.length owners = List.length evs /\
    owners_in b (b + List.length ts) owners /\
    all_follow owners evs b ts (fst (start_all W handle ts w)).
Proof.
  revert b w. induction ts as [|t ts IH]; intros b w; simpl.
  - exists [], []. rewrite app_nil_r. repeat split; constructor.
  - destruct (run_sync_follows t w) as (evs1 & T1 & F1).
    destruct (run_sync W handle t w) as [t' w1]. simpl in *.
    destruct (IH (S b) w1) as (os2 & evs2 & T2 & L2 & R2 & F2).
    destruct (start_all W handle ts w1) as [ts' w2]. simpl in *.
    exists (repeat (Some b) (List.length evs1) ++ os2), (evs1 ++ evs2).
    split; [rewrite T2, T1, <- app_assoc; reflexivity|].
    split; [rewrite !length_app, repeat_length; lia|]. split.
    + apply owners_in_app; [apply owners_in_repeat; lia|].
      eapply owners_in_weaken; [| |exact R2]; lia.
    + constructor.
      * rewrite own_app by apply repeat_length.
        rewrite own_repeat, Nat.eqb_refl.
        rewrite (own_outside (S b) (S b + List.length ts)) by (auto; lia).
        rewrite app_nil_r. exact F1.
      * eapply all_follow_ext; [|exact F2]. intros j Hj.
        rewrite own_app by apply repeat_length. rewrite own_repeat.
        replace (b =? j) with false by (symmetry; apply Nat.eqb_neq; lia).
        reflexivity.
Qed.

Lemma run_pool_follows {A : Type} (fuel b : nat) (ts ts' : list (task A))
    (w w' : World) :
  run_pool W handle fuel ts w = Some (ts', w') ->
  pending ts' = 0 /\
  exists owners evs,
    trace W w' = trace W w ++ evs /\
    List.length owners = List.length evs /\
    owners_in b (b + List.length ts) owners /\
    all_follow owners evs b ts ts'.
Proof.
  revert ts w. induction fuel as [|fuel IH]; intros ts w; cbn [run_pool];
    destruct (pending ts =? 0) eqn:P; try discriminate;
    try (intro H; injection H as <- <-; apply Nat.eqb_eq in P;
         split; [exact P|]; exists [], []; rewrite app_nil_r;
         split; [reflexivity|]; split; [reflexivity|];
         split; [constructor|]; apply all_follow_same; reflexivity).
  destruct (next_choice W w) as [choice w1] eqn:N.
  assert (T0 : trace W w1 = trace W w)
    by (unfold next_choice in N; injection N as _ <-; reflexivity).
  destruct (resume_nth_follows ts b (choice mod pending ts) w1)
    as (os1 & evs1 & T1 & L1 & R1 & F1).
  destruct (resume_nth W handle (choice mod pending ts) ts w1) as [ts1 w2].
  simpl in *. intro H. destruct (IH ts1 w2 H) as (P' & os2 & evs2 & T2 & L2 & R2 & F2).
  split; [exact P'|].
  exists (os1 ++ os2), (evs1 ++ evs2).
  split; [rewrite T2, T1, T0, <- app_assoc; reflexivity|].
  split; [rewrite !length_app; lia|]. split.
  - apply owners_in_app; [exact R1|].
    rewrite (all_follow_length _ _ _ _ _ F1) in R2. exact R2.
  - eapply all_follow_trans; eassumption.
Qed.

Lemma collect_settled {A : Type} (ts : list (task A)) (outs : list A) :
  pending ts = 0 -> collect ts = Ok outs -> ts = map Ret outs.
Proof.
  revert outs. induction ts as [|t ts IH]; intros outs P H.
  - injection H as <-. reflexivity.
  - unfold pending in P. destruct t as [a | m | c k]; simpl in *;
      try discriminate.
    destruct (collect ts) as [l | m]; simpl in H; [|discriminate].
    injection H as <-. simpl. f_equal. apply IH; auto.
Qed.

Lemma Promise_all_follows {A : Type} (fuel b : nat) (ts : list (task A))
    (outs : list A) (w w' : World) :
  Promise_all W handle fuel ts w = Some (Ok outs, w') ->
  exists owners evs,
    trace W w' = trace W w ++ evs /\
    List.length owners = List.length evs /\
    owners_in b (b + List.length ts) owners /\
    all_follow owners evs b ts (map Ret outs).
Proof.
  unfold Promise_all.
  destruct (start_all_follows ts b w) as (os1 & evs1 & T1 & L1 & R1 & F1).
  destruct (start_all W handle ts w) as [started w1]. simpl in *.
  destruct (run_pool W handle fuel started w1) as [[settled w2]|] eqn:Hrun;
    [|discriminate].
  destruct (run_pool_follows fuel b started settled w1 w2 Hrun)
    as (P & os2 & evs2 & T2 & L2 & R2 & F2).
  intro H. injection H as Hc <-.
  rewrite (collect_settled settled outs P Hc) in F2.
  exists (os1 ++ os2), (evs1 ++ evs2).
  split; [rewrite T2, T1, <- app_assoc; reflexivity|].
  split; [rewrite !length_app; lia|]. split.
  - apply owners_in_app; [exact R1|].
    rewrite (all_follow_length _ _ _ _ _ F1) in R2. exact R2.
  - eapply all_follow_trans; eassumption.
Qed.

End Owners.

Section BatchOwners.

Variable cfg : Config.
Variable host : Host.
Variable W : Type.
Variable handle : forall c : call, W -> reply c * W.

Local Open Scope nat_scope.
Local Open Scope list_scope.

(** The loop of lines 142-160 from index [i]: the events it adds to the
    trace belong to the entries from [i] on, one announcement per chunk
    apart, and each entry's outcome is the one its function comes to by its
    own events. *)
Lemma chunk_loop_follows (fuel pool_fuel : nat) (operator : string)
    (configFiles : list string) (i : nat) (results rs : list outcome)
    (w w' : World W) :
  0 < BATCH_SIZE cfg ->
  chunk_loop cfg host W handle fuel pool_fuel operator configFiles i results w
    = Some (Ok rs, w') ->
  exists outs owners evs,
    rs = results ++ outs /\
    trace W w' = trace W w ++ evs /\
    List.length owners = List.length evs /\
    owners_in i (List.length configFiles) owners /\
    all_follow owners evs i
               (map (chunkPromise cfg host operator) (skipn i configFiles))
               (map Ret outs).
Proof.
  intro HC. revert i results w.
  induction fuel as [|fuel IH]; intros i results w; cbn [chunk_loop];
    destruct (i <? List.length configFiles) eqn:Hi; try discriminate;
    try (apply Nat.ltb_ge in Hi; intro H; injection H as <- <-;
         exists [], [], []; rewrite !app_nil_r, skipn_all2 by exact Hi;
         repeat split; constructor).
  apply Nat.ltb_lt in Hi.
  set (chunk := slice i (i + BATCH_SIZE cfg) configFiles).
  destruct (do_call_world W handle (ConsoleLog (LogBatch (batch_number cfg i))) w)
    as [T0 _].
  destruct (do_call W handle (ConsoleLog (LogBatch (batch_number cfg i))) w)
    as [u w1]. simpl in T0.
  destruct (Promise_all W handle pool_fuel
              (map (chunkPromise cfg host operator) chunk) w1)
    as [[[outs1 | m] w2]|] eqn:Hall; try discriminate.
  destruct (Promise_all_follows W handle pool_fuel i _ outs1 w1 w2 Hall)
    as (os1 & evs1 & T1 & L1 & R1 & F1).
  rewrite length_map in R1.
  intro Hloop.
  destruct (IH (i + BATCH_SIZE cfg) (results ++ outs1) w2 Hloop)
    as (outs3 & os3 & evs3 & -> & T3 & L3 & R3 & F3).
  assert (Hchunk : List.length chunk
                   = Nat.min (BATCH_SIZE cfg) (List.length configFiles - i)).
  { unfold chunk, slice. rewrite length_firstn, length_skipn. f_equal. lia. }
  assert (Hsplit : skipn i configFiles
                   = chunk ++ skipn (i + BATCH_SIZE cfg) configFiles).
  { unfold chunk, slice.
    replace (i + BATCH_SIZE cfg - i) with (BATCH_SIZE cfg) by lia.
    rewrite <- (firstn_skipn (BATCH_SIZE cfg) (skipn i configFiles)) at 1.
    f_equal. rewrite skipn_skipn. f_equal. lia. }
  exists (outs1 ++ outs3), (None :: os1 ++ os3),
    (existT reply (ConsoleLog (LogBatch (batch_number cfg i))) u :: evs1 ++ evs3).
  split; [rewrite app_assoc; reflexivity|].
  split; [rewrite T3, T1, T0, <- !app_assoc; reflexivity|].
  split; [simpl; rewrite !length_app; lia|]. split.
  - constructor; [exact I|]. apply owners_in_app.
    + eapply owners_in_weaken; [| |exact R1]; lia.
    + eapply owners_in_weaken; [| |exact R3]; lia.
  - rewrite Hsplit, !map_app. apply all_follow_app.
    + eapply all_follow_ext; [|exact F1]. intros j Hj. rewrite length_map in Hj.
      simpl. rewrite own_app by exact L1.
      rewrite (own_outside (i + BATCH_SIZE cfg) (List.length configFiles) j os3)
        by (auto; lia).
      apply app_nil_r.
    + rewrite length_map.
      destruct (Nat.le_gt_cases (List.length configFiles - i) (BATCH_SIZE cfg))
        as [Hle | Hgt].
      * rewrite skipn_all2 in F3 |- * by lia. simpl in F3 |- *.
        destruct outs3; inversion F3. constructor.
      * replace (i + List.length chunk) with (i + BATCH_SIZE cfg) by lia.
        eapply all_follow_ext; [|exact F3]. intros j Hj.
        simpl. rewrite own_app by exact L1.
        rewrite (own_outside i (i + List.length chunk) j os1) by (auto; lia).
        reflexivity.
Qed.

(** [batchMintNFTs] from a fresh start: every event of the run belongs to
    one entry of the catalog or to the batch itself, and the outcome reported
    for an entry is the one its function returns on its own events. *)
Lemma batch_follows (fuel : nat) (e : W) (choices : list nat)
    (operator : string) (configFiles : list string) (w' : World W) :
  startup cfg host = Ok (operator, configFiles) ->
  0 < BATCH_SIZE cfg ->
  batchMintNFTs cfg host W handle fuel (initial_world W e choices)
    = Some (Ok tt, w') ->
  exists outs owners,
    report_file W w' = Some outs /\
    List.length owners = List.length (trace W w') /\
    forall j file,
      nth_error configFiles j = Some file ->
      exists o, nth_error outs j = Some o /\
                returns (chunkPromise cfg host operator file)
                        (own j owners (trace W w')) o.
Proof.
  intros Hstart HC. unfold batchMintNFTs. rewrite Hstart.
  destruct (do_call_world W handle (ConsoleLog (LogMode (IS_SIMULATION cfg)))
              (initial_world W e choices)) as [T0 _].
  destruct (do_call W handle (ConsoleLog (LogMode (IS_SIMULATION cfg)))
              (initial_world W e choices)) as [u0 w0]. simpl in T0.
  destruct (do_call_world W handle
              (ConsoleLog (LogProcessing (List.length configFiles) (BATCH_SIZE cfg)))
              w0) as [T1 _].
  destruct (do_call W handle
              (ConsoleLog (LogProcessing (List.length configFiles) (BATCH_SIZE cfg)))
              w0) as [u1 w1]. simpl in T1.
  destruct (chunk_loop cfg host W handle fuel fuel operator configFiles 0 [] w1)
    as [[[rs | m] w2]|] eqn:Hloop; try discriminate.
  destruct (chunk_loop_follows fuel fuel operator configFiles 0 [] rs w1 w2 HC Hloop)
    as (outs & os & evs & -> & T2 & L2 & _ & F2).
  destruct (fs_write_error host results_file) as [m|]; [discriminate|].
  destruct (do_call_world W handle (ConsoleLog LogDone)
              (write_report W ([] ++ outs) w2)) as [T3 R3].
  destruct (do_call W handle (ConsoleLog LogDone) (write_report W ([] ++ outs) w2))
    as [u3 w3]. simpl in T3, R3.
  intro H. injection H as <-.
  assert (T : trace W w3
              = existT reply (ConsoleLog (LogMode (IS_SIMULATION cfg))) u0
                :: existT reply
                     (ConsoleLog (LogProcessing (List.length configFiles)
                                                (BATCH_SIZE cfg))) u1
                :: evs ++ [existT reply (ConsoleLog LogDone) u3]).
  { rewrite T3, T2, T1, T0. simpl. reflexivity. }
  exists outs, (None :: None :: os ++ [None]).
  split; [exact R3|]. split.
  - rewrite T. simpl. rewrite !length_app. simpl. lia.
  - intros j file Hj.
    destruct (all_follow_returns _ _ _ _ _ _ F2 j file Hj) as (o & Ho & Hr).
    exists o. split; [exact Ho|]. rewrite T. simpl.
    rewrite own_app by exact L2. simpl. rewrite app_nil_r. exact Hr.
Qed.

End BatchOwners.

(** ** Royalties (line 114) *)

Section Royalties.

Variable cfg : Config.
Variable host : Host.

(** The royalty attached to the creation transaction is the one line 114
    computes from the entry's [royaltyPercentage]. *)
Lemma royalty_attached (operator : string) (nftConfig : json) (royalty : jsval) :
  get_prop nftConfig "royaltyPercentage" = Ok royalty ->
  always (fun c => match c with
                   | SendAndConfirm tx =>
                       basisPoints tx = royaltyBasisPoints cfg host royalty
                   | _ => True
                   end)
         (fun _ => True) (fun _ => True)
         (mintSingleNFT cfg host operator nftConfig).
Proof.
  intro H. unfold mintSingleNFT, uploadFile, await, perform.
  destruct nftConfig; cbn in H; try discriminate; injection H as <-; cbn;
    repeat (match goal with
            | |- always _ _ _ (Ret _) => apply always_ret; exact I
            | |- always _ _ _ (Throw _) => apply always_throw; exact I
            | |- always _ _ _ (Do _ _) =>
                apply always_do;
                [first [exact I | reflexivity]
                | let r := fresh "r" in intro r; cbn in r]
            | |- context [lift ?r] => destruct r
            | |- context [if ?b then _ else _] => destruct b
            end; cbn).
Qed.

Lemma royalty_override (r : float) :
  number_truthy r = true ->
  royaltyBasisPoints cfg host (Some (JNum r)) = (r * 100)%float.
Proof.
  intro H. unfold royaltyBasisPoints, js_or. simpl. rewrite H. reflexivity.
Qed.

Lemma royalty_default :
  royaltyBasisPoints cfg host None = (ROYALTY_PERCENTAGE cfg * 100)%float.
Proof.
  reflexivity.
Qed.

End Royalties.

(** C9, as the claim states it, fails for an entry that supplies a royalty
    percentage of 0: under the script's configuration the basis points are
    500, not [0 * 100]. *)
Lemma C9_zero_override_ignored :
  royaltyBasisPoints CONFIG Demo.one_entry (Some (JNum 0)) <> (0 * 100)%float.
Proof.
  intro H. apply (f_equal float_to_Z) in H. vm_compute in H. discriminate H.
Qed.

(** C9 (amended): the royalty basis points attached to the creation
    transaction are [royaltyPercentage * 100] when the entry supplies a
    royalty percentage that is not zero (7 gives 700), and
    [ROYALTY_PERCENTAGE * 100] when the entry supplies none. *)
Theorem C9_royalty_basis_points (cfg : Config) (host : Host) (operator : string)
    (nftConfig : json) (royalty : jsval) :
  get_prop nftConfig "royaltyPercentage" = Ok royalty ->
  always (fun c => match c with
                   | SendAndConfirm tx =>
                       basisPoints tx = royaltyBasisPoints cfg host royalty
                   | _ => True
                   end)
         (fun _ => True) (fun _ => True)
         (mintSingleNFT cfg host operator nftConfig) /\
  (forall r, royalty = Some (JNum r) -> number_truthy r = true ->
             royaltyBasisPoints cfg host royalty = (r * 100)%float) /\
  (royalty = Some (JNum 7) -> royaltyBasisPoints cfg host royalty = 700%float) /\
  (royalty = None ->
   royaltyBasisPoints cfg host royalty = (ROYALTY_PERCENTAGE cfg * 100)%float).
Proof.
  intro H. split; [apply royalty_attached, H|]. split; [|split].
  - intros r -> Hr. apply royalty_override, Hr.
  - intros ->. reflexivity.
  - intros ->. apply royalty_default.
Qed.

(** An entry that asks for 7 percent, in live mode. *)
Lemma C9_royalty_basis_points_witness :
  get_prop (JObj [("royaltyPercentage", JNum 7)]) "royaltyPercentage"
    = Ok (Some (JNum 7)) /\
  royaltyBasisPoints Demo.LIVE Demo.one_entry (Some (JNum 7)) = 700%float.
Proof.
  split; [reflexivity|].
  apply (C9_royalty_basis_points Demo.LIVE Demo.one_entry "operator"
           (JObj [("royaltyPercentage", JNum 7)]) (Some (JNum 7)));
    reflexivity.
Defined.

(** C10: an entry whose [royaltyPercentage] is present and 0 gets
    [ROYALTY_PERCENTAGE * 100] basis points on its creation transaction (500
    under the script's configuration), not 0: zero is falsy, so the [||] of
    line 114 falls back to the default. *)
Theorem C10_zero_royalty_falls_back (cfg : Config) (host : Host)
    (operator : string) (nftConfig : json) :
  get_prop nftConfig "royaltyPercentage" = Ok (Some (JNum 0)) ->
  always (fun c => match c with
                   | SendAndConfirm tx =>
                       basisPoints tx = (ROYALTY_PERCENTAGE cfg * 100)%float
                   | _ => True
                   end)
         (fun _ => True) (fun _ => True)
         (mintSingleNFT cfg host operator nftConfig) /\
  royaltyBasisPoints cfg host (Some (JNum 0)) = (ROYALTY_PERCENTAGE cfg * 100)%float /\
  float_to_Z (royaltyBasisPoints CONFIG host (Some (JNum 0))) = Some 500%Z.
Proof.
  intro H. split; [|split; reflexivity].
  eapply always_weaken; [| | |apply (royalty_attached cfg host operator _ _ H)];
    auto.
Qed.

(** An entry that asks for 0 percent, in live mode. *)
Lemma C10_zero_royalty_falls_back_witness :
  royaltyBasisPoints Demo.LIVE Demo.one_entry (Some (JNum 0))
    = (ROYALTY_PERCENTAGE Demo.LIVE * 100)%float.
Proof.
  apply (C10_zero_royalty_falls_back Demo.LIVE Demo.one_entry "operator"
           Demo.zero_royalty_json).
  reflexivity.
Defined.

(** ** Funding (lines 57-65) *)

(** When the test of line 59 fails ([uploadPrice > currentBalance] is false),
    [uploadFile] issues no top-up. *)
Lemma no_top_up_when_funded (cfg : Config) (host : Host) (W : Type)
    (handle : forall c : call, W -> reply c * W)
    (filePath : jsval) (contentType : string) (e : W) (uploadPrice currentBalance : string) :
  let evs := snd (fst (run W handle (uploadFile cfg host filePath contentType) e)) in
  quoted_price evs = Some uploadPrice ->
  read_balance evs = Some currentBalance ->
  js_string_lt currentBalance uploadPrice = false ->
  existsb (fun ev => is_top_up (event_call ev)) evs = false.
Proof.
  cbv zeta. unfold uploadFile, await, perform.
  destruct (IS_SIMULATION cfg); cbn.
  - destruct (handle MathRandom e) as [r e1]. cbn. discriminate.
  - destruct (calculateSize host filePath) as [fileSize|m]; cbn; [|discriminate].
    destruct (bind_result (fs_path host filePath) (fs_readFileSync host))
      as [fileBuffer|m]; cbn; [|discriminate].
    destruct (handle (GetUploadCosts fileSize) e) as [[price|m] e1]; cbn;
      [|discriminate].
    destruct (handle GetBalance e1) as [[bal|m] e2]; cbn; [|discriminate].
    intros Hp Hb Hlt. injection Hp as <-. injection Hb as <-. rewrite Hlt. cbn.
    destruct (handle (TurboUploadFile (FileBuffer fileBuffer fileSize) contentType) e2)
      as [[up|m] e3]; reflexivity.
Qed.

(** Rounded up in exact arithmetic, the top-up covers the deficit. *)
Lemma spec_topUpAmount_covers (deficit wincForOneSol : Z) :
  (0 < wincForOneSol)%Z ->
  (deficit * 10 ^ 9 <= spec_topUpAmount deficit wincForOneSol * wincForOneSol)%Z.
Proof.
  intro Hw. unfold spec_topUpAmount.
  pose proof (Z.mul_div_le (deficit * 10 ^ 9 + wincForOneSol - 1) wincForOneSol Hw)
    as Hle.
  pose proof (Z.mod_pos_bound (deficit * 10 ^ 9 + wincForOneSol - 1)
                wincForOneSol Hw) as Hmod.
  pose proof (Z.div_mod (deficit * 10 ^ 9 + wincForOneSol - 1) wincForOneSol)
    as Hdiv.
  nia.
Qed.

(** C8, at a failing input: a price of 333333331001 credits, an empty
    balance and 1000000000003 credits for one SOL.  Line 62 computes a top-up
    of 333333331 lamports, which [uploadFile] sends; at that rate it buys
    less than the 333333331001 credits missing; rounding up in exact
    arithmetic gives 333333332. *)
Theorem C8_top_up_under_funds :
  topUpAmount 333333331001 0 1000000000003 = 333333331%float /\
  float_to_Z (topUpAmount 333333331001 0 1000000000003) = Some 333333331%Z /\
  (333333331 * 1000000000003 < (333333331001 - 0) * 10 ^ 9)%Z /\
  spec_topUpAmount (333333331001 - 0) 1000000000003 = 333333332%Z /\
  map event_call
      (snd (fst (run unit (Demo.network Demo.unfunded)
                     (uploadFile Demo.LIVE Demo.one_entry
                                 (Some (JStr "a.jpg")) "image/jpeg") tt)))
  = [GetUploadCosts 8; GetBalance; GetWincForToken 1000000000;
     ConsoleLog (LogTopUp 333333331); TopUpWithTokens 333333331;
     TurboUploadFile (FileBuffer "JPEGDATA" 8) "image/jpeg"].
Proof.
  repeat split; try (vm_compute; reflexivity).
Qed.

(** ** Funding before uploads (lines 57-72 and 93-97) *)

Section SingleRuns.

Variable cfg : Config.
Variable host : Host.
Variable W : Type.
Variable handle : forall c : call, W -> reply c * W.

Ltac run_step :=
  match goal with
  | |- context [handle ?c ?e] =>
      let r := fresh "r" in
      let e' := fresh "e" in
      destruct (handle c e) as [r e']; cbn in r;
      try match type of r with result _ => destruct r end
  | |- context [lift ?r] => destruct r
  | |- context [if ?b then _ else _] => destruct b
  end; cbn.

Ltac run_all :=
  unfold calls_of, events_of, result_of, await, perform; cbn; repeat run_step.

(** [uploadFile] queries the price for the file's size and the balance before
    it uploads. *)
Lemma uploadFile_funded (filePath : jsval) (contentType : string) (e : W) :
  funded_uploads None false (calls_of W handle (uploadFile cfg host filePath contentType) e)
  = true.
Proof.
  unfold uploadFile. destruct (IS_SIMULATION cfg).
  - run_all. reflexivity.
  - destruct filePath as [[ | | |p| | ]|]; run_all;
      rewrite ?Z.eqb_refl; reflexivity.
Qed.

(** [mintSingleNFT] uploads the metadata document without a price or balance
    query of its own: every live run that gets to the metadata upload breaks
    [funded_uploads]. *)
Lemma metadata_upload_never_funded (operator : string) (nftConfig : json) (e : W) :
  IS_SIMULATION cfg = false ->
  existsb is_metadata_upload (calls_of W handle (mintSingleNFT cfg host operator nftConfig) e)
    = true ->
  funded_uploads None false (calls_of W handle (mintSingleNFT cfg host operator nftConfig) e)
    = false.
Proof.
  intro Hlive. unfold mintSingleNFT, uploadFile. rewrite Hlive.
  run_all; try discriminate; intros _; rewrite ?Z.eqb_refl; reflexivity.
Qed.

(** A rejected upload ends [uploadFile] at once with the rejection. *)
Lemma uploadFile_rejection (filePath : jsval) (contentType : string) (e : W)
    (m : string) (rest : list event) :
  after_rejected_upload (events_of W handle (uploadFile cfg host filePath contentType) e)
    = Some (m, rest) ->
  result_of W handle (uploadFile cfg host filePath contentType) e = Err m /\ rest = [].
Proof.
  unfold uploadFile. destruct (IS_SIMULATION cfg);
    run_all; intro H; try discriminate H; injection H as <- <-; auto.
Qed.

(** A rejected upload ends [mintSingleNFT] with the rejection, and no call
    over the network follows it. *)
Lemma mintSingleNFT_rejection (operator : string) (nftConfig : json) (e : W)
    (m : string) (rest : list event) :
  after_rejected_upload (events_of W handle (mintSingleNFT cfg host operator nftConfig) e)
    = Some (m, rest) ->
  result_of W handle (mintSingleNFT cfg host operator nftConfig) e = Err m /\
  existsb (fun ev => is_network (event_call ev)) rest = false.
Proof.
  unfold mintSingleNFT, uploadFile. destruct (IS_SIMULATION cfg);
    run_all; intro H; try discriminate H; injection H as <- <-; auto.
Qed.

(** [try { t } catch { h }] alone on the event loop: [t], then [h] on the
    message if [t] threw. *)
Lemma run_try_catch {A : Type} (t : task A) (h : string -> task A) (e : W) :
  run W handle (try_catch t h) e
  = match run W handle t e with
    | (Ok a, evs, e1) => (Ok a, evs, e1)
    | (Err m, evs, e1) =>
        let rest := run W handle (h m) e1 in
        (fst (fst rest), (evs ++ snd (fst rest))%list, snd rest)
    end.
Proof.
  revert e. induction t as [a | m | c k IH]; intro e; simpl.
  - reflexivity.
  - destruct (run W handle (h m) e) as [[res evs] e1]. reflexivity.
  - rewrite IH.
    destruct (run W handle (k (fst (handle c e))) (snd (handle c e)))
      as [[[a | m] evs] e1]; reflexivity.
Qed.

End SingleRuns.

(** C1, at a failing input: the script's configuration in live mode, one
    catalog entry with its image on disk, a funded account.  [mintSingleNFT]
    queries the price and the balance once, before the image upload; the
    metadata upload follows with no query of its own, which [uploadFile], the
    path of the image, does make. *)
Theorem C1_metadata_upload_without_funding_check :
  let calls :=
    calls_of unit (Demo.network Demo.healthy)
             (mintSingleNFT Demo.LIVE Demo.one_entry "operator"
                            (Demo.entry_json "A" "a.jpg")) tt in
  let metadata := {|
    md_name := Some (JStr "A");
    md_description := None;
    md_image := "https://arweave.net/TX1";
    md_attributes := Some (JArr []);
    md_files := [("https://arweave.net/TX1", "image/jpeg")];
    md_category := "image"
  |} in
  calls = [GetUploadCosts 8; GetBalance;
           TurboUploadFile (FileBuffer "JPEGDATA" 8) "image/jpeg"; Tick;
           TurboUploadFile (MetadataBuffer metadata) "application/json";
           GenerateSigner;
           SendAndConfirm {|
             asset := "asset";
             name := Some (JStr "A");
             uri := "https://arweave.net/TX1";
             basisPoints := 500;
             creatorAddress := "operator";
             creatorPercentage := 100;
             microLamports := 50000
           |}] /\
  funded_uploads None false calls = false /\
  funded_uploads None false
    (calls_of unit (Demo.network Demo.healthy)
              (uploadFile Demo.LIVE Demo.one_entry (Some (JStr "a.jpg"))
                          "image/jpeg") tt) = true.
Proof.
  cbv zeta. repeat split; vm_compute; reflexivity.
Qed.

(** C6, as the claim states it, fails when the storage network acknowledges
    an upload without an identifier: [uploadFile] does not fail, it returns
    the address of [undefined]. *)
Lemma C6_upload_without_identifier_succeeds :
  result_of unit (Demo.network Demo.anonymous)
            (uploadFile Demo.LIVE Demo.one_entry (Some (JStr "a.jpg"))
                        "image/jpeg") tt
  = Ok "https://arweave.net/undefined".
Proof.
  vm_compute. reflexivity.
Qed.

(** C6 (amended): in live mode, whenever the storage network rejects an
    upload, [uploadFile] fails with that rejection and makes no further call,
    and [mintSingleNFT] fails with it too, with no call over the network after
    the rejected one: the upload is not retried. *)
Theorem C6_rejected_upload_propagates (cfg : Config) (host : Host) (W : Type)
    (handle : forall c : call, W -> reply c * W) :
  IS_SIMULATION cfg = false ->
  (forall filePath contentType e m rest,
      after_rejected_upload
        (events_of W handle (uploadFile cfg host filePath contentType) e)
        = Some (m, rest) ->
      result_of W handle (uploadFile cfg host filePath contentType) e = Err m /\
      rest = []) /\
  (forall operator nftConfig e m rest,
      after_rejected_upload
        (events_of W handle (mintSingleNFT cfg host operator nftConfig) e)
        = Some (m, rest) ->
      result_of W handle (mintSingleNFT cfg host operator nftConfig) e = Err m /\
      existsb (fun ev => is_network (event_call ev)) rest = false).
Proof.
  intros _. split.
  - intros. apply uploadFile_rejection. assumption.
  - intros. apply mintSingleNFT_rejection. assumption.
Qed.

(** One entry in live mode, on a storage network that refuses uploads. *)
Lemma C6_rejected_upload_propagates_witness :
  IS_SIMULATION Demo.LIVE = false /\
  result_of unit (Demo.network Demo.refusing)
            (mintSingleNFT Demo.LIVE Demo.one_entry "operator"
                           (Demo.entry_json "A" "a.jpg")) tt
  = Err "Failed to upload file".
Proof.
  split; [reflexivity|].
  apply (proj2 (C6_rejected_upload_propagates Demo.LIVE Demo.one_entry unit
                  (Demo.network Demo.refusing) eq_refl)
           "operator" (Demo.entry_json "A" "a.jpg") tt
           "Failed to upload file"
           [existT reply Tick tt]).
  vm_compute. reflexivity.
Defined.

(** ** Failures of single entries (lines 146-156) *)

Lemma Forall2_nth_error_left (A B : Type) (R : A -> B -> Prop)
    (l : list A) (l' : list B) :
  Forall2 R l l' ->
  forall i x, nth_error l i = Some x ->
              exists y, nth_error l' i = Some y /\ R x y.
Proof.
  induction 1 as [|a b l l' Hab _ IH]; intros [|i] x Hx; simpl in *;
    try discriminate.
  - injection Hx as <-. eauto.
  - apply IH, Hx.
Qed.

(** A [Failed] outcome names the file it was mapped from, and the function
    mapped over a chunk never rejects. *)
Lemma chunkPromise_outcomes (cfg : Config) (host : Host) (operator file : string) :
  always (fun _ => True)
         (fun o => forall f e, o = Failed f e -> f = file)
         (fun _ => False)
         (chunkPromise cfg host operator file).
Proof.
  unfold chunkPromise, chunkTry, chunkCatch, mintSingleNFT, uploadFile, await,
    perform.
  cbn.
  repeat (match goal with
          | |- always _ _ _ (Ret _) => apply always_ret; intros; congruence
          | |- always _ _ _ (Do _ _) =>
              apply always_do; [exact I | let r := fresh "r" in intro r; cbn in r]
          | |- context [lift ?r] => destruct r
          | |- context [if ?b then _ else _] => destruct b
          end; cbn).
Qed.

(** What the [try] block throws, the function returns as a [Failed] outcome
    of its file. *)
Lemma chunkPromise_catches (cfg : Config) (host : Host) (W : Type)
    (handle : forall c : call, W -> reply c * W)
    (operator file : string) (e : W) (m : string) :
  result_of W handle (chunkTry cfg host operator file) e = Err m ->
  result_of W handle (chunkPromise cfg host operator file) e = Ok (Failed file m).
Proof.
  unfold result_of, chunkPromise. rewrite run_try_catch.
  destruct (run W handle (chunkTry cfg host operator file) e) as [[[o | m'] evs] e1];
    simpl; [discriminate|].
  intro H. injection H as ->. reflexivity.
Qed.

(** C7, as the claim states it, fails in simulation, the mode of the
    script's configuration: the image is never opened, and the entry whose
    image is missing is reported as simulated. *)
Lemma C7_simulation_ignores_missing_image :
  fs Demo.missing_image "missing.jpg" = None /\
  Demo.report_written
    (batchMintNFTs CONFIG Demo.missing_image unit
                   (Demo.network Demo.healthy) 100
                   (initial_world unit tt [0; 1; 0; 0]))
  = Some [Simulated (Some (JStr "A")) "asset";
          Simulated (Some (JStr "B")) "asset"].
Proof.
  split; vm_compute; reflexivity.
Qed.

(** ** Entries by their own events *)

Section EntryReturns.

Variable cfg : Config.
Variable host : Host.

Ltac returned H :=
  repeat (cbn in H;
          match type of H with
          | False => destruct H
          | _ = [] /\ _ = _ => destruct H as [-> <-]
          | ex _ =>
              let r := fresh "r" in
              let evs := fresh "evs" in
              destruct H as (r & evs & -> & H); cbn in r;
              try match type of r with
                  | result _ => destruct r
                  | unit => destruct r
                  end
          | context [lift ?r] => destruct r
          | context [if ?b then _ else _] => destruct b
          end).

(** A task run on its own against a world that answers as in [evs] returns
    what [evs] leads to. *)
Lemma returns_alone {A : Type} (t : task A) (evs : list event) (a : A) :
  returns t evs a ->
  forall (W : Type) (handle : forall c : call, W -> reply c * W) (e : W),
    events_of W handle t e = evs -> result_of W handle t e = Ok a.
Proof.
  revert evs. induction t as [a' | m | c k IH]; intros evs H W handle e Hev.
  - destruct H as [_ <-]. reflexivity.
  - destruct H.
  - destruct H as (r & evs' & -> & H). unfold events_of, result_of in *.
    cbn in Hev |- *.
    pose proof (f_equal (hd (existT reply Tick tt)) Hev) as Hr.
    pose proof (f_equal (@tl event) Hev) as Htl. cbn in Hr, Htl.
    apply inj_pair2 in Hr. rewrite Hr in Htl |- *. eapply IH; eassumption.
Qed.

(** The first rejected remote call of an entry decides its outcome. *)
Lemma rejection_returns (operator file : string) (evs : list event)
    (o : outcome) (m : string) (rest : list event) :
  returns (chunkPromise cfg host operator file) evs o ->
  after_rejection evs = Some (m, rest) ->
  o = Failed file m /\
  existsb (fun ev => is_network (event_call ev)) rest = false.
Proof.
  intro H. revert m rest.
  unfold chunkPromise, chunkTry, chunkCatch, mintSingleNFT, uploadFile, await,
    perform in H.
  destruct (IS_SIMULATION cfg);
    returned H; cbn; intros m' rest' Hr; try discriminate Hr;
    injection Hr as <- <-; auto.
Qed.

Lemma unreadable_image (operator file : string) (nftData : json)
    (imagePath : jsval) (m : string) :
  IS_SIMULATION cfg = false ->
  loads cfg host file nftData ->
  get_prop nftData "imagePath" = Ok imagePath ->
  image_error host imagePath m ->
  chunkPromise cfg host operator file
  = Do Tick (fun _ => Do Tick (fun _ =>
      Do (ConsoleError (LogFailed file m)) (fun _ => Ret (Failed file m)))).
Proof.
  intros Hlive (content & Hread & Hparse) Himage Herr.
  unfold chunkPromise, chunkTry. rewrite Hread. cbn [lift bind].
  rewrite Hparse. cbn [lift bind]. unfold mintSingleNFT. rewrite Himage.
  cbn [lift bind]. unfold uploadFile. rewrite Hlive.
  destruct Herr as [-> | (fileSize & -> & ->)]; reflexivity.
Qed.

(** Each error of [item_error] makes the entry's outcome [Failed], with the
    entry's file name and the message of the error. *)
Lemma item_error_fails (operator file : string) (evs : list event)
    (o : outcome) (m : string) :
  returns (chunkPromise cfg host operator file) evs o ->
  item_error cfg host file evs m ->
  o = Failed file m.
Proof.
  intros H [Hread | [(content & Hread & Hparse) |
                     [(Hlive & nftData & imagePath & Hload & Himage & Herr) |
                      (rest & Hrej)]]].
  - unfold chunkPromise, chunkTry in H. rewrite Hread in H. returned H.
    reflexivity.
  - unfold chunkPromise, chunkTry in H. rewrite Hread in H. cbn [lift bind] in H.
    rewrite Hparse in H. returned H. reflexivity.
  - rewrite (unreadable_image operator file nftData imagePath m) in H
      by assumption.
    returned H. reflexivity.
  - apply (rejection_returns operator file evs o m rest H Hrej).
Qed.

End EntryReturns.

(** C7 (amended): in live mode, after a successful start, with a chunk size
    of at least 1 and a writable results file, [batchMintNFTs] returns with
    a report of one outcome per entry, and every call of the run belongs to
    one entry or to the batch itself.  The outcome of each entry is the one
    its function returns on its own calls and their replies, the same as in
    a run of that entry alone against a network that answers its calls the
    same way: no entry's outcome depends on another entry.  An entry whose
    image path is not on disk is reported as [Failed] with its file name and
    the message of [fs.statSync], which is not empty; its function makes no
    call over the network (two turns of the event loop, then
    [console.error]). *)
Theorem C7_missing_image_fails_alone (cfg : Config) (host : Host) (W : Type)
    (handle : forall c : call, W -> reply c * W)
    (fuel : nat) (e : W) (choices : list nat)
    (operator : string) (configFiles : list string) :
  IS_SIMULATION cfg = false ->
  startup cfg host = Ok (operator, configFiles) ->
  (0 < BATCH_SIZE cfg)%nat ->
  (13 * List.length configFiles <= fuel)%nat ->
  fs_write_error host results_file = None ->
  exists outs w' owners,
    batchMintNFTs cfg host W handle fuel (initial_world W e choices)
      = Some (Ok tt, w') /\
    report_file W w' = Some outs /\
    List.length owners = List.length (trace W w') /\
    forall j file,
      nth_error configFiles j = Some file ->
      exists o,
        nth_error outs j = Some o /\
        returns (chunkPromise cfg host operator file)
                (own j owners (trace W w')) o /\
        (forall (W' : Type) (handle' : forall c : call, W' -> reply c * W')
                (e' : W'),
            events_of W' handle' (chunkPromise cfg host operator file) e'
              = own j owners (trace W w') ->
            result_of W' handle' (chunkPromise cfg host operator file) e'
              = Ok o) /\
        (forall p,
            image_path cfg host file p -> fs host p = None ->
            o = Failed file ("ENOENT: no such file or directory, stat '"
                             ++ p ++ "'") /\
            "ENOENT: no such file or directory, stat '" ++ p ++ "'" <> "" /\
            map event_call (own j owners (trace W w'))
            = [Tick; Tick;
               ConsoleError
                 (LogFailed file ("ENOENT: no such file or directory, stat '"
                                  ++ p ++ "'"))]).
Proof.
  intros Hlive Hstart HC Hfuel Hwrite.
  destruct (batch_spec cfg host W handle fuel (initial_world W e choices)
              operator configFiles Hstart HC Hfuel Hwrite)
    as (outs & w' & evs & Hrun & Hrep & _).
  destruct (batch_follows cfg host W handle fuel e choices operator configFiles
              w' Hstart HC Hrun) as (outs' & owners & Hrep' & Hlen & Hown).
  assert (outs' = outs) as -> by congruence.
  exists outs, w', owners. split; [exact Hrun|]. split; [exact Hrep|].
  split; [exact Hlen|]. intros j file Hj.
  destruct (Hown j file Hj) as (o & Ho & Hret).
  exists o. split; [exact Ho|]. split; [exact Hret|]. split.
  - intros W' handle' e'. apply returns_alone. exact Hret.
  - intros p (nftData & imagePath & Hload & Himage & Hpath) Hfs.
    assert (Herr : image_error host imagePath
                     ("ENOENT: no such file or directory, stat '" ++ p ++ "'")).
    { left. unfold calculateSize. rewrite Hpath. simpl.
      unfold fs_statSync_size. rewrite Hfs. reflexivity. }
    rewrite (unreadable_image cfg host operator file nftData imagePath _
               Hlive Hload Himage Herr) in Hret.
    simpl in Hret.
    destruct Hret as ([] & evs1 & E1 & [] & evs2 & -> & [] & evs3 & -> & -> & <-).
    rewrite E1. split; [reflexivity|]. split; [discriminate | reflexivity].
Qed.

(** Two entries in live mode, the second without its image. *)
Lemma C7_missing_image_fails_alone_witness :
  exists outs w' owners,
    batchMintNFTs Demo.LIVE Demo.missing_image unit (Demo.network Demo.healthy)
                  100 (initial_world unit tt [1; 0])
      = Some (Ok tt, w') /\
    report_file unit w' = Some outs /\
    List.length owners = List.length (trace unit w') /\
    forall j file,
      nth_error ["a.json"; "b.json"] j = Some file ->
      exists o,
        nth_error outs j = Some o /\
        returns (chunkPromise Demo.LIVE Demo.missing_image "operator" file)
                (own j owners (trace unit w')) o /\
        (forall (W' : Type) (handle' : forall c : call, W' -> reply c * W')
                (e' : W'),
            events_of W' handle'
                      (chunkPromise Demo.LIVE Demo.missing_image "operator" file) e'
              = own j owners (trace unit w') ->
            result_of W' handle'
                      (chunkPromise Demo.LIVE Demo.missing_image "operator" file) e'
              = Ok o) /\
        (forall p,
            image_path Demo.LIVE Demo.missing_image file p ->
            fs Demo.missing_image p = None ->
            o = Failed file ("ENOENT: no such file or directory, stat '"
                             ++ p ++ "'") /\
            "ENOENT: no such file or directory, stat '" ++ p ++ "'" <> "" /\
            map event_call (own j owners (trace unit w'))
            = [Tick; Tick;
               ConsoleError
                 (LogFailed file ("ENOENT: no such file or directory, stat '"
                                  ++ p ++ "'"))]).
Proof.
  apply (C7_missing_image_fails_alone Demo.LIVE Demo.missing_image unit
           (Demo.network Demo.healthy) 100 tt [1; 0] "operator"
           ["a.json"; "b.json"]).
  - reflexivity.
  - reflexivity.
  - simpl. lia.
  - simpl. lia.
  - reflexivity.
Defined.

(** C4, as the claim states it, fails for an entry that lacks its fields: in
    simulation, the mode of the script's configuration, an entry without a
    [name] and without an [imagePath] raises no error and is reported as
    simulated, not as failed. *)
Lemma C4_entry_without_fields_is_simulated :
  JSON_parse Demo.seven_entries "{}" = Ok (JObj []) /\
  Demo.report_written
    (batchMintNFTs CONFIG Demo.seven_entries unit (Demo.network Demo.healthy)
                   100 (initial_world unit tt [2; 0; 1]))
  = Some (repeat (Simulated None "asset") 7).
Proof.
  split; vm_compute; reflexivity.
Qed.

(** C4 (amended): after a successful start, with a chunk size of at least 1
    and a writable results file, [batchMintNFTs] returns with a report of
    one outcome per entry, whatever happens to single entries.  Every error
    of an entry (its file cannot be read, its text is not JSON, in live mode
    its image cannot be read, or a funding call, an upload or the
    transaction is rejected) is caught and reported as [Failed] with the
    entry's file name and the message of the error, and a [Failed] outcome
    never carries the name of another file. *)
Theorem C4_item_errors_become_failed (cfg : Config) (host : Host) (W : Type)
    (handle : forall c : call, W -> reply c * W)
    (fuel : nat) (e : W) (choices : list nat)
    (operator : string) (configFiles : list string) :
  startup cfg host = Ok (operator, configFiles) ->
  (0 < BATCH_SIZE cfg)%nat ->
  (13 * List.length configFiles <= fuel)%nat ->
  fs_write_error host results_file = None ->
  exists outs w' owners,
    batchMintNFTs cfg host W handle fuel (initial_world W e choices)
      = Some (Ok tt, w') /\
    report_file W w' = Some outs /\
    List.length owners = List.length (trace W w') /\
    forall j file,
      nth_error configFiles j = Some file ->
      exists o,
        nth_error outs j = Some o /\
        returns (chunkPromise cfg host operator file)
                (own j owners (trace W w')) o /\
        (forall m,
            item_error cfg host file (own j owners (trace W w')) m ->
            o = Failed file m) /\
        (forall f m, o = Failed f m -> f = file).
Proof.
  intros Hstart HC Hfuel Hwrite.
  destruct (batch_spec cfg host W handle fuel (initial_world W e choices)
              operator configFiles Hstart HC Hfuel Hwrite)
    as (outs & w' & evs & Hrun & Hrep & Hout & _).
  destruct (batch_follows cfg host W handle fuel e choices operator configFiles
              w' Hstart HC Hrun) as (outs' & owners & Hrep' & Hlen & Hown).
  assert (outs' = outs) as -> by congruence.
  exists outs, w', owners. split; [exact Hrun|]. split; [exact Hrep|].
  split; [exact Hlen|]. intros j file Hj.
  destruct (Hown j file Hj) as (o & Ho & Hret).
  exists o. split; [exact Ho|]. split; [exact Hret|]. split.
  - intros m Hm. exact (item_error_fails cfg host operator file _ o m Hret Hm).
  - destruct (Forall2_nth_error_left _ _ _ _ _ Hout j file Hj) as (o' & Ho' & Hof).
    assert (o' = o) as -> by congruence.
    pose proof (chunkPromise_outcomes cfg host operator file) as H.
    apply (always_reaches _ _ _ _ _ Hof) in H. apply always_inv in H. exact H.
Qed.

(** Two entries in live mode, the second without its image. *)
Lemma C4_item_errors_become_failed_witness :
  exists outs w' owners,
    batchMintNFTs Demo.LIVE Demo.missing_image unit (Demo.network Demo.healthy)
                  100 (initial_world unit tt [1; 0])
      = Some (Ok tt, w') /\
    report_file unit w' = Some outs /\
    List.length owners = List.length (trace unit w') /\
    forall j file,
      nth_error ["a.json"; "b.json"] j = Some file ->
      exists o,
        nth_error outs j = Some o /\
        returns (chunkPromise Demo.LIVE Demo.missing_image "operator" file)
                (own j owners (trace unit w')) o /\
        (forall m,
            item_error Demo.LIVE Demo.missing_image file
                       (own j owners (trace unit w')) m ->
            o = Failed file m) /\
        (forall f m, o = Failed f m -> f = file).
Proof.
  apply (C4_item_errors_become_failed Demo.LIVE Demo.missing_image unit
           (Demo.network Demo.healthy) 100 tt [1; 0] "operator"
           ["a.json"; "b.json"]).
  - reflexivity.
  - simpl. lia.
  - simpl. lia.
  - reflexivity.
Defined.

(** The entry whose image is missing fails; the entry next to it in the same
    chunk is minted. *)
Example failed_entry_beside_minted_entry :
  Demo.report_written
    (batchMintNFTs Demo.LIVE Demo.missing_image unit
                   (Demo.network Demo.healthy) 100
                   (initial_world unit tt [1; 0]))
  = Some [Success (Some (JStr "A")) "asset" "https://arweave.net/TX1";
          Failed "b.json" "ENOENT: no such file or directory, stat 'missing.jpg'"].
Proof.
  vm_compute. reflexivity.
Qed.

(** ** Chunks and report (lines 142-162) *)

(** C3: with a chunk size of at least 1, after a successful start and with a
    writable results file, [batchMintNFTs] returns having processed
    [ceil_div N C] chunks, and the report it wrote holds exactly [N]
    outcomes, one per catalog file in catalog order, whatever the storage
    network and the ledger answer and in whatever order the event loop
    resumes the entries. *)
Theorem C3_chunks_and_outcomes (cfg : Config) (host : Host) (W : Type)
    (handle : forall c : call, W -> reply c * W)
    (fuel : nat) (e : W) (choices : list nat)
    (operator : string) (configFiles : list string) :
  startup cfg host = Ok (operator, configFiles) ->
  (0 < BATCH_SIZE cfg)%nat ->
  (13 * List.length configFiles <= fuel)%nat ->
  fs_write_error host results_file = None ->
  exists outs w',
    batchMintNFTs cfg host W handle fuel (initial_world W e choices)
      = Some (Ok tt, w') /\
    batches (trace W w') = ceil_div (List.length configFiles) (BATCH_SIZE cfg) /\
    report_file W w' = Some outs /\
    List.length outs = List.length configFiles /\
    Forall2 (outcome_of cfg host operator) configFiles outs.
Proof.
  intros Hstart HC Hfuel Hwrite.
  destruct (batch_spec cfg host W handle fuel (initial_world W e choices)
              operator configFiles Hstart HC Hfuel Hwrite)
    as (outs & w' & evs & Hrun & Hrep & Hout & Htrace & _ & Hbatches).
  exists outs, w'. simpl in Htrace. rewrite Htrace, Hbatches.
  repeat split; auto. symmetry. eapply Forall2_length. exact Hout.
Qed.

(** Seven entries in chunks of three. *)
Lemma C3_chunks_and_outcomes_witness :
  exists outs w',
    batchMintNFTs CONFIG Demo.seven_entries unit
                  (Demo.network Demo.healthy) 100
                  (initial_world unit tt [2; 0; 1])
      = Some (Ok tt, w') /\
    batches (trace unit w') = ceil_div 7 3 /\
    report_file unit w' = Some outs /\
    List.length outs = 7%nat /\
    Forall2 (outcome_of CONFIG Demo.seven_entries "operator")
            ["n1.json"; "n2.json"; "n3.json"; "n4.json"; "n5.json"; "n6.json";
             "n7.json"] outs.
Proof.
  apply (C3_chunks_and_outcomes CONFIG Demo.seven_entries unit
           (Demo.network Demo.healthy) 100 tt [2; 0; 1] "operator"
           ["n1.json"; "n2.json"; "n3.json"; "n4.json"; "n5.json"; "n6.json";
            "n7.json"]).
  - reflexivity.
  - simpl. lia.
  - simpl. lia.
  - reflexivity.
Defined.

(** Seven entries in chunks of three, in simulation: three chunks, seven
    simulated outcomes. *)
Example seven_entries_three_chunks :
  let r := batchMintNFTs CONFIG Demo.seven_entries unit
                         (Demo.network Demo.healthy) 100
                         (initial_world unit tt [2; 0; 1]) in
  List.length (filter is_batch_log (Demo.calls_made r)) = 3%nat /\
  Demo.report_written r = Some (repeat (Simulated None "asset") 7).
Proof.
  vm_compute. split; reflexivity.
Qed.

(** With a chunk size of 0 and a catalog that is not empty, the loop of line
    142 does not end. *)
Lemma chunk_loop_diverges (cfg : Config) (host : Host) (W : Type)
    (handle : forall c : call, W -> reply c * W)
    (fuel pool_fuel : nat) (operator : string) (configFiles : list string)
    (results : list outcome) (w : World W) :
  BATCH_SIZE cfg = 0%nat -> configFiles <> [] ->
  chunk_loop cfg host W handle fuel pool_fuel operator configFiles 0 results w
  = None.
Proof.
  intros HC Hfiles. revert results w.
  induction fuel as [|fuel IH]; intros results w; cbn [chunk_loop];
    destruct configFiles as [|f files]; try congruence; cbn [List.length Nat.ltb Nat.leb].
  - reflexivity.
  - rewrite HC. unfold slice. cbn [Nat.add Nat.sub firstn map].
    destruct (do_call W handle (ConsoleLog (LogBatch (batch_number cfg 0))) w)
      as [u w1].
    unfold Promise_all. cbn [start_all].
    replace (run_pool W handle pool_fuel (@nil (task outcome)) w1)
      with (Some (@nil (task outcome), w1)) by (destruct pool_fuel; reflexivity).
    cbn [collect]. rewrite app_nil_r. apply IH.
Qed.

(** ** Simulation (lines 51, 90-91, 103-106) *)

Lemma simulated_outcome (cfg : Config) (host : Host) (operator file : string) :
  IS_SIMULATION cfg = true ->
  always (fun _ => True)
         (fun o => (is_simulated o = true <-> entry_prints cfg host file) /\
                   (is_simulated o = true \/ exists m, o = Failed file m))
         (fun _ => False)
         (chunkPromise cfg host operator file).
Proof.
  intros Hsim. unfold chunkPromise, chunkTry, chunkCatch.
  destruct (fs_readFileSync host (path_join (METADATA_FOLDER cfg) file))
    as [content | m] eqn:Hread; cbn [lift bind try_catch].
  - destruct (JSON_parse host content) as [nftData | m] eqn:Hparse;
      cbn [lift bind try_catch].
    + assert (Hiff : entry_prints cfg host file <->
                     exists nftName, get_prop nftData "name" = Ok nftName /\
                                     ToPrimitive nftName = Ok tt).
      { split.
        - intros (d & n & (c' & Hr' & Hp') & Hg & Ht).
          rewrite Hread in Hr'. injection Hr' as <-.
          rewrite Hparse in Hp'. injection Hp' as <-. eauto.
        - intros (n & Hg & Ht). exists nftData, n.
          split; [exists content; auto | auto]. }
      unfold mintSingleNFT, uploadFile, perform. rewrite Hsim.
      destruct (get_prop nftData "imagePath") as [imagePath | m] eqn:Himage;
        destruct (get_prop nftData "name") as [nftName | m1] eqn:Hname;
        destruct nftData; cbn in Himage, Hname; try discriminate;
        cbn;
        repeat (apply always_do; [exact I | intro; cbn]);
        try (destruct (ToPrimitive nftName) as [[] | m2] eqn:Hprim; cbn;
             repeat (apply always_do; [exact I | intro; cbn]));
        apply always_ret;
        (split; [|first [left; reflexivity | right; eexists; reflexivity]]);
        rewrite Hiff; cbn;
        (split; [try discriminate; eauto
                | try reflexivity;
                  intros (n & Hg & Ht); try discriminate Hg;
                  injection Hg as <-; congruence]).
    + apply always_do; [exact I | intro]. apply always_ret. simpl.
      split; [|right; eexists; reflexivity]. split; [discriminate|].
      intros (d & n & (c' & Hr' & Hp') & _). congruence.
  - apply always_do; [exact I | intro]. apply always_ret. simpl.
    split; [|right; eexists; reflexivity]. split; [discriminate|].
    intros (d & n & (c' & Hr' & _) & _). congruence.
Qed.

Lemma allowed_offline (evs : list event) :
  Forall (fun ev => allowed true (event_call ev) = true) evs ->
  Forall (fun ev => is_network (event_call ev) = false) evs.
Proof.
  apply Forall_impl. intros ev H. unfold allowed in H. simpl in H.
  destruct (is_network (event_call ev)); [discriminate | reflexivity].
Qed.

Lemma simulated_outcomes (cfg : Config) (host : Host) (operator : string)
    (configFiles : list string) (outs : list outcome) :
  IS_SIMULATION cfg = true ->
  Forall2 (outcome_of cfg host operator) configFiles outs ->
  Forall2 (fun file o =>
             (is_simulated o = true <-> entry_prints cfg host file) /\
             (is_simulated o = true \/ exists m, o = Failed file m))
          configFiles outs.
Proof.
  intros Hsim. apply Forall2_impl. intros file o Ho.
  pose proof (simulated_outcome cfg host operator file Hsim) as H.
  apply (always_reaches _ _ _ _ _ Ho) in H. apply always_inv in H. exact H.
Qed.

(** C5, as the claim states it, fails for a catalog with an entry that is not
    JSON: in simulation too its outcome is [Failed]. *)
Lemma C5_unparseable_entry_fails_in_simulation :
  IS_SIMULATION CONFIG = true /\
  Demo.report_written
    (batchMintNFTs CONFIG Demo.broken_entry unit
                   (Demo.network Demo.healthy) 100 Demo.start)
  = Some [Failed "a.json" "Unexpected end of JSON input"].
Proof.
  split; vm_compute; reflexivity.
Qed.

(** C5 (amended): in simulation mode, after a successful start, with a chunk
    size of at least 1 and a writable results file, the pipeline run twice
    in a row returns both times and writes its report, makes no call over
    the network (no price, balance or rate query, no top-up, no upload, no
    ledger submission), and an entry gets a [Simulated] outcome exactly when
    its file can be read and holds a JSON value other than [null] whose
    [name] converts to a string; every other entry gets a [Failed]
    outcome. *)
Theorem C5_simulation_is_offline (cfg : Config) (host : Host) (W : Type)
    (handle : forall c : call, W -> reply c * W)
    (fuel : nat) (e : W) (choices : list nat)
    (operator : string) (configFiles : list string) :
  IS_SIMULATION cfg = true ->
  startup cfg host = Ok (operator, configFiles) ->
  (0 < BATCH_SIZE cfg)%nat ->
  (13 * List.length configFiles <= fuel)%nat ->
  fs_write_error host results_file = None ->
  exists outs1 w1 outs2 w2,
    batchMintNFTs cfg host W handle fuel (initial_world W e choices)
      = Some (Ok tt, w1) /\
    batchMintNFTs cfg host W handle fuel w1 = Some (Ok tt, w2) /\
    report_file W w1 = Some outs1 /\
    report_file W w2 = Some outs2 /\
    Forall (fun ev => is_network (event_call ev) = false) (trace W w2) /\
    Forall2 (fun file o =>
               (is_simulated o = true <-> entry_prints cfg host file) /\
               (is_simulated o = true \/ exists m, o = Failed file m))
            configFiles outs1 /\
    Forall2 (fun file o =>
               (is_simulated o = true <-> entry_prints cfg host file) /\
               (is_simulated o = true \/ exists m, o = Failed file m))
            configFiles outs2.
Proof.
  intros Hsim Hstart HC Hfuel Hwrite.
  destruct (batch_spec cfg host W handle fuel (initial_world W e choices)
              operator configFiles Hstart HC Hfuel Hwrite)
    as (outs1 & w1 & evs1 & Hrun1 & Hrep1 & Hout1 & Htrace1 & Hall1 & _).
  destruct (batch_spec cfg host W handle fuel w1
              operator configFiles Hstart HC Hfuel Hwrite)
    as (outs2 & w2 & evs2 & Hrun2 & Hrep2 & Hout2 & Htrace2 & Hall2 & _).
  exists outs1, w1, outs2, w2. rewrite Hsim in Hall1, Hall2.
  split; [exact Hrun1|]. split; [exact Hrun2|]. split; [exact Hrep1|].
  split; [exact Hrep2|]. split; [|split; apply (simulated_outcomes cfg host operator); assumption].
  rewrite Htrace2, Htrace1. simpl.
  apply Forall_app. split; apply allowed_offline; assumption.
Qed.

(** Seven entries in simulation, twice. *)
Lemma C5_simulation_is_offline_witness :
  exists outs1 w1 outs2 w2,
    batchMintNFTs CONFIG Demo.seven_entries unit
                  (Demo.network Demo.healthy) 100
                  (initial_world unit tt [2; 0; 1])
      = Some (Ok tt, w1) /\
    batchMintNFTs CONFIG Demo.seven_entries unit
                  (Demo.network Demo.healthy) 100 w1
      = Some (Ok tt, w2) /\
    report_file unit w1 = Some outs1 /\
    report_file unit w2 = Some outs2 /\
    Forall (fun ev => is_network (event_call ev) = false) (trace unit w2) /\
    Forall2 (fun file o =>
               (is_simulated o = true <->
                entry_prints CONFIG Demo.seven_entries file) /\
               (is_simulated o = true \/ exists m, o = Failed file m))
            ["n1.json"; "n2.json"; "n3.json"; "n4.json"; "n5.json"; "n6.json";
             "n7.json"] outs1 /\
    Forall2 (fun file o =>
               (is_simulated o = true <->
                entry_prints CONFIG Demo.seven_entries file) /\
               (is_simulated o = true \/ exists m, o = Failed file m))
            ["n1.json"; "n2.json"; "n3.json"; "n4.json"; "n5.json"; "n6.json";
             "n7.json"] outs2.
Proof.
  apply (C5_simulation_is_offline CONFIG Demo.seven_entries unit
           (Demo.network Demo.healthy) 100 tt [2; 0; 1] "operator"
           ["n1.json"; "n2.json"; "n3.json"; "n4.json"; "n5.json"; "n6.json";
            "n7.json"]).
  - reflexivity.
  - reflexivity.
  - simpl. lia.
  - simpl. lia.
  - reflexivity.
Defined.

(** ** Exit code (line 166) *)

(** With a chunk size of at least 1, [batchMintNFTs] settles. *)
Lemma batch_settles (cfg : Config) (host : Host) (W : Type)
    (handle : forall c : call, W -> reply c * W) (fuel : nat) (w : World W) :
  (0 < BATCH_SIZE cfg)%nat -> (13 * catalog_size cfg host <= fuel)%nat ->
  exists settled w', batchMintNFTs cfg host W handle fuel w = Some (settled, w').
Proof.
  intros HC Hfuel. unfold catalog_size in Hfuel. unfold batchMintNFTs.
  destruct (do_call W handle (ConsoleLog (LogMode (IS_SIMULATION cfg))) w)
    as [u0 w0].
  destruct (startup cfg host) as [[operator configFiles] | m]; [|eauto].
  destruct (do_call W handle
              (ConsoleLog (LogProcessing (List.length configFiles) (BATCH_SIZE cfg)))
              w0) as [u1 w1].
  destruct (chunk_loop_spec cfg host W handle fuel fuel operator configFiles 0 []
              w1 HC)
    as (outs & w2 & evs & -> & _); [lia | exact Hfuel |].
  destruct (fs_write_error host results_file) as [m|]; [eauto|].
  destruct (do_call W handle (ConsoleLog LogDone) (write_report W ([] ++ outs) w2))
    as [u3 w3]. eauto.
Qed.

(** C2, as the claim states it, fails on a machine without the key file: the
    start fails, and the process exits with code 0. *)
Lemma C2_fatal_startup_exits_zero :
  startup CONFIG Demo.no_key
  = Err "ENOENT: no such file or directory, open './keypair.json'" /\
  option_map (fun r => exit_code (fst r))
             (main CONFIG Demo.no_key unit (Demo.network Demo.healthy)
                   100 Demo.start)
  = Some 0%Z.
Proof.
  split; vm_compute; reflexivity.
Qed.

(** C2 (amended): the process never exits with a code other than 0.  Whatever
    [batchMintNFTs] does, the promise of line 166 is fulfilled: a failed start
    (a missing or unreadable key file or catalog directory) rejects
    [batchMintNFTs] before any chunk is processed and before any report is
    written, and the rejection is printed by the handler of line 166; failures
    of single entries never reject it.  With a chunk size of at least 1 the
    process does exit. *)
Theorem C2_exit_code_is_zero (cfg : Config) (host : Host) (W : Type)
    (handle : forall c : call, W -> reply c * W) (fuel : nat) (w : World W) :
  (forall settled w',
      main cfg host W handle fuel w = Some (settled, w') ->
      exit_code settled = 0%Z) /\
  (forall m,
      startup cfg host = Err m ->
      exists w',
        main cfg host W handle fuel w = Some (Ok tt, w') /\
        report_file W w' = report_file W w /\
        batches (trace W w') = batches (trace W w)) /\
  ((0 < BATCH_SIZE cfg)%nat -> (13 * catalog_size cfg host <= fuel)%nat ->
   exists w', main cfg host W handle fuel w = Some (Ok tt, w')).
Proof.
  split; [|split].
  - intros settled w'. unfold main, catch_console_error.
    destruct (batchMintNFTs cfg host W handle fuel w) as [[[u | m] w1]|];
      try discriminate.
    + intro H. injection H as <- _. reflexivity.
    + destruct (do_call W handle (ConsoleError (LogRejection m)) w1).
      intro H. injection H as <- _. reflexivity.
  - intros m Hstart. unfold main, batchMintNFTs. rewrite Hstart.
    destruct (do_call_world W handle (ConsoleLog (LogMode (IS_SIMULATION cfg))) w)
      as [T0 R0].
    destruct (do_call W handle (ConsoleLog (LogMode (IS_SIMULATION cfg))) w)
      as [u0 w0]. simpl in T0, R0. unfold catch_console_error.
    destruct (do_call_world W handle (ConsoleError (LogRejection m)) w0)
      as [T1 R1].
    destruct (do_call W handle (ConsoleError (LogRejection m)) w0) as [u1 w1].
    simpl in T1, R1. exists w1. split; [reflexivity|]. split; [congruence|].
    rewrite T1, T0, !batches_app. unfold batches. simpl. lia.
  - intros HC Hfuel. unfold main.
    destruct (batch_settles cfg host W handle fuel w HC Hfuel)
      as ([u | m] & w' & ->); unfold catch_console_error.
    + destruct u. eauto.
    + destruct (do_call W handle (ConsoleError (LogRejection m)) w'). eauto.
Qed.

(** Two entries in live mode, the second without its image: the process exits. *)
Lemma C2_exit_code_is_zero_witness :
  exists w',
    main Demo.LIVE Demo.missing_image unit (Demo.network Demo.healthy)
         100 Demo.start
    = Some (Ok tt, w').
Proof.
  apply (proj2 (proj2 (C2_exit_code_is_zero Demo.LIVE Demo.missing_image
                         unit (Demo.network Demo.healthy) 100
                         Demo.start))).
  - simpl. lia.
  - vm_compute. lia.
Defined.

(** ** The catalog (line 137) *)

Lemma insert_sorted_perm (x : string) (l : list string) :
  Permutation (x :: l) (insert_sorted x l).
Proof.
  induction l as [|y l IH]; simpl; [reflexivity|].
  destruct (js_string_lt y x); [|reflexivity].
  rewrite perm_swap. apply perm_skip, IH.
Qed.

Lemma sort_perm (l : list string) : Permutation l (sort l).
Proof.
  induction l as [|x l IH]; simpl; [constructor|].
  rewrite <- insert_sorted_perm. apply perm_skip, IH.
Qed.

Lemma units_lt_asym (a b : list N) : units_lt a b = true -> units_lt b a = false.
Proof.
  revert b. induction a as [|x a IH]; intros [|y b] H; simpl in *;
    try reflexivity; try discriminate.
  destruct (x <? y)%N eqn:Hxy, (y <? x)%N eqn:Hyx; try reflexivity;
    try discriminate.
  - apply N.ltb_lt in Hxy, Hyx. lia.
  - apply IH, H.
Qed.

(** In the sorted list no name comes before a name that is less than it. *)
Lemma insert_sorted_sorted (x : string) (l : list string) :
  Sorted (fun a b => js_string_lt b a = false) l ->
  Sorted (fun a b => js_string_lt b a = false) (insert_sorted x l).
Proof.
  induction 1 as [|y l Hl IH Hhd]; simpl; [repeat constructor|].
  destruct (js_string_lt y x) eqn:Hyx.
  - constructor; [exact IH|].
    assert (Hxy : js_string_lt x y = false) by (apply units_lt_asym, Hyx).
    destruct l as [|z l]; simpl; [constructor; exact Hxy|].
    destruct (js_string_lt z x); constructor; [|exact Hxy].
    inversion Hhd; assumption.
  - repeat constructor; assumption.
Qed.

Lemma sort_sorted (l : list string) :
  Sorted (fun a b => js_string_lt b a = false) (sort l).
Proof.
  induction l as [|x l IH]; simpl; [constructor|].
  apply insert_sorted_sorted, IH.
Qed.

Lemma substring_all (s : string) : substring 0 (String.length s) s = s.
Proof.
  induction s as [|a s IH]; simpl; [reflexivity|]. rewrite IH. reflexivity.
Qed.

Lemma substring_skip (p s : string) (n : nat) :
  substring (String.length p) n (p ++ s) = substring 0 n s.
Proof.
  induction p as [|a p IH]; simpl; [reflexivity | exact IH].
Qed.

Lemma length_append (p s : string) :
  String.length (p ++ s) = (String.length p + String.length s)%nat.
Proof.
  induction p as [|a p IH]; simpl; [reflexivity|]. rewrite IH. reflexivity.
Qed.

Lemma substring_split (n : nat) (s : string) :
  (n <= String.length s)%nat ->
  s = substring 0 n s ++ substring n (String.length s - n) s.
Proof.
  revert s. induction n as [|n IH]; intros s Hn.
  - simpl. rewrite Nat.sub_0_r.
    destruct s; simpl; [reflexivity|].
    rewrite substring_all. reflexivity.
  - destruct s as [|a s]; simpl in *; [lia|].
    rewrite <- IH by lia. reflexivity.
Qed.

(** [f.endsWith(suffix)] holds exactly of the strings that end in
    [suffix]. *)
Lemma endsWith_spec (suffix f : string) :
  endsWith suffix f = true <-> exists p, f = p ++ suffix.
Proof.
  unfold endsWith. rewrite andb_true_iff, Nat.leb_le, String.eqb_eq. split.
  - intros [Hlen Hsub].
    exists (substring 0 (String.length f - String.length suffix) f).
    assert (Hs := substring_split (String.length f - String.length suffix) f).
    replace (String.length f - (String.length f - String.length suffix))%nat
      with (String.length suffix) in Hs by lia.
    rewrite Hsub in Hs. apply Hs. lia.
  - intros (p & ->). rewrite length_append. split; [lia|].
    replace (String.length p + String.length suffix - String.length suffix)%nat
      with (String.length p) by lia.
    rewrite substring_skip. apply substring_all.
Qed.

Lemma units_le_trans (a b c : list N) :
  units_lt b a = false -> units_lt c b = false -> units_lt c a = false.
Proof.
  revert b c. induction a as [|x a IH]; intros [|y b] [|z c]; simpl;
    try reflexivity; try discriminate.
  destruct (y <? x)%N eqn:Hyx, (x <? y)%N eqn:Hxy, (z <? y)%N eqn:Hzy,
           (y <? z)%N eqn:Hyz, (z <? x)%N eqn:Hzx, (x <? z)%N eqn:Hxz;
    try discriminate; try reflexivity;
    try (apply N.ltb_lt in Hyx); try (apply N.ltb_lt in Hxy);
    try (apply N.ltb_lt in Hzy); try (apply N.ltb_lt in Hyz);
    try (apply N.ltb_lt in Hzx); try (apply N.ltb_lt in Hxz);
    try (apply N.ltb_ge in Hyx); try (apply N.ltb_ge in Hxy);
    try (apply N.ltb_ge in Hzy); try (apply N.ltb_ge in Hyz);
    try (apply N.ltb_ge in Hzx); try (apply N.ltb_ge in Hxz);
    try lia.
  apply IH.
Qed.

Lemma sort_strongly_sorted (l : list string) :
  StronglySorted (fun a b => js_string_lt b a = false) (sort l).
Proof.
  apply Sorted_StronglySorted; [|apply sort_sorted].
  intros a b c Hab Hbc. unfold js_string_lt in *.
  eapply units_le_trans; eassumption.
Qed.

(** The default order of [sort] is that of the code units, not of the bytes:
    U+1F600, whose surrogates start at D83D, goes before U+FF5E. *)
Example sort_by_code_units :
  let wave := String (ascii_of_nat 239) (String (ascii_of_nat 189)
                (String (ascii_of_nat 158) ".json")) in
  let grin := String (ascii_of_nat 240) (String (ascii_of_nat 159)
                (String (ascii_of_nat 152) (String (ascii_of_nat 128) ".json"))) in
  sort [wave; grin; "b.json"; "B.json"; "a.json"; "a.jso.json"]
  = ["B.json"; "a.jso.json"; "a.json"; "b.json"; grin; wave] /\
  String.ltb wave grin = true.
Proof.
  vm_compute. split; reflexivity.
Qed.

(** X1: after a successful start, the catalog that [batchMintNFTs] processes
    is the listing of the catalog directory with the names that do not end
    in [.json] dropped and nothing else lost or added, in ascending order of
    their UTF-16 code units: no name of the catalog is less than a name
    before it. *)
Theorem X1_catalog_is_sorted_json_listing (cfg : Config) (host : Host)
    (operator : string) (configFiles : list string) :
  startup cfg host = Ok (operator, configFiles) ->
  exists names,
    fs_readdirSync host (METADATA_FOLDER cfg) = Ok names /\
    Permutation (filter (endsWith ".json") names) configFiles /\
    StronglySorted (fun a b => js_string_lt b a = false) configFiles /\
    (forall f, In f configFiles <->
               In f names /\ exists p, f = p ++ ".json").
Proof.
  unfold startup, bind_result.
  destruct (fs_readFileSync host (KEYPAIR_PATH cfg)) as [text|m]; [|discriminate].
  destruct (JSON_parse host text) as [secretKey|m]; [|discriminate].
  destruct (createKeypairFromSecretKey host secretKey) as [op|m]; [|discriminate].
  destruct (fs_readdirSync host (METADATA_FOLDER cfg)) as [names|m];
    [|discriminate].
  intro H. injection H as _ <-. exists names.
  split; [reflexivity|]. split; [apply sort_perm|].
  split; [apply sort_strongly_sorted|].
  intro f. rewrite <- endsWith_spec, <- filter_In. split; apply Permutation_in.
  - symmetry. apply sort_perm.
  - apply sort_perm.
Qed.

(** The directory of seven entries, listed out of order with a text file. *)
Lemma X1_catalog_is_sorted_json_listing_witness :
  exists names,
    fs_readdirSync Demo.seven_entries (METADATA_FOLDER CONFIG) = Ok names /\
    Permutation (filter (endsWith ".json") names)
                ["n1.json"; "n2.json"; "n3.json"; "n4.json"; "n5.json";
                 "n6.json"; "n7.json"] /\
    StronglySorted (fun a b => js_string_lt b a = false)
           ["n1.json"; "n2.json"; "n3.json"; "n4.json"; "n5.json"; "n6.json";
            "n7.json"] /\
    (forall f, In f ["n1.json"; "n2.json"; "n3.json"; "n4.json"; "n5.json";
                     "n6.json"; "n7.json"]
               <-> In f names /\ exists p, f = p ++ ".json").
Proof.
  apply (X1_catalog_is_sorted_json_listing CONFIG Demo.seven_entries "operator").
  reflexivity.
Defined.

(** ** Edges of the batch (lines 142-162) *)

(** X2: with an empty catalog [batchMintNFTs] returns at once, whatever the
    chunk size (0 included): it prints its three lines, makes no other call
    and writes an empty report. *)
Theorem X2_empty_catalog (cfg : Config) (host : Host) (W : Type)
    (handle : forall c : call, W -> reply c * W)
    (fuel : nat) (e : W) (choices : list nat) (operator : string) :
  startup cfg host = Ok (operator, []) ->
  fs_write_error host results_file = None ->
  exists w',
    batchMintNFTs cfg host W handle fuel (initial_world W e choices)
      = Some (Ok tt, w') /\
    report_file W w' = Some [] /\
    map event_call (trace W w')
    = [ConsoleLog (LogMode (IS_SIMULATION cfg));
       ConsoleLog (LogProcessing 0 (BATCH_SIZE cfg));
       ConsoleLog LogDone].
Proof.
  intros Hstart Hwrite. unfold batchMintNFTs. rewrite Hstart, Hwrite.
  destruct (do_call_world W handle (ConsoleLog (LogMode (IS_SIMULATION cfg)))
              (initial_world W e choices)) as [T0 R0].
  destruct (do_call W handle (ConsoleLog (LogMode (IS_SIMULATION cfg)))
              (initial_world W e choices)) as [u0 w0]. simpl in T0, R0.
  cbn [List.length].
  destruct (do_call_world W handle (ConsoleLog (LogProcessing 0 (BATCH_SIZE cfg)))
              w0) as [T1 R1].
  destruct (do_call W handle (ConsoleLog (LogProcessing 0 (BATCH_SIZE cfg))) w0)
    as [u1 w1]. simpl in T1, R1.
  replace (chunk_loop cfg host W handle fuel fuel operator [] 0 [] w1)
    with (Some (Ok (@nil outcome), w1)) by (destruct fuel; reflexivity).
  destruct (do_call_world W handle (ConsoleLog LogDone) (write_report W [] w1))
    as [T3 R3].
  destruct (do_call W handle (ConsoleLog LogDone) (write_report W [] w1))
    as [u3 w3]. simpl in T3, R3.
  exists w3. split; [reflexivity|]. split; [exact R3|].
  rewrite T3, T1, T0. reflexivity.
Qed.

(** X3: when the results file cannot be written, [batchMintNFTs] rejects with
    the error of [fs.writeFileSync] only after every chunk has been
    processed: the outcomes are lost, no report exists. *)
Theorem X3_unwritable_report (cfg : Config) (host : Host) (W : Type)
    (handle : forall c : call, W -> reply c * W)
    (fuel : nat) (e : W) (choices : list nat)
    (operator : string) (configFiles : list string) (m : string) :
  startup cfg host = Ok (operator, configFiles) ->
  (0 < BATCH_SIZE cfg)%nat ->
  (13 * List.length configFiles <= fuel)%nat ->
  fs_write_error host results_file = Some m ->
  exists w',
    batchMintNFTs cfg host W handle fuel (initial_world W e choices)
      = Some (Err m, w') /\
    report_file W w' = None /\
    batches (trace W w') = ceil_div (List.length configFiles) (BATCH_SIZE cfg).
Proof.
  intros Hstart HC Hfuel Hwrite. unfold batchMintNFTs. rewrite Hstart, Hwrite.
  destruct (do_call_world W handle (ConsoleLog (LogMode (IS_SIMULATION cfg)))
              (initial_world W e choices)) as [T0 R0].
  destruct (do_call W handle (ConsoleLog (LogMode (IS_SIMULATION cfg)))
              (initial_world W e choices)) as [u0 w0]. simpl in T0, R0.
  destruct (do_call_world W handle
              (ConsoleLog (LogProcessing (List.length configFiles) (BATCH_SIZE cfg)))
              w0) as [T1 R1].
  destruct (do_call W handle
              (ConsoleLog (LogProcessing (List.length configFiles) (BATCH_SIZE cfg)))
              w0) as [u1 w1]. simpl in T1, R1.
  destruct (chunk_loop_spec cfg host W handle fuel fuel operator configFiles 0 []
              w1 HC)
    as (outs & w2 & evs & -> & _ & R2 & T2 & _ & B2); [lia | exact Hfuel |].
  rewrite Nat.sub_0_r in B2.
  exists w2. split; [reflexivity|]. split; [congruence|].
  rewrite T2, T1, T0, !batches_app, B2. unfold batches. simpl. lia.
Qed.

(** X4: with a chunk size of 0 and a catalog that is not empty, the loop of
    line 142 never ends: [batchMintNFTs] does not return, however long it
    runs, and neither does the program. *)
Theorem X4_zero_chunk_size_never_returns (cfg : Config) (host : Host) (W : Type)
    (handle : forall c : call, W -> reply c * W)
    (fuel : nat) (w : World W) (operator : string) (configFiles : list string) :
  startup cfg host = Ok (operator, configFiles) ->
  BATCH_SIZE cfg = 0%nat ->
  configFiles <> [] ->
  batchMintNFTs cfg host W handle fuel w = None /\
  main cfg host W handle fuel w = None.
Proof.
  intros Hstart HC Hfiles.
  assert (H : batchMintNFTs cfg host W handle fuel w = None).
  { unfold batchMintNFTs. rewrite Hstart.
    destruct (do_call W handle (ConsoleLog (LogMode (IS_SIMULATION cfg))) w)
      as [u0 w0].
    destruct (do_call W handle
                (ConsoleLog (LogProcessing (List.length configFiles) (BATCH_SIZE cfg)))
                w0) as [u1 w1].
    rewrite chunk_loop_diverges by assumption. reflexivity. }
  split; [exact H|]. unfold main. rewrite H. reflexivity.
Qed.

(** An empty catalog directory, with a chunk size of 0. *)
Lemma X2_empty_catalog_witness :
  exists w',
    batchMintNFTs Demo.ZERO Demo.empty_catalog unit (Demo.network Demo.healthy)
                  0 (initial_world unit tt [])
      = Some (Ok tt, w') /\
    report_file unit w' = Some [] /\
    map event_call (trace unit w')
    = [ConsoleLog (LogMode true); ConsoleLog (LogProcessing 0 0);
       ConsoleLog LogDone].
Proof.
  apply (X2_empty_catalog Demo.ZERO Demo.empty_catalog unit
           (Demo.network Demo.healthy) 0 tt [] "operator");
    reflexivity.
Defined.

(** Two entries in live mode, in a directory that cannot be written. *)
Lemma X3_unwritable_report_witness :
  exists w',
    batchMintNFTs Demo.LIVE Demo.read_only unit (Demo.network Demo.healthy)
                  100 (initial_world unit tt [])
      = Some (Err "EACCES: permission denied, open 'batch-mint-results.json'", w') /\
    report_file unit w' = None /\
    batches (trace unit w') = ceil_div 2 3.
Proof.
  apply (X3_unwritable_report Demo.LIVE Demo.read_only unit
           (Demo.network Demo.healthy) 100 tt [] "operator"
           ["a.json"; "b.json"]).
  - reflexivity.
  - simpl. lia.
  - simpl. lia.
  - reflexivity.
Defined.

(** One entry with a chunk size of 0. *)
Lemma X4_zero_chunk_size_never_returns_witness :
  batchMintNFTs Demo.ZERO Demo.one_entry unit (Demo.network Demo.healthy)
                1000 Demo.start = None /\
  main Demo.ZERO Demo.one_entry unit (Demo.network Demo.healthy)
       1000 Demo.start = None.
Proof.
  apply (X4_zero_chunk_size_never_returns Demo.ZERO Demo.one_entry unit
           (Demo.network Demo.healthy) 1000 Demo.start "operator" ["a.json"]).
  - reflexivity.
  - reflexivity.
  - discriminate.
Defined.

(** ** One entry, run on its own (lines 50-123 and 146-156) *)

Section EntryRuns.

Variable cfg : Config.
Variable host : Host.
Variable W : Type.
Variable handle : forall c : call, W -> reply c * W.

Ltac reply_step :=
  match goal with
  | |- context [handle ?c ?e] =>
      let r := fresh "r" in
      let e' := fresh "e" in
      destruct (handle c e) as [r e']; cbn in r;
      try match type of r with
          | result _ => destruct r
          | unit => destruct r
          end
  | |- context [lift ?r] => destruct r
  | |- context [if ?b then _ else _] => destruct b
  end; cbn.

Ltac replies :=
  unfold calls_of, events_of, result_of, await, perform; cbn; repeat reply_step.

Lemma simulated_entry (operator : string) (nftConfig : json) (nftName : jsval)
    (e : W) :
  IS_SIMULATION cfg = true ->
  get_prop nftConfig "name" = Ok nftName ->
  (ToPrimitive nftName = Ok tt ->
   exists r1 r2 key,
     result_of W handle (mintSingleNFT cfg host operator nftConfig) e
     = Ok (Simulated nftName key) /\
     events_of W handle (mintSingleNFT cfg host operator nftConfig) e
     = [existT reply MathRandom r1; existT reply Tick tt;
        existT reply MathRandom r2; existT reply GenerateSigner key;
        existT reply (ConsoleLog (LogSim nftName key)) tt]) /\
  (forall m,
      ToPrimitive nftName = Err m ->
      exists r1 r2 key,
        result_of W handle (mintSingleNFT cfg host operator nftConfig) e = Err m /\
        events_of W handle (mintSingleNFT cfg host operator nftConfig) e
        = [existT reply MathRandom r1; existT reply Tick tt;
           existT reply MathRandom r2; existT reply GenerateSigner key]).
Proof.
  intros Hsim Hname. unfold mintSingleNFT, uploadFile. rewrite Hsim.
  destruct nftConfig; cbn in Hname; try discriminate; injection Hname as <-;
    replies;
    (split; [intro H | intros m' H]); try discriminate H;
    try (injection H as <-);
    do 3 eexists; split; reflexivity.
Qed.

Lemma transaction_references_uploads (operator : string) (nftConfig : json)
    (e : W) (tx : CreateArgs) :
  IS_SIMULATION cfg = false ->
  In tx (submitted (events_of W handle (mintSingleNFT cfg host operator nftConfig) e)) ->
  exists fileBuffer fileSize image metadata meta attributes,
    acknowledged (events_of W handle (mintSingleNFT cfg host operator nftConfig) e)
    = [(FileBuffer fileBuffer fileSize, "image/jpeg", image);
       (MetadataBuffer metadata, "application/json", meta)] /\
    submitted (events_of W handle (mintSingleNFT cfg host operator nftConfig) e)
    = [tx] /\
    md_image metadata = arweave ++ id_text (id image) /\
    md_files metadata = [(arweave ++ id_text (id image), "image/jpeg")] /\
    get_prop nftConfig "name" = Ok (md_name metadata) /\
    get_prop nftConfig "description" = Ok (md_description metadata) /\
    get_prop nftConfig "attributes" = Ok attributes /\
    md_attributes metadata = js_or attributes (Some (JArr [])) /\
    uri tx = arweave ++ id_text (id meta) /\
    name tx = md_name metadata /\
    creatorAddress tx = operator /\
    creatorPercentage tx = 100%Z /\
    microLamports tx = PRIORITY_FEE cfg.
Proof.
  intros Hlive. unfold mintSingleNFT, uploadFile. rewrite Hlive.
  destruct nftConfig; replies; intro Hin; simpl in Hin;
    try contradiction; destruct Hin as [<- | []];
    do 6 eexists; repeat split; reflexivity.
Qed.

Lemma success_is_confirmed (operator : string) (nftConfig : json) (e : W)
    (o : outcome) :
  IS_SIMULATION cfg = false ->
  result_of W handle (mintSingleNFT cfg host operator nftConfig) e = Ok o ->
  exists tx,
    confirmed_txs (events_of W handle (mintSingleNFT cfg host operator nftConfig) e)
    = [tx] /\
    o = Success (name tx) (asset tx) (uri tx).
Proof.
  intros Hlive. unfold mintSingleNFT, uploadFile. rewrite Hlive.
  destruct nftConfig; replies; intro H; try discriminate H;
    injection H as <-; eexists; split; reflexivity.
Qed.

Lemma rejected_call_fails_entry (operator file : string) (e : W)
    (m : string) (rest : list event) :
  after_rejection (events_of W handle (chunkPromise cfg host operator file) e)
    = Some (m, rest) ->
  result_of W handle (chunkPromise cfg host operator file) e = Ok (Failed file m) /\
  existsb (fun ev => is_network (event_call ev)) rest = false.
Proof.
  unfold chunkPromise, chunkTry, chunkCatch, mintSingleNFT, uploadFile.
  destruct (IS_SIMULATION cfg);
    replies; intro H; try discriminate H; injection H as <- <-; auto.
Qed.

Lemma uploads_file_as_read (filePath : jsval) (contentType : string) (e : W)
    (data : payload) (ct : string) :
  In (TurboUploadFile data ct)
     (calls_of W handle (uploadFile cfg host filePath contentType) e) ->
  exists p content tail,
    fs_path host filePath = Ok p /\
    fs host p = Some (FsFile content) /\
    data = FileBuffer content (Z.of_nat (String.length content)) /\
    ct = contentType /\
    calls_of W handle (uploadFile cfg host filePath contentType) e
    = (GetUploadCosts (Z.of_nat (String.length content)) :: GetBalance :: tail)%list.
Proof.
  unfold uploadFile. destruct (IS_SIMULATION cfg).
  - replies. intros [H | []]. discriminate H.
  - unfold calculateSize.
    destruct (fs_path host filePath) as [p | m] eqn:Hpath; cbn [bind_result];
      [|replies; contradiction].
    unfold fs_statSync_size, fs_readFileSync.
    destruct (fs host p) as [[content | entries]|] eqn:Hfs; replies; intro Hin;
      simpl in Hin;
      repeat (destruct Hin as [Hin | Hin]; try discriminate Hin);
      try contradiction;
      injection Hin as <- <-; do 3 eexists; repeat split;
      first [reflexivity | exact Hfs].
Qed.

Lemma uploaded_address (filePath : jsval) (contentType : string) (e : W)
    (url : string) :
  IS_SIMULATION cfg = false ->
  result_of W handle (uploadFile cfg host filePath contentType) e = Ok url ->
  exists data r,
    acknowledged (events_of W handle (uploadFile cfg host filePath contentType) e)
    = [(data, contentType, r)] /\
    url = arweave ++ id_text (id r).
Proof.
  intro Hlive. unfold uploadFile. rewrite Hlive.
  replies; intro H; try discriminate H; injection H as <-;
    do 2 eexists; split; reflexivity.
Qed.

End EntryRuns.

Section Funding.

Variable cfg : Config.
Variable host : Host.
Variable W : Type.
Variable handle : forall c : call, W -> reply c * W.

Lemma top_up_when_short (filePath : jsval) (contentType : string) (e : W)
    (uploadPrice currentBalance rate : string) :
  quoted_price (events_of W handle (uploadFile cfg host filePath contentType) e)
    = Some uploadPrice ->
  read_balance (events_of W handle (uploadFile cfg host filePath contentType) e)
    = Some currentBalance ->
  quoted_rate (events_of W handle (uploadFile cfg host filePath contentType) e)
    = Some rate ->
  js_string_lt currentBalance uploadPrice = true ->
  exists fileSize tail,
    calls_of W handle (uploadFile cfg host filePath contentType) e
    = ([GetUploadCosts fileSize; GetBalance; GetWincForToken 1000000000;
        ConsoleLog (LogTopUp (topUpAmount (StringToNumber uploadPrice)
                                          (StringToNumber currentBalance)
                                          (StringToNumber rate)));
        TopUpWithTokens (topUpAmount (StringToNumber uploadPrice)
                                     (StringToNumber currentBalance)
                                     (StringToNumber rate))]
       ++ tail)%list /\
    existsb is_top_up tail = false.
Proof.
  unfold calls_of, events_of, uploadFile, await, perform.
  destruct (IS_SIMULATION cfg); cbn.
  - discriminate.
  - destruct (calculateSize host filePath) as [fileSize|m]; cbn; [|discriminate].
    destruct (bind_result (fs_path host filePath) (fs_readFileSync host))
      as [fileBuffer|m]; cbn; [|discriminate].
    destruct (handle (GetUploadCosts fileSize) e) as [[price|m] e1]; cbn;
      [|discriminate].
    destruct (handle GetBalance e1) as [[bal|m] e2]; cbn; [|discriminate].
    intros Hp Hb. injection Hp as <-. injection Hb as <-.
    intros Hr Hlt. rewrite Hlt in Hr |- *. cbn in Hr |- *.
    destruct (handle (GetWincForToken 1000000000) e2) as [[r|m] e3];
      cbn in Hr |- *; [injection Hr as <- | discriminate Hr].
    set (amount := topUpAmount (StringToNumber price) (StringToNumber bal)
                               (StringToNumber r)).
    destruct (handle (ConsoleLog (LogTopUp amount)) e3) as [u e4]; cbn.
    destruct (handle (TopUpWithTokens amount) e4) as [[u1|m] e5]; cbn.
    + destruct (handle (TurboUploadFile (FileBuffer fileBuffer fileSize) contentType) e5)
        as [[up|m] e6]; cbn; do 2 eexists; split; reflexivity.
    + do 2 eexists; split; reflexivity.
Qed.

Lemma no_rate_query_when_funded (filePath : jsval) (contentType : string) (e : W)
    (uploadPrice currentBalance : string) :
  quoted_price (events_of W handle (uploadFile cfg host filePath contentType) e)
    = Some uploadPrice ->
  read_balance (events_of W handle (uploadFile cfg host filePath contentType) e)
    = Some currentBalance ->
  js_string_lt currentBalance uploadPrice = false ->
  existsb (fun c => is_top_up c || is_rate_query c)
          (calls_of W handle (uploadFile cfg host filePath contentType) e)
  = false.
Proof.
  unfold calls_of, events_of, uploadFile, await, perform.
  destruct (IS_SIMULATION cfg); cbn.
  - discriminate.
  - destruct (calculateSize host filePath) as [fileSize|m]; cbn; [|discriminate].
    destruct (bind_result (fs_path host filePath) (fs_readFileSync host))
      as [fileBuffer|m]; cbn; [|discriminate].
    destruct (handle (GetUploadCosts fileSize) e) as [[price|m] e1]; cbn;
      [|discriminate].
    destruct (handle GetBalance e1) as [[bal|m] e2]; cbn; [|discriminate].
    intros Hp Hb Hlt. injection Hp as <-. injection Hb as <-. rewrite Hlt. cbn.
    destruct (handle (TurboUploadFile (FileBuffer fileBuffer fileSize) contentType) e2)
      as [[up|m] e3]; reflexivity.
Qed.

End Funding.

(** ** Entries that cannot be loaded (lines 148-149, 77) *)

Section BadEntries.

Variable cfg : Config.
Variable host : Host.

Lemma unreadable_entry (operator file m : string) :
  fs_readFileSync host (path_join (METADATA_FOLDER cfg) file) = Err m ->
  chunkPromise cfg host operator file
  = Do (ConsoleError (LogFailed file m)) (fun _ => Ret (Failed file m)).
Proof.
  intro H. unfold chunkPromise, chunkTry. rewrite H. reflexivity.
Qed.

Lemma unparseable_entry (operator file content m : string) :
  fs_readFileSync host (path_join (METADATA_FOLDER cfg) file) = Ok content ->
  JSON_parse host content = Err m ->
  chunkPromise cfg host operator file
  = Do (ConsoleError (LogFailed file m)) (fun _ => Ret (Failed file m)).
Proof.
  intros Hr Hp. unfold chunkPromise, chunkTry. rewrite Hr. cbn [lift bind].
  rewrite Hp. reflexivity.
Qed.

Lemma null_entry (operator file content : string) :
  fs_readFileSync host (path_join (METADATA_FOLDER cfg) file) = Ok content ->
  JSON_parse host content = Ok JNull ->
  chunkPromise cfg host operator file
  = Do Tick (fun _ =>
      Do (ConsoleError
            (LogFailed file "Cannot read properties of null (reading 'imagePath')"))
         (fun _ =>
            Ret (Failed file "Cannot read properties of null (reading 'imagePath')"))).
Proof.
  intros Hr Hp. unfold chunkPromise, chunkTry. rewrite Hr. cbn [lift bind].
  rewrite Hp. reflexivity.
Qed.

End BadEntries.

(** ** The numbering of the chunks (line 144) *)

Lemma batch_numbers_app (evs1 evs2 : list event) :
  batch_numbers (evs1 ++ evs2) = (batch_numbers evs1 ++ batch_numbers evs2)%list.
Proof.
  induction evs1 as [|[c r] evs1 IH]; simpl; [reflexivity|].
  destruct c as [ | | l | | | | | | | | ]; try exact IH.
  destruct l; simpl; try exact IH. f_equal. exact IH.
Qed.

Lemma batch_numbers_items (simulation : bool) (evs : list event) :
  Forall (fun e => item_call simulation (event_call e) = true) evs ->
  batch_numbers evs = [].
Proof.
  induction 1 as [|[c r] evs He _ IH]; [reflexivity|]. simpl.
  destruct c as [ | | l | | | | | | | | ]; try exact IH.
  destruct l; simpl in *; try exact IH. discriminate He.
Qed.

Lemma chunk_loop_numbers (cfg : Config) (host : Host) (W : Type)
    (handle : forall c : call, W -> reply c * W)
    (fuel pool_fuel : nat) (operator : string)
    (configFiles : list string) (k : nat) (results : list outcome) (w : World W) :
  (0 < BATCH_SIZE cfg)%nat ->
  (List.length configFiles - k * BATCH_SIZE cfg <= fuel)%nat ->
  (13 * List.length configFiles <= pool_fuel)%nat ->
  exists r w' evs,
    chunk_loop cfg host W handle fuel pool_fuel operator configFiles
               (k * BATCH_SIZE cfg) results w = Some (r, w') /\
    trace W w' = (trace W w ++ evs)%list /\
    batch_numbers evs
    = map Some (seq (k + 1)
                    (ceil_div (List.length configFiles - k * BATCH_SIZE cfg)
                              (BATCH_SIZE cfg))).
Proof.
  intros HC. revert k results w.
  induction fuel as [|fuel IH]; intros k results w Hfuel Hpool;
    cbn [chunk_loop];
    destruct (k * BATCH_SIZE cfg <? List.length configFiles)%nat eqn:Hi;
    try (apply Nat.ltb_ge in Hi; exists (Ok results), w, [];
         rewrite app_nil_r;
         replace (List.length configFiles - k * BATCH_SIZE cfg)%nat with 0%nat by lia;
         rewrite ceil_div_0 by exact HC; repeat split; reflexivity).
  - apply Nat.ltb_lt in Hi. lia.
  - apply Nat.ltb_lt in Hi.
    set (chunk := slice (k * BATCH_SIZE cfg) (k * BATCH_SIZE cfg + BATCH_SIZE cfg)
                        configFiles).
    destruct (do_call_world W handle
                (ConsoleLog (LogBatch (batch_number cfg (k * BATCH_SIZE cfg)))) w)
      as [T1 _].
    destruct (do_call W handle
                (ConsoleLog (LogBatch (batch_number cfg (k * BATCH_SIZE cfg)))) w)
      as [u w1]. simpl in T1.
    assert (Hlen : (List.length chunk <= List.length configFiles)%nat).
    { unfold chunk, slice. rewrite length_firstn, length_skipn. lia. }
    destruct (Promise_all_spec W handle (item_call (IS_SIMULATION cfg))
                (fun _ : outcome => True) (fun _ => False) pool_fuel 13
                (map (chunkPromise cfg host operator) chunk) w1)
      as (outs1 & w2 & -> & [_ (evs2 & T2 & F2)] & _).
    + intros m Hm. exact Hm.
    + apply Forall_forall. intros t Ht. apply in_map_iff in Ht.
      destruct Ht as (f & <- & _). apply chunkPromise_calls.
    + apply Forall_forall. intros t Ht. apply in_map_iff in Ht.
      destruct Ht as (f & <- & _). apply chunkPromise_height.
    + rewrite length_map. lia.
    + replace (k * BATCH_SIZE cfg + BATCH_SIZE cfg)%nat
        with (S k * BATCH_SIZE cfg)%nat by (simpl; lia).
      destruct (IH (S k) (results ++ outs1)%list w2)
        as (r & w3 & evs3 & -> & T3 & B3); [simpl; lia | exact Hpool |].
      exists r, w3,
        ([existT reply (ConsoleLog (LogBatch (batch_number cfg (k * BATCH_SIZE cfg)))) u]
         ++ evs2 ++ evs3)%list.
      split; [reflexivity|]. split.
      * rewrite T3, T2, T1, <- !app_assoc. reflexivity.
      * rewrite !batch_numbers_app, (batch_numbers_items _ _ F2), B3.
        rewrite (ceil_div_step (List.length configFiles - k * BATCH_SIZE cfg))
          by lia.
        replace (List.length configFiles - k * BATCH_SIZE cfg - BATCH_SIZE cfg)%nat
          with (List.length configFiles - S k * BATCH_SIZE cfg)%nat by (simpl; lia).
        unfold batch_number.
        replace (BATCH_SIZE cfg =? 0)%nat with false
          by (symmetry; apply Nat.eqb_neq; lia).
        rewrite Nat.div_mul by lia. simpl.
        replace (S k + 1)%nat with (S (k + 1)) by lia. reflexivity.
Qed.

(** ** Properties of the script beyond the claims *)

(** X5: in simulation, [mintSingleNFT] on an entry that is not [null] draws
    two random numbers, with a turn of the event loop between them, and
    generates the signer; it never opens the image and calls neither the
    storage network nor the ledger.  When the entry's [name] converts to a
    string (a missing name does), it then prints one line and returns a
    simulated outcome with that name and the key of the signer.  When the
    name does not convert (an object with a property [toString] of its own,
    or an array that holds one), line 104 throws before anything is printed,
    and [mintSingleNFT] rejects with the TypeError. *)
Theorem X5_simulated_entry (cfg : Config) (host : Host) (W : Type)
    (handle : forall c : call, W -> reply c * W)
    (operator : string) (nftConfig : json) (nftName : jsval) (e : W) :
  IS_SIMULATION cfg = true ->
  get_prop nftConfig "name" = Ok nftName ->
  (ToPrimitive nftName = Ok tt ->
   exists r1 r2 key,
     result_of W handle (mintSingleNFT cfg host operator nftConfig) e
     = Ok (Simulated nftName key) /\
     events_of W handle (mintSingleNFT cfg host operator nftConfig) e
     = [existT reply MathRandom r1; existT reply Tick tt;
        existT reply MathRandom r2; existT reply GenerateSigner key;
        existT reply (ConsoleLog (LogSim nftName key)) tt]) /\
  (forall m,
      ToPrimitive nftName = Err m ->
      exists r1 r2 key,
        result_of W handle (mintSingleNFT cfg host operator nftConfig) e = Err m /\
        events_of W handle (mintSingleNFT cfg host operator nftConfig) e
        = [existT reply MathRandom r1; existT reply Tick tt;
           existT reply MathRandom r2; existT reply GenerateSigner key]).
Proof.
  intros Hsim Hname. apply simulated_entry; assumption.
Qed.

(** An entry whose name is an object with a [toString] of its own, in
    simulation. *)
Lemma X5_simulated_entry_witness :
  exists r1 r2 key,
    result_of unit (Demo.network Demo.healthy)
              (mintSingleNFT CONFIG Demo.one_entry "operator"
                             (JObj [("name", JObj [("toString", JNum 1)])])) tt
    = Err "Cannot convert object to primitive value" /\
    events_of unit (Demo.network Demo.healthy)
              (mintSingleNFT CONFIG Demo.one_entry "operator"
                             (JObj [("name", JObj [("toString", JNum 1)])])) tt
    = [existT reply MathRandom r1; existT reply Tick tt;
       existT reply MathRandom r2; existT reply GenerateSigner key].
Proof.
  apply (proj2 (X5_simulated_entry CONFIG Demo.one_entry unit
                  (Demo.network Demo.healthy) "operator"
                  (JObj [("name", JObj [("toString", JNum 1)])])
                  (Some (JObj [("toString", JNum 1)])) tt eq_refl eq_refl)).
  reflexivity.
Defined.

(** X6: in live mode, a transaction is sent to the ledger only after the
    image and the metadata document have both been acknowledged by the
    storage network, and it is the only one of the entry.  Its [uri] is the
    address of the metadata upload; the metadata document carries the entry's
    name and description, its attributes or an empty list, and the address of
    the image upload as [image] and as its one file; the royalties go to the
    operator, all of them, with the configured priority fee.  [mintSingleNFT]
    returns only once the ledger has confirmed, and then a [Success] with
    the name, asset and uri of that transaction. *)
Theorem X6_transaction_references_uploads (cfg : Config) (host : Host) (W : Type)
    (handle : forall c : call, W -> reply c * W)
    (operator : string) (nftConfig : json) (e : W) :
  IS_SIMULATION cfg = false ->
  (forall tx,
      In tx (submitted (events_of W handle
                          (mintSingleNFT cfg host operator nftConfig) e)) ->
      exists fileBuffer fileSize image metadata meta attributes,
        acknowledged (events_of W handle
                        (mintSingleNFT cfg host operator nftConfig) e)
        = [(FileBuffer fileBuffer fileSize, "image/jpeg", image);
           (MetadataBuffer metadata, "application/json", meta)] /\
        submitted (events_of W handle
                     (mintSingleNFT cfg host operator nftConfig) e)
        = [tx] /\
        md_image metadata = arweave ++ id_text (id image) /\
        md_files metadata = [(arweave ++ id_text (id image), "image/jpeg")] /\
        get_prop nftConfig "name" = Ok (md_name metadata) /\
        get_prop nftConfig "description" = Ok (md_description metadata) /\
        get_prop nftConfig "attributes" = Ok attributes /\
        md_attributes metadata = js_or attributes (Some (JArr [])) /\
        uri tx = arweave ++ id_text (id meta) /\
        name tx = md_name metadata /\
        creatorAddress tx = operator /\
        creatorPercentage tx = 100%Z /\
        microLamports tx = PRIORITY_FEE cfg) /\
  (forall o,
      result_of W handle (mintSingleNFT cfg host operator nftConfig) e = Ok o ->
      exists tx,
        confirmed_txs (events_of W handle
                         (mintSingleNFT cfg host operator nftConfig) e)
        = [tx] /\
        o = Success (name tx) (asset tx) (uri tx)).
Proof.
  intro Hlive. split.
  - intros tx Hin. apply transaction_references_uploads; assumption.
  - intros o Ho. apply success_is_confirmed; assumption.
Qed.

(** One entry in live mode on a network that accepts everything. *)
Lemma X6_transaction_references_uploads_witness :
  exists tx,
    confirmed_txs (events_of unit (Demo.network Demo.healthy)
                     (mintSingleNFT Demo.LIVE Demo.one_entry "operator"
                                    (Demo.entry_json "A" "a.jpg")) tt)
    = [tx] /\
    Success (Some (JStr "A")) "asset" "https://arweave.net/TX1"
    = Success (name tx) (asset tx) (uri tx).
Proof.
  apply (proj2 (X6_transaction_references_uploads Demo.LIVE Demo.one_entry unit
                  (Demo.network Demo.healthy) "operator"
                  (Demo.entry_json "A" "a.jpg") tt eq_refl)).
  vm_compute. reflexivity.
Defined.

(** X7: whichever remote call of an entry is rejected first (price, balance
    or rate query, top-up, upload or ledger submission), the entry makes no
    further call over the network and is reported as [Failed] with its file
    name and the message of that rejection. *)
Theorem X7_rejected_call_fails_entry (cfg : Config) (host : Host) (W : Type)
    (handle : forall c : call, W -> reply c * W)
    (operator file : string) (e : W) (m : string) (rest : list event) :
  after_rejection (events_of W handle (chunkPromise cfg host operator file) e)
    = Some (m, rest) ->
  result_of W handle (chunkPromise cfg host operator file) e = Ok (Failed file m) /\
  existsb (fun ev => is_network (event_call ev)) rest = false.
Proof.
  apply rejected_call_fails_entry.
Qed.

(** One entry in live mode, on a ledger that rejects the transaction. *)
Lemma X7_rejected_call_fails_entry_witness :
  result_of unit (Demo.network Demo.rejecting_ledger)
            (chunkPromise Demo.LIVE Demo.one_entry "operator" "a.json") tt
  = Ok (Failed "a.json" "Transaction simulation failed") /\
  existsb (fun ev => is_network (event_call ev))
          [existT reply Tick tt;
           existT reply
             (ConsoleError (LogFailed "a.json" "Transaction simulation failed"))
             tt]
  = false.
Proof.
  apply (X7_rejected_call_fails_entry Demo.LIVE Demo.one_entry unit
           (Demo.network Demo.rejecting_ledger) "operator" "a.json" tt).
  vm_compute. reflexivity.
Defined.

(** The test of line 59 compares the two replies as strings.  A price of
    100 credits with a balance of 40 requests no top-up, and the upload goes
    out under-funded; a price of 9 credits with a balance of 10 requests a
    top-up although the balance covers the price. *)
Example top_up_compares_strings :
  calls_of unit (Demo.network Demo.unnoticed)
           (uploadFile Demo.LIVE Demo.one_entry (Some (JStr "a.jpg"))
                       "image/jpeg") tt
  = [GetUploadCosts 8; GetBalance;
     TurboUploadFile (FileBuffer "JPEGDATA" 8) "image/jpeg"] /\
  calls_of unit (Demo.network Demo.needless)
           (uploadFile Demo.LIVE Demo.one_entry (Some (JStr "a.jpg"))
                       "image/jpeg") tt
  = [GetUploadCosts 8; GetBalance; GetWincForToken 1000000000;
     ConsoleLog (LogTopUp neg_zero); TopUpWithTokens neg_zero;
     TurboUploadFile (FileBuffer "JPEGDATA" 8) "image/jpeg"].
Proof.
  split; vm_compute; reflexivity.
Qed.

(** X8: [uploadFile], once it has the price and the balance, both strings
    of digits from the storage client.  When the price is greater than the
    balance as a string (line 59) and the rate query answers, it prints and
    requests one top-up, of the amount line 62 computes from the three
    replies converted to numbers, after asking the rate for 10^9 lamports
    and before any upload.  When the price is not greater than the balance
    as a string, it asks no rate and requests no top-up. *)
Theorem X8_top_up_when_short (cfg : Config) (host : Host) (W : Type)
    (handle : forall c : call, W -> reply c * W)
    (filePath : jsval) (contentType : string) (e : W)
    (uploadPrice currentBalance : string) :
  quoted_price (events_of W handle (uploadFile cfg host filePath contentType) e)
    = Some uploadPrice ->
  read_balance (events_of W handle (uploadFile cfg host filePath contentType) e)
    = Some currentBalance ->
  (js_string_lt currentBalance uploadPrice = true ->
   forall rate,
     quoted_rate (events_of W handle (uploadFile cfg host filePath contentType) e)
       = Some rate ->
     exists fileSize tail,
       calls_of W handle (uploadFile cfg host filePath contentType) e
       = ([GetUploadCosts fileSize; GetBalance; GetWincForToken 1000000000;
           ConsoleLog (LogTopUp (topUpAmount (StringToNumber uploadPrice)
                                             (StringToNumber currentBalance)
                                             (StringToNumber rate)));
           TopUpWithTokens (topUpAmount (StringToNumber uploadPrice)
                                        (StringToNumber currentBalance)
                                        (StringToNumber rate))]
          ++ tail)%list /\
       existsb is_top_up tail = false) /\
  (js_string_lt currentBalance uploadPrice = false ->
   existsb (fun c => is_top_up c || is_rate_query c)
           (calls_of W handle (uploadFile cfg host filePath contentType) e)
   = false).
Proof.
  intros Hp Hb. split.
  - intros Hlt rate Hr. apply top_up_when_short; assumption.
  - intro Hlt. eapply no_rate_query_when_funded; eassumption.
Qed.

(** A price of 500 credits against a balance of 100, at 10^12 credits to the
    SOL: a top-up of one lamport. *)
Lemma X8_top_up_when_short_witness :
  exists fileSize tail,
    calls_of unit (Demo.network Demo.short)
             (uploadFile Demo.LIVE Demo.one_entry (Some (JStr "a.jpg"))
                         "image/jpeg") tt
    = ([GetUploadCosts fileSize; GetBalance; GetWincForToken 1000000000;
        ConsoleLog (LogTopUp 1); TopUpWithTokens 1]
       ++ tail)%list /\
    existsb is_top_up tail = false.
Proof.
  apply (proj1 (X8_top_up_when_short Demo.LIVE Demo.one_entry unit
                  (Demo.network Demo.short) (Some (JStr "a.jpg")) "image/jpeg"
                  tt "500" "100" eq_refl eq_refl) eq_refl "1000000000000" eq_refl).
Defined.

(** X9: what [uploadFile] uploads is the content of the file at the path
    that [fs] takes from the argument it was given (the string itself, or
    the path of an object with the shape of a URL), declared with the byte
    length of that content and tagged with the content type it was given,
    after a price query for that same length and a balance query; nothing is
    uploaded when [fs] takes no path from the argument, or when the path is
    missing or a directory.  In live mode the address it returns is made of
    the identifier in the acknowledgement of that one upload. *)
Theorem X9_uploads_file_as_read (cfg : Config) (host : Host) (W : Type)
    (handle : forall c : call, W -> reply c * W)
    (filePath : jsval) (contentType : string) (e : W) :
  (forall data ct,
      In (TurboUploadFile data ct)
         (calls_of W handle (uploadFile cfg host filePath contentType) e) ->
      exists p content tail,
        fs_path host filePath = Ok p /\
        fs host p = Some (FsFile content) /\
        data = FileBuffer content (Z.of_nat (String.length content)) /\
        ct = contentType /\
        calls_of W handle (uploadFile cfg host filePath contentType) e
        = (GetUploadCosts (Z.of_nat (String.length content)) :: GetBalance
           :: tail)%list) /\
  (IS_SIMULATION cfg = false ->
   forall url,
     result_of W handle (uploadFile cfg host filePath contentType) e = Ok url ->
     exists data r,
       acknowledged (events_of W handle
                       (uploadFile cfg host filePath contentType) e)
       = [(data, contentType, r)] /\
       url = arweave ++ id_text (id r)).
Proof.
  split.
  - intros data ct. apply uploads_file_as_read.
  - intros Hlive url. apply uploaded_address. exact Hlive.
Qed.

(** An image given as an object with the shape of a file URL, uploaded in
    live mode. *)
Lemma X9_uploads_file_as_read_witness :
  exists p content tail,
    fs_path Demo.url_paths (Some Demo.image_url) = Ok p /\
    fs Demo.url_paths p = Some (FsFile content) /\
    FileBuffer "JPEGDATA" 8 = FileBuffer content (Z.of_nat (String.length content)) /\
    "image/jpeg" = "image/jpeg" /\
    calls_of unit (Demo.network Demo.healthy)
             (uploadFile Demo.LIVE Demo.url_paths (Some Demo.image_url)
                         "image/jpeg") tt
    = (GetUploadCosts (Z.of_nat (String.length content)) :: GetBalance :: tail)%list.
Proof.
  apply (proj1 (X9_uploads_file_as_read Demo.LIVE Demo.url_paths unit
                  (Demo.network Demo.healthy) (Some Demo.image_url) "image/jpeg"
                  tt)).
  vm_compute. tauto.
Defined.

(** X10: with a chunk size of at least 1 and after a successful start, the
    chunks are announced with the numbers 1, 2, ... up to [ceil_div N C], in
    that order, whether or not the report can be written in the end. *)
Theorem X10_chunks_numbered_from_one (cfg : Config) (host : Host) (W : Type)
    (handle : forall c : call, W -> reply c * W)
    (fuel : nat) (e : W) (choices : list nat)
    (operator : string) (configFiles : list string) :
  startup cfg host = Ok (operator, configFiles) ->
  (0 < BATCH_SIZE cfg)%nat ->
  (13 * List.length configFiles <= fuel)%nat ->
  exists settled w',
    batchMintNFTs cfg host W handle fuel (initial_world W e choices)
      = Some (settled, w') /\
    batch_numbers (trace W w')
    = map Some (seq 1 (ceil_div (List.length configFiles) (BATCH_SIZE cfg))).
Proof.
  intros Hstart HC Hfuel. unfold batchMintNFTs. rewrite Hstart.
  destruct (do_call_world W handle (ConsoleLog (LogMode (IS_SIMULATION cfg)))
              (initial_world W e choices)) as [T0 _].
  destruct (do_call W handle (ConsoleLog (LogMode (IS_SIMULATION cfg)))
              (initial_world W e choices)) as [u0 w0]. simpl in T0.
  destruct (do_call_world W handle
              (ConsoleLog (LogProcessing (List.length configFiles) (BATCH_SIZE cfg)))
              w0) as [T1 _].
  destruct (do_call W handle
              (ConsoleLog (LogProcessing (List.length configFiles) (BATCH_SIZE cfg)))
              w0) as [u1 w1]. simpl in T1.
  destruct (chunk_loop_numbers cfg host W handle fuel fuel operator configFiles
              0 [] w1 HC) as (r & w2 & evs & Hloop & T2 & B2);
    [simpl; lia | exact Hfuel |].
  simpl in Hloop, B2. rewrite Nat.sub_0_r in B2. rewrite Hloop.
  assert (Hw2 : batch_numbers (trace W w2)
                = map Some (seq 1 (ceil_div (List.length configFiles)
                                            (BATCH_SIZE cfg)))).
  { rewrite T2, T1, T0, !batch_numbers_app, B2. reflexivity. }
  destruct r as [results | m]; [|eauto].
  destruct (fs_write_error host results_file) as [m|]; [eauto|].
  destruct (do_call_world W handle (ConsoleLog LogDone) (write_report W results w2))
    as [T3 _].
  destruct (do_call W handle (ConsoleLog LogDone) (write_report W results w2))
    as [u3 w3]. simpl in T3.
  exists (Ok tt), w3. split; [reflexivity|].
  rewrite T3, batch_numbers_app, Hw2. simpl. apply app_nil_r.
Qed.

(** Seven entries in chunks of three: the chunks 1, 2 and 3. *)
Lemma X10_chunks_numbered_from_one_witness :
  exists settled w',
    batchMintNFTs CONFIG Demo.seven_entries unit (Demo.network Demo.healthy)
                  100 (initial_world unit tt [2; 0; 1])
      = Some (settled, w') /\
    batch_numbers (trace unit w') = map Some (seq 1 (ceil_div 7 3)).
Proof.
  apply (X10_chunks_numbered_from_one CONFIG Demo.seven_entries unit
           (Demo.network Demo.healthy) 100 tt [2; 0; 1] "operator"
           ["n1.json"; "n2.json"; "n3.json"; "n4.json"; "n5.json"; "n6.json";
            "n7.json"]).
  - reflexivity.
  - simpl. lia.
  - simpl. lia.
Defined.

(** X11: an entry that cannot be loaded, in either mode.  When its file
    cannot be read or its text is not JSON, the entry's function prints the
    error and returns [Failed] with it, and makes no other call, not even a
    turn of the event loop; when its text is the JSON value [null], the
    function fails on reading [imagePath] (line 77), one turn later. *)
Theorem X11_entry_that_cannot_be_loaded (cfg : Config) (host : Host)
    (operator file : string) :
  (forall m,
      fs_readFileSync host (path_join (METADATA_FOLDER cfg) file) = Err m ->
      chunkPromise cfg host operator file
      = Do (ConsoleError (LogFailed file m)) (fun _ => Ret (Failed file m))) /\
  (forall content m,
      fs_readFileSync host (path_join (METADATA_FOLDER cfg) file) = Ok content ->
      JSON_parse host content = Err m ->
      chunkPromise cfg host operator file
      = Do (ConsoleError (LogFailed file m)) (fun _ => Ret (Failed file m))) /\
  (forall content,
      fs_readFileSync host (path_join (METADATA_FOLDER cfg) file) = Ok content ->
      JSON_parse host content = Ok JNull ->
      chunkPromise cfg host operator file
      = Do Tick (fun _ =>
          Do (ConsoleError
                (LogFailed file
                   "Cannot read properties of null (reading 'imagePath')"))
             (fun _ =>
                Ret (Failed file
                       "Cannot read properties of null (reading 'imagePath')")))).
Proof.
  split; [|split].
  - intro m. apply unreadable_entry.
  - intros content m. apply unparseable_entry.
  - intro content. apply null_entry.
Qed.

(** The entry whose text is a single brace, in live mode. *)
Lemma X11_entry_that_cannot_be_loaded_witness :
  chunkPromise Demo.LIVE Demo.broken_entry "operator" "a.json"
  = Do (ConsoleError (LogFailed "a.json" "Unexpected end of JSON input"))
       (fun _ => Ret (Failed "a.json" "Unexpected end of JSON input")).
Proof.
  apply (proj1 (proj2 (X11_entry_that_cannot_be_loaded Demo.LIVE
                         Demo.broken_entry "operator" "a.json")) "{");
    reflexivity.
Defined.

Lemma chunkPromise_mode (cfg : Config) (host : Host) (operator file : string) :
  always (fun _ => True) (outcome_of_mode (IS_SIMULATION cfg) file)
         (fun _ => False) (chunkPromise cfg host operator file).
Proof.
  unfold chunkPromise, chunkTry, chunkCatch, mintSingleNFT, uploadFile, await,
    perform.
  destruct (IS_SIMULATION cfg); cbn;
    repeat (match goal with
            | |- always _ _ _ (Ret _) => apply always_ret; reflexivity
            | |- always _ _ _ (Do _ _) =>
                apply always_do; [exact I | let r := fresh "r" in intro r; cbn in r]
            | |- context [lift ?r] => destruct r
            | |- context [if ?b then _ else _] => destruct b
            end; cbn).
Qed.

(** X12: the report never mixes the modes.  After a successful start, with a
    chunk size of at least 1 and a writable results file, every outcome in
    the report of a simulation is [Simulated] or [Failed], every outcome in
    the report of a live run is [Success] or [Failed], and every [Failed]
    outcome carries the name of the catalog file at its own position. *)
Theorem X12_report_matches_mode (cfg : Config) (host : Host) (W : Type)
    (handle : forall c : call, W -> reply c * W)
    (fuel : nat) (e : W) (choices : list nat)
    (operator : string) (configFiles : list string) :
  startup cfg host = Ok (operator, configFiles) ->
  (0 < BATCH_SIZE cfg)%nat ->
  (13 * List.length configFiles <= fuel)%nat ->
  fs_write_error host results_file = None ->
  exists outs w',
    batchMintNFTs cfg host W handle fuel (initial_world W e choices)
      = Some (Ok tt, w') /\
    report_file W w' = Some outs /\
    Forall2 (outcome_of_mode (IS_SIMULATION cfg)) configFiles outs.
Proof.
  intros Hstart HC Hfuel Hwrite.
  destruct (batch_spec cfg host W handle fuel (initial_world W e choices)
              operator configFiles Hstart HC Hfuel Hwrite)
    as (outs & w' & evs & Hrun & Hrep & Hout & _).
  exists outs, w'. split; [exact Hrun|]. split; [exact Hrep|].
  eapply Forall2_impl; [|exact Hout]. intros file o Ho.
  pose proof (chunkPromise_mode cfg host operator file) as H.
  apply (always_reaches _ _ _ _ _ Ho) in H. apply always_inv in H. exact H.
Qed.

(** Two entries in live mode, the second without its image. *)
Lemma X12_report_matches_mode_witness :
  exists outs w',
    batchMintNFTs Demo.LIVE Demo.missing_image unit (Demo.network Demo.healthy)
                  100 (initial_world unit tt [1; 0])
      = Some (Ok tt, w') /\
    report_file unit w' = Some outs /\
    Forall2 (outcome_of_mode false) ["a.json"; "b.json"] outs.
Proof.
  apply (X12_report_matches_mode Demo.LIVE Demo.missing_image unit
           (Demo.network Demo.healthy) 100 tt [1; 0] "operator"
           ["a.json"; "b.json"]).
  - reflexivity.
  - simpl. lia.
  - simpl. lia.
  - reflexivity.
Defined.
